(** * Bitbucket snippets to BookStack: revision replay, verified

    A shallow embedding of [migrate_bitbucket_snippets_to_bookstack.py].

    The script talks to two remote systems over HTTP.  Every call to
    [make_request] is modelled as a handler that takes the current state of
    the outside world and returns the result of the request together with
    the new state of the world.  The world is abstract: the remote systems
    may answer differently each time they are asked, and a call to one of
    them may change what the other one answers.

    The script is embedded twice.  In the first part ([Section Engine])
    what [make_request] hands to its caller is [None] or a value of the
    shape that the endpoint documents: a listing page, a snippet, a created
    object, the text of a raw file.  [make_request] catches every transport
    error, HTTP error status and JSON decoding error and returns [None]
    (and also on a 404 for a raw file, on a 204 and on a body [null]); this
    is the [None] of the handlers' [option] results.

    The second part ([make_request] and [Module Http]) starts from the HTTP
    exchange.  [make_request] is a function of what [requests.request] does,
    a caller that expects a dictionary may be handed the text of a response
    that did not announce JSON, and the [TypeError] that the script raises
    when it indexes such a text is a way for the process to end, with exit
    status 1.  The two parts do the same whenever no reply is such a text
    ([main_typed]).

    In both parts decoded JSON has the shape that the two APIs document: a
    list where an object is expected, or a book without ['id'], on which
    the script would raise as well, are outside the model.

    The two [while] loops of the script (cursor pagination and offset
    pagination) need not terminate against an arbitrary server; they are
    modelled with fuel, and running out of fuel is an outcome of its own
    ([None] in the type [M]).  The [for] loops are total.

    Identifiers of books and pages are integers; the script tests them for
    truthiness, so the model does too ([truthy_id]). *)

From Stdlib Require Import String Ascii List ZArith Bool Arith Lia Sorted.
Import ListNotations.
Local Open Scope string_scope.
Local Open Scope list_scope.

Set Implicit Arguments.

(** ** Python truthiness of the values the script tests *)

(** [if s:] on a string. *)
Definition truthy_str (s : string) : bool :=
  match s with EmptyString => false | String _ _ => true end.

(** [if x:] on a value that is [None] or a string. *)
Definition truthy_ostr (o : option string) : bool :=
  match o with Some s => truthy_str s | None => false end.

(** [if x:] on a value that is [None] or an integer identifier. *)
Definition truthy_id (o : option Z) : bool :=
  match o with Some z => negb (z =? 0)%Z | None => false end.

(** [d.get(key, default)]. *)
Definition get_default {A : Type} (o : option A) (d : A) : A :=
  match o with Some a => a | None => d end.

(** ** Data exchanged with the two remote systems *)

(** A commit of a snippet.  [commit['hash']] is mandatory in the script, the
    other keys are read with [.get]; ['author'] is itself a dictionary that
    may or may not have a ['raw'] key. *)
Record commit : Type := {
  c_hash : string;
  c_date : option string;
  c_message : option string;
  c_author : option (option string)
}.

(** A snippet as returned by the listing and by the single-snippet
    endpoint.  ['files'] is a dictionary; only its keys, in order, matter. *)
Record snippet : Type := {
  sn_id : option string;
  sn_title : option string;
  sn_files : option (list string);
  sn_updated_on : option string
}.

(** One page of a cursor-paginated Bitbucket listing, as seen by
    [get_paginated_results]: either the decoded data is not a dictionary
    with a ['values'] key, or it has ['values'] and possibly ['next']. *)
Inductive paged (A : Type) : Type :=
| Unexpected : paged A
| Page (values : list A) (next : option string) : paged A.
Arguments Unexpected {A}.

Record book : Type := { bk_id : Z; bk_name : option string }.

Record page : Type := { pg_id : Z; pg_name : option string }.

(** Response of [GET api/pages]: ['data'] and ['total'] may be missing. *)
Record pages_response : Type := {
  pr_data : option (list page);
  pr_total : option Z
}.

(** Response of a [POST] that creates a book or a page: a dictionary that
    may or may not carry an ['id']. *)
Record created : Type := { cr_id : option Z }.

(** Command-line arguments that reach the engine. *)
Record arguments : Type := {
  bb_user : string;
  bb_workspace : option string;
  skip_existing_books : bool;
  skip_existing_pages : bool;
  test_snippet_id : option string
}.

(** ** Calls made to the destination *)

Inductive call : Type :=
| CreateBook (name : string)
| CreatePage (book_id : Z) (page_name content : string)
| UpdatePage (page_id : Z) (content summary : string).

Definition is_create_page (c : call) : bool :=
  match c with CreatePage _ _ _ => true | _ => false end.

Definition is_update_page (c : call) : bool :=
  match c with UpdatePage _ _ _ => true | _ => false end.

Definition is_create_book (c : call) : bool :=
  match c with CreateBook _ => true | _ => false end.

(** What [main] does that the claims observe: a destination call, with the
    snippet, and for page calls the file and the position [i] of the commit
    in [enumerate(commits)]; and the warning of line 413 that a page was not
    created. *)
Inductive event : Type :=
| OnBook (snippet_id : string) (c : call)
| OnPage (snippet_id filename : string) (i : nat) (c : call)
| NotCreated (snippet_id filename : string).

Definition event_call (e : event) : option call :=
  match e with
  | OnBook _ c => Some c
  | OnPage _ _ _ c => Some c
  | NotCreated _ _ => None
  end.

Definition event_is (p : call -> bool) (e : event) : bool :=
  match event_call e with Some c => p c | None => false end.

Definition event_file (e : event) : option string :=
  match e with
  | OnBook _ _ => None
  | OnPage _ filename _ _ => Some filename
  | NotCreated _ filename => Some filename
  end.

(** ** The remote systems *)

(** One handler per [make_request] call site. *)
Record Remote (World : Type) : Type := {
  (* GET of a snippet listing page *)
  bb_snippets_page : string -> World -> option (paged snippet) * World;
  (* GET of a commit listing page *)
  bb_commits_page : string -> World -> option (paged commit) * World;
  (* GET of one snippet; [None] also when the decoded value is falsy *)
  bb_snippet : string -> World -> option snippet * World;
  (* GET of a raw file: [None] on 404 and on any error *)
  bb_raw_file : string -> World -> option string * World;
  (* GET api/books?filter[name]=name: the response and its ['data'] *)
  bs_list_books : string -> World -> option (option (list book)) * World;
  (* POST api/books *)
  bs_post_book : string -> World -> option created * World;
  (* GET api/pages?book_id=..&count=..&offset=.. *)
  bs_list_pages : Z -> Z -> Z -> World -> option pages_response * World;
  (* POST api/pages with book_id, name, markdown *)
  bs_post_page : Z -> string -> string -> World -> option created * World;
  (* PUT api/pages/<id> with markdown, summary; truthiness of the result *)
  bs_put_page : Z -> string -> string -> World -> bool * World
}.

(** ** Computations that may run out of fuel *)

Definition M (World A : Type) : Type := World -> option (A * World).

Definition ret {World A : Type} (a : A) : M World A := fun w => Some (a, w).

Definition bind {World A B : Type} (m : M World A) (k : A -> M World B)
  : M World B :=
  fun w => match m w with
           | Some (a, w') => k a w'
           | None => None
           end.

(** A single request always returns. *)
Definition lift {World A : Type} (f : World -> A * World) : M World A :=
  fun w => Some (f w).

Notation "x <- m ;; k" := (bind m (fun x => k))
  (at level 61, m at next level, right associativity).

Definition eqb_ostr (o : option string) (s : string) : bool :=
  match o with Some t => String.eqb t s | None => false end.

Definition nl : string := String (ascii_of_nat 10) EmptyString.

Definition BITBUCKET_API_BASE : string := "https://api.bitbucket.org/2.0/".

(** ** The replay loop's variables *)

(** The four variables that [main] keeps for one file while it applies the
    commits. *)
Record cursor : Type := {
  page_id : option Z;
  page_created_in_this_run : bool;
  processed_first_commit_for_page : bool;
  previous_page_content : option string
}.

(** How one iteration of a [for] loop ends: it falls through to the next
    iteration (also by [continue]), or it leaves the loop by [break]. *)
Inductive flow : Type := Next | Break.

Definition commit_author (c : commit) : string :=
  match c_author c with
  | Some (Some raw) => raw
  | _ => "Unknown author"
  end.

(** [commit_hash[:7]]. *)
Definition short_hash (c : commit) : string := substring 0 7 (c_hash c).

Definition commit_info (c : commit) : string :=
  "Commit " ++ short_hash c ++ " by " ++ commit_author c ++ " on "
    ++ get_default (c_date c) "Unknown Date" ++ ". Msg: "
    ++ get_default (c_message c) "No message".

(** Line 378 of the script: the text prepended to the file content. *)
Definition header_info : string := nl ++ nl.

Definition compose_page_content (content : string) : string :=
  header_info ++ content.

(** The commit synthesised when a snippet has no commit history. *)
Definition synthesized_commit (snippet_details : snippet) : commit :=
  {| c_hash := "HEAD";
     c_date := Some (get_default (sn_updated_on snippet_details) "N/A");
     c_message := Some "Current state";
     c_author := Some (Some "N/A") |}.

Definition is_empty {A : Type} (l : list A) : bool :=
  match l with [] => true | _ :: _ => false end.

Definition tag_calls (i : nat) (calls : list call) : list (nat * call) :=
  map (fun c => (i, c)) calls.

(** The variables after an iteration that recorded [payload]. *)
Definition recorded (s : cursor) (payload : string) : cursor :=
  {| page_id := page_id s;
     page_created_in_this_run := page_created_in_this_run s;
     processed_first_commit_for_page := processed_first_commit_for_page s;
     previous_page_content := Some payload |}.

(** The variables after a successful creation with [payload]. *)
Definition just_created (id : Z) (payload : string) : cursor :=
  {| page_id := Some id;
     page_created_in_this_run := true;
     processed_first_commit_for_page := true;
     previous_page_content := Some payload |}.

Definition creates (tr : list (nat * call)) : list (nat * call) :=
  filter (fun ic => is_create_page (snd ic)) tr.

(** The page-create calls made for the file [filename]. *)
Definition creates_page_of (filename : string) (e : event) : bool :=
  eqb_ostr (event_file e) filename && event_is is_create_page e.

(** The page identifier is set, or the page was created in this run. *)
Definition settled (s : cursor) : bool :=
  truthy_id (page_id s) || page_created_in_this_run s.

(** Line 253: the workspace defaults to the user. *)
Definition bitbucket_workspace (args : arguments) : string :=
  if truthy_ostr (bb_workspace args)
  then get_default (bb_workspace args) EmptyString
  else bb_user args.

Section Engine.

Context {World : Type}.
Variable R : Remote World.

(** [urllib.parse.quote] and [urllib.parse.urljoin]. *)
Variable quote : string -> string.
Variable urljoin : string -> string -> string.

(** *** get_paginated_results *)

Section Paginated.

Context {A : Type}.
Variable request : string -> World -> option (paged A) * World.

(** The [while next_url:] loop, entered with the accumulated [results] and
    the current [next_url].  The result is [None] when the fuel runs out,
    [Some (None, _)] when the function returns [None], and
    [Some (Some l, _)] when it returns the list [l]. *)
Fixpoint paginate (fuel : nat) (results : list A)
         (next_url : option string) (w : World)
  : option (option (list A) * World) :=
  if truthy_ostr next_url then
    match fuel with
    | O => None
    | S fuel' =>
        let (data, w1) := request (get_default next_url EmptyString) w in
        match data with
        | None => Some (None, w1)
        | Some Unexpected => Some (Some results, w1)
        | Some (Page values next) =>
            paginate fuel' (results ++ values) next w1
        end
    end
  else Some (Some results, w).

Definition get_paginated_results (fuel : nat) (url : string)
  : M World (option (list A)) :=
  paginate fuel [] (Some url).

(** How a listing ends: the last page had no ['next'] cursor, a response
    had no ['values'], or a request failed. *)
Inductive ending : Type := LastPage | BadShape | RequestFailed.

(** [walk next w batches e w']: asked from the cursor [next] on in the world
    [w], the server answers with pages whose item batches are [batches], in
    this order, and then the listing ends as [e] says, in the world [w']. *)
Inductive walk
  : option string -> World -> list (list A) -> ending -> World -> Prop :=
| walk_last : forall next w,
    truthy_ostr next = false ->
    walk next w [] LastPage w
| walk_failed : forall next w w1,
    truthy_ostr next = true ->
    request (get_default next EmptyString) w = (None, w1) ->
    walk next w [] RequestFailed w1
| walk_shape : forall next w w1,
    truthy_ostr next = true ->
    request (get_default next EmptyString) w = (Some Unexpected, w1) ->
    walk next w [] BadShape w1
| walk_page : forall next w values next' w1 batches e w2,
    truthy_ostr next = true ->
    request (get_default next EmptyString) w
    = (Some (Page values next'), w1) ->
    walk next' w1 batches e w2 ->
    walk next w (values :: batches) e w2.

End Paginated.

(** *** Bitbucket API functions *)

Definition snippets_url (workspace : string) : string :=
  urljoin BITBUCKET_API_BASE ("snippets/" ++ quote workspace).

Definition snippet_url (workspace snippet_id : string) : string :=
  urljoin BITBUCKET_API_BASE
          ("snippets/" ++ quote workspace ++ "/" ++ quote snippet_id).

Definition commits_url (workspace snippet_id : string) : string :=
  urljoin BITBUCKET_API_BASE
          ("snippets/" ++ quote workspace ++ "/" ++ quote snippet_id
             ++ "/commits").

Definition file_url (workspace snippet_id commit_hash file_path : string)
  : string :=
  urljoin BITBUCKET_API_BASE
          ("snippets/" ++ quote workspace ++ "/" ++ quote snippet_id ++ "/"
             ++ commit_hash ++ "/files/" ++ quote file_path).

Definition get_bitbucket_snippets (fuel : nat) (workspace : string)
           (specific_snippet_id : option string)
  : M World (option (list snippet)) :=
  if truthy_ostr specific_snippet_id then
    snippet_data <-
      lift (bb_snippet R
              (snippet_url workspace
                           (get_default specific_snippet_id EmptyString))) ;;
    ret (match snippet_data with
         | Some s => Some [s]
         | None => Some []
         end)
  else
    get_paginated_results (bb_snippets_page R) fuel (snippets_url workspace).

Definition get_snippet_details (workspace snippet_id : string) (w : World)
  : option snippet * World :=
  bb_snippet R (snippet_url workspace snippet_id) w.

Definition get_snippet_commits (fuel : nat) (workspace snippet_id : string)
  : M World (option (list commit)) :=
  commits <- get_paginated_results (bb_commits_page R) fuel
               (commits_url workspace snippet_id) ;;
  ret (match commits with
       | None => None
       | Some cs => Some (rev cs)
       end).

Definition get_snippet_revision_content
           (workspace snippet_id commit_hash file_path : string) (w : World)
  : option string * World :=
  bb_raw_file R (file_url workspace snippet_id commit_hash file_path) w.

(** *** Bookstack API functions *)

Definition find_bookstack_book (name : string) (w : World)
  : option book * World :=
  let (response, w1) := bs_list_books R name w in
  match response with
  | Some (Some data) => (find (fun b => eqb_ostr (bk_name b) name) data, w1)
  | _ => (None, w1)
  end.

Definition create_bookstack_book (name : string) (w : World)
  : option created * World :=
  bs_post_book R name w.

(** The [while True:] loop of [find_bookstack_page], entered with the
    current [offset]; [count] is 100. *)
Fixpoint find_page_from (fuel : nat) (book_id : Z) (page_name : string)
         (offset : Z) (w : World) : option (option page * World) :=
  match fuel with
  | O => None
  | S fuel' =>
      let (response, w1) := bs_list_pages R book_id 100 offset w in
      match response with
      | None => Some (None, w1)
      | Some resp =>
          match pr_data resp with
          | None => Some (None, w1)
          | Some [] => Some (None, w1)
          | Some current_pages =>
              match find (fun p => eqb_ostr (pg_name p) page_name)
                         current_pages with
              | Some p => Some (Some p, w1)
              | None =>
                  let len := Z.of_nat (length current_pages) in
                  if (get_default (pr_total resp) 0 <=? offset + len)%Z
                  then Some (None, w1)
                  else find_page_from fuel' book_id page_name
                                      (offset + len)%Z w1
              end
          end
      end
  end.

Definition find_bookstack_page (fuel : nat) (book_id : Z)
           (page_name : string) : M World (option page) :=
  find_page_from fuel book_id page_name 0%Z.

(** [commit_info] is only printed by [create_bookstack_page]. *)
Definition create_bookstack_page (book_id : Z) (page_name content : string)
           (commit_info : string) (w : World) : option created * World :=
  bs_post_page R book_id page_name content w.

Definition update_summary (commit_info : string) : string :=
  "Update from Bitbucket (" ++ commit_info ++ ")".

Definition update_bookstack_page (page_id : Z) (content : string)
           (commit_info : string) (w : World) : bool * World :=
  bs_put_page R page_id content (update_summary commit_info) w.

(** *** main: applying the commits to one file *)

Section Replay.

Variables (workspace snippet_id : string) (book_id : Z) (filename : string).

(** The body of [for i, commit in enumerate(commits):] (lines 361-407).  It
    returns how the iteration ends, the variables after it and the
    destination calls it made. *)
Definition replay_step (c : commit) (s : cursor) (w : World)
  : (flow * cursor * list call) * World :=
  let (content, w1) :=
    get_snippet_revision_content workspace snippet_id (c_hash c) filename w in
  match content with
  | None => ((Next, s, []), w1)
  | Some content =>
      let page_content := compose_page_content content in
      if negb (truthy_id (page_id s)) && negb (page_created_in_this_run s)
      then
        let (created_page, w2) :=
          create_bookstack_page book_id filename page_content
                                (commit_info c) w1 in
        let calls := [CreatePage book_id filename page_content] in
        match created_page with
        | Some {| cr_id := Some id |} =>
            ((Next,
              {| page_id := Some id;
                 page_created_in_this_run := true;
                 processed_first_commit_for_page := true;
                 previous_page_content := Some page_content |},
              calls), w2)
        | _ => ((Break, s, calls), w2)
        end
      else if truthy_id (page_id s)
              && negb (processed_first_commit_for_page s)
      then
        if negb (eqb_ostr (previous_page_content s) page_content)
        then
          let (updated_page, w2) :=
            update_bookstack_page (get_default (page_id s) 0%Z) page_content
                                  (commit_info c) w1 in
          ((Next, recorded s page_content,
            [UpdatePage (get_default (page_id s) 0%Z) page_content
                        (update_summary (commit_info c))]), w2)
        else ((Next, recorded s page_content, []), w1)
      else if truthy_id (page_id s) && processed_first_commit_for_page s
      then
        ((Next,
          {| page_id := page_id s;
             page_created_in_this_run := page_created_in_this_run s;
             processed_first_commit_for_page := false;
             previous_page_content := Some page_content |},
          []), w1)
      else ((Next, recorded s page_content, []), w1)
  end.

(** The [for] loop itself, from position [i] on. *)
Fixpoint replay (i : nat) (commits : list commit) (s : cursor) (w : World)
  : (cursor * list (nat * call)) * World :=
  match commits with
  | [] => ((s, []), w)
  | c :: rest =>
      match replay_step c s w with
      | ((Break, s1, calls), w1) => ((s1, tag_calls i calls), w1)
      | ((Next, s1, calls), w1) =>
          let '((s2, tr), w2) := replay (S i) rest s1 w1 in
          ((s2, tag_calls i calls ++ tr), w2)
      end
  end.

(** The variables on entry of the loop (lines 342-359). *)
Definition initial_cursor (pid : option Z) : cursor :=
  {| page_id := pid;
     page_created_in_this_run := false;
     processed_first_commit_for_page := false;
     previous_page_content := None |}.

(** The test of line 412: the warning that the page was not created. *)
Definition not_created (s : cursor) : bool :=
  negb (truthy_id (page_id s)) && negb (page_created_in_this_run s).

(** [all_absent commits w]: the content of the file is fetched for each of
    [commits] in turn, from the world [w] on; the result is the world after
    the last fetch when every fetch returned [None]. *)
Fixpoint all_absent (commits : list commit) (w : World) : option World :=
  match commits with
  | [] => Some w
  | c :: rest =>
      match get_snippet_revision_content workspace snippet_id (c_hash c)
                                         filename w with
      | (None, w1) => all_absent rest w1
      | (Some _, _) => None
      end
  end.

End Replay.

(** *** main: the files of one snippet *)

Section Files.

Variables (fuel : nat) (args : arguments).
Variables (workspace snippet_id : string) (book_id : Z).
Variable commits : list commit.

Definition page_events (filename : string) (tr : list (nat * call))
  : list event :=
  map (fun ic => OnPage snippet_id filename (fst ic) (snd ic)) tr.

(** The body of [for filename in current_files.keys():] (lines 340-413). *)
Definition process_file (filename : string) : M World (list event) :=
  target_page <- find_bookstack_page fuel book_id filename ;;
  let run (pid : option Z) : M World (list event) :=
    r <- lift (replay workspace snippet_id book_id filename 0 commits
                      (initial_cursor pid)) ;;
    ret (page_events filename (snd r)
           ++ (if not_created (fst r)
               then [NotCreated snippet_id filename] else [])) in
  match target_page with
  | Some p =>
      if skip_existing_pages args then ret []
      else run (Some (pg_id p))
  | None => run None
  end.

Fixpoint process_files (current_files : list string) : M World (list event) :=
  match current_files with
  | [] => ret []
  | filename :: rest =>
      evs <- process_file filename ;;
      evs' <- process_files rest ;;
      ret (evs ++ evs')
  end.

End Files.

(** *** main: one snippet *)

Section Snippets.

Variables (fuel : nat) (args : arguments) (workspace : string).

(** Lines 312-413, once [book_id] has been determined. *)
Definition process_book (snippet_id : string) (book_id : Z)
  : M World (list event) :=
  if negb (truthy_id (Some book_id)) then ret []
  else
    snippet_details <- lift (get_snippet_details workspace snippet_id) ;;
    match snippet_details with
    | None => ret []
    | Some details =>
        match sn_files details with
        | None => ret []
        | Some current_files =>
            if is_empty current_files then ret []
            else
              fetched <- get_snippet_commits fuel workspace snippet_id ;;
              match fetched with
              | None => ret []
              | Some commits =>
                  process_files fuel args workspace snippet_id book_id
                    (if is_empty commits
                     then [synthesized_commit details]
                     else commits)
                    current_files
              end
        end
    end.

(** The body of [for snippet_summary in snippets:] (lines 285-413). *)
Definition process_snippet (snippet_summary : snippet)
  : M World (list event) :=
  match sn_id snippet_summary with
  | None => ret []
  | Some snippet_id =>
      let snippet_title :=
        get_default (sn_title snippet_summary)
                    ("Untitled Snippet " ++ snippet_id)%string in
      target_book <- lift (find_bookstack_book snippet_title) ;;
      match target_book with
      | Some b =>
          if skip_existing_books args then ret []
          else process_book snippet_id (bk_id b)
      | None =>
          created_book <- lift (create_bookstack_book snippet_title) ;;
          let evs := [OnBook snippet_id (CreateBook snippet_title)] in
          match created_book with
          | Some {| cr_id := Some id |} =>
              evs' <- process_book snippet_id id ;;
              ret (evs ++ evs')
          | _ => ret evs
          end
      end
  end.

Fixpoint process_snippets (snippets : list snippet) : M World (list event) :=
  match snippets with
  | [] => ret []
  | snippet_summary :: rest =>
      evs <- process_snippet snippet_summary ;;
      evs' <- process_snippets rest ;;
      ret (evs ++ evs')
  end.

End Snippets.

(** *** main *)

(** [main] returns the exit code of the process and what it did, when
    every reply is [None] or a dictionary; [Http.main] below is [main] over
    what [make_request] may return, with the exception that a reply of
    another kind raises. *)
Definition main (fuel : nat) (args : arguments) : M World (Z * list event) :=
  snippets <-
    get_bitbucket_snippets fuel (bitbucket_workspace args)
                           (test_snippet_id args) ;;
  match snippets with
  | None => ret (1%Z, [])
  | Some snippets =>
      if is_empty snippets then ret (0%Z, [])
      else
        evs <- process_snippets fuel args (bitbucket_workspace args)
                                snippets ;;
        ret (0%Z, evs)
  end.

End Engine.

(** ** make_request

    What [requests.request] can do: raise a [RequestException] (no
    connection, timeout), or return a response.  Of the response the script
    reads the status code, the Content-Type header, the decoded JSON and the
    text.  [response.json()] raises on an undecodable body ([None] below);
    the body [null] decodes to Python's [None] ([Some None] below), any
    other body to a value ([Some (Some j)]). *)

Record http_response (J : Type) : Type := {
  status_code : Z;
  content_type : option string;
  json : option (option J);
  text : string
}.

Inductive http_outcome (J : Type) : Type :=
| RequestError : http_outcome J
| Responded (r : http_response J) : http_outcome J.
Arguments RequestError {J}.

(** What [make_request] returns when it does not return [None]: decoded
    JSON other than [null], or the text of the response. *)
Inductive reply (J : Type) : Type :=
| Json (j : J) : reply J
| Text (s : string) : reply J.
Arguments Text {J}.

(** [sub in s] on strings. *)
Definition contains (sub s : string) : bool :=
  match index 0 sub s with Some _ => true | None => false end.

(** [response.raise_for_status()] raises for the 4xx and 5xx codes. *)
Definition raises_for_status (status : Z) : bool :=
  (400 <=? status)%Z && (status <? 600)%Z.

(** Lines 16-54, without the printing: every exception of the [try] block
    ends in [return None], and line 37 returns the [None] that a body [null]
    decodes to. *)
Definition make_request {J : Type} (expect_json : bool)
           (caller_info : string) (o : http_outcome J) : option (reply J) :=
  match o with
  | RequestError => None
  | Responded r =>
      if (status_code r =? 404)%Z
         && contains "get_snippet_revision_content" caller_info
      then None
      else if raises_for_status (status_code r) then None
      else if (status_code r =? 204)%Z then None
      else if expect_json
              && contains "application/json"
                          (get_default (content_type r) EmptyString)
      then match json r with
           | Some (Some j) => Some (Json j)
           | _ => None
           end
      else Some (Text (text r))
  end.

(** The test of line 68 on what line 63 received: a text is not a
    dictionary. *)
Definition paged_of_reply {A : Type} (data : reply (paged A)) : paged A :=
  match data with
  | Json p => p
  | Text _ => Unexpected
  end.

(** Line 63: the request of one listing page, over HTTP. *)
Definition request_page {World A : Type}
           (http : string -> World -> http_outcome (paged A) * World)
           (url : string) (w : World) : option (paged A) * World :=
  let (o, w1) := http url w in
  (option_map paged_of_reply (make_request true EmptyString o), w1).

(** Lines 126-136 of [get_snippet_revision_content]: [None] stays [None], a
    string is returned as it is, and a value that is neither a string nor
    bytes has no [decode] and is replaced by the empty string. *)
Definition revision_content_of {J : Type} (content : option (reply J))
  : option string :=
  match content with
  | None => None
  | Some (Text s) => Some s
  | Some (Json _) => Some EmptyString
  end.

(** Lines 123-136: the request of a raw file, over HTTP. *)
Definition request_raw_file {World J : Type}
           (http : string -> World -> http_outcome J * World)
           (url : string) (w : World) : option string * World :=
  let (o, w1) := http url w in
  (revision_content_of
     (make_request false "get_snippet_revision_content" o), w1).

(** A remote whose Bitbucket listings and raw files go through
    [make_request]. *)
Definition over_http {World J : Type} (R : Remote World)
           (http_snippets : string -> World
                            -> http_outcome (paged snippet) * World)
           (http_commits : string -> World
                           -> http_outcome (paged commit) * World)
           (http_raw : string -> World -> http_outcome J * World)
  : Remote World :=
  {| bb_snippets_page := request_page http_snippets;
     bb_commits_page := request_page http_commits;
     bb_snippet := bb_snippet R;
     bb_raw_file := request_raw_file http_raw;
     bs_list_books := bs_list_books R;
     bs_post_book := bs_post_book R;
     bs_list_pages := bs_list_pages R;
     bs_post_page := bs_post_page R;
     bs_put_page := bs_put_page R |}.

(** ** The script over HTTP

    The functions of [Section Engine] take what [make_request] returns to a
    caller that expects JSON to be [None] or a dictionary.  It can also be a
    text: line 44 returns the body of every good response that does not
    announce JSON.  [get_paginated_results] tests for that (line 68).  The
    other callers test the reply with [key in response], which on a text is
    a substring test, and then read [response[key]], which on a text raises
    a [TypeError] that nothing catches: the interpreter prints the traceback
    and exits with status 1.

    Below are the functions of the script once more, over the HTTP exchanges
    themselves and with this exception as an outcome of its own.  Decoded
    JSON other than [null] is still taken to be an object of the shape the
    two APIs document: books and pages carry an ['id'], commits a ['hash'],
    ['values'], ['data'] and ['files'] are collections. *)

Module Http.

(** One HTTP endpoint per [make_request] call site.  Of the JSON that
    [PUT api/pages/<id>] returns only the truthiness is used. *)
Record Server (World : Type) : Type := {
  get_snippets_page : string -> World
                      -> http_outcome (paged snippet) * World;
  get_commits_page : string -> World -> http_outcome (paged commit) * World;
  get_snippet : string -> World -> http_outcome snippet * World;
  get_raw_file : string -> World -> http_outcome unit * World;
  get_books : string -> World -> http_outcome (option (list book)) * World;
  post_book : string -> World -> http_outcome created * World;
  get_pages : Z -> Z -> Z -> World -> http_outcome pages_response * World;
  post_page : Z -> string -> string -> World -> http_outcome created * World;
  put_page : Z -> string -> string -> World -> http_outcome bool * World
}.

(** The exception that indexing a text with a key raises, with the line of
    the script that raises it. *)
Inductive exception : Type := TypeError (line : nat).

Inductive result (A : Type) : Type :=
| Returns (a : A) : result A
| Raises (e : exception) : result A.
Arguments Raises {A}.

(** How the process ends: by [sys.exit(code)] or by the return of [main],
    which is code 0, or by an exception that nothing catches. *)
Inductive halt : Type :=
| Exit (code : Z)
| Uncaught (e : exception).

(** The exit status that the shell sees. *)
Definition exit_status (h : halt) : Z :=
  match h with
  | Exit code => code
  | Uncaught _ => 1%Z
  end.

(** What a part of [main] did: the events, and the exception that ended it,
    if any. *)
Definition did : Type := (list event * option exception)%type.

(** [response and key in response] on a reply that is a text: the text
    contains the key, so that the script goes on to [response[key]]. *)
Definition text_with {J : Type} (key : string) (response : option (reply J))
  : bool :=
  match response with
  | Some (Text s) => contains key s
  | _ => false
  end.

(** The reply as the first part has it: the dictionary, if it is one. *)
Definition as_dict {J : Type} (response : option (reply J)) : option J :=
  match response with
  | Some (Json j) => Some j
  | _ => None
  end.

(** Python truthiness of what [update_bookstack_page] returns. *)
Definition truthy_reply (response : option (reply bool)) : bool :=
  match response with
  | Some (Json b) => b
  | Some (Text s) => truthy_str s
  | None => false
  end.

Section Script.

Context {World : Type}.
Variable srv : Server World.
Variable quote : string -> string.
Variable urljoin : string -> string -> string.

(** [make_request(..., expect_json=True)] on one exchange. *)
Definition request {J : Type} (http : World -> http_outcome J * World)
           (w : World) : option (reply J) * World :=
  let (o, w1) := http w in (make_request true EmptyString o, w1).

(** *** Bitbucket API functions *)

(** Line 86 keeps a text that is not empty as the one item of the list.  It
    drops an empty dictionary, which is kept here: having no ['id'] it is
    passed over by line 285, and the run ends with code 0 and without a
    request either way. *)
Definition get_bitbucket_snippets (fuel : nat) (workspace : string)
           (specific_snippet_id : option string)
  : M World (option (list (reply snippet))) :=
  if truthy_ostr specific_snippet_id then
    snippet_data <-
      lift (request
              (get_snippet srv
                 (snippet_url quote urljoin workspace
                    (get_default specific_snippet_id EmptyString)))) ;;
    ret (match snippet_data with
         | Some (Json sn) => Some [Json sn]
         | Some (Text s) => if truthy_str s then Some [Text s] else Some []
         | None => Some []
         end)
  else
    snippets <-
      get_paginated_results (request_page (get_snippets_page srv)) fuel
                            (snippets_url quote urljoin workspace) ;;
    ret (option_map (map (@Json snippet)) snippets).

Definition get_snippet_details (workspace snippet_id : string) (w : World)
  : option (reply snippet) * World :=
  request (get_snippet srv (snippet_url quote urljoin workspace snippet_id))
          w.

Definition get_snippet_commits (fuel : nat) (workspace snippet_id : string)
  : M World (option (list commit)) :=
  commits <-
    get_paginated_results (request_page (get_commits_page srv)) fuel
                          (commits_url quote urljoin workspace snippet_id) ;;
  ret (match commits with
       | None => None
       | Some cs => Some (rev cs)
       end).

Definition get_snippet_revision_content
           (workspace snippet_id commit_hash file_path : string) (w : World)
  : option string * World :=
  request_raw_file (get_raw_file srv)
                   (file_url quote urljoin workspace snippet_id commit_hash
                             file_path) w.

(** *** Bookstack API functions *)

(** Line 149 reads [response['data']] when the reply is truthy and has
    ['data'] in it. *)
Definition find_bookstack_book (name : string) (w : World)
  : result (option book) * World :=
  let (response, w1) := request (get_books srv name) w in
  if text_with "data" response then (Raises (TypeError 149), w1)
  else
    match as_dict response with
    | Some (Some data) =>
        (Returns (find (fun b => eqb_ostr (bk_name b) name) data), w1)
    | _ => (Returns None, w1)
    end.

Definition create_bookstack_book (name : string) (w : World)
  : option (reply created) * World :=
  request (post_book srv name) w.

(** The [while True:] loop of [find_bookstack_page]; line 192 reads
    [response['data']] when the test of line 188 has let the reply
    through. *)
Fixpoint find_page_from (fuel : nat) (book_id : Z) (page_name : string)
         (offset : Z) (w : World) : option (result (option page) * World) :=
  match fuel with
  | O => None
  | S fuel' =>
      let (response, w1) := request (get_pages srv book_id 100 offset) w in
      if text_with "data" response then Some (Raises (TypeError 192), w1)
      else
        match as_dict response with
        | None => Some (Returns None, w1)
        | Some resp =>
            match pr_data resp with
            | None => Some (Returns None, w1)
            | Some [] => Some (Returns None, w1)
            | Some current_pages =>
                match find (fun p => eqb_ostr (pg_name p) page_name)
                           current_pages with
                | Some p => Some (Returns (Some p), w1)
                | None =>
                    let len := Z.of_nat (length current_pages) in
                    if (get_default (pr_total resp) 0 <=? offset + len)%Z
                    then Some (Returns None, w1)
                    else find_page_from fuel' book_id page_name
                                        (offset + len)%Z w1
                end
            end
        end
  end.

Definition find_bookstack_page (fuel : nat) (book_id : Z)
           (page_name : string) : M World (result (option page)) :=
  find_page_from fuel book_id page_name 0%Z.

Definition create_bookstack_page (book_id : Z) (page_name content : string)
           (commit_info : string) (w : World)
  : option (reply created) * World :=
  request (post_page srv book_id page_name content) w.

Definition update_bookstack_page (page_id : Z) (content : string)
           (commit_info : string) (w : World)
  : option (reply bool) * World :=
  request (put_page srv page_id content (update_summary commit_info)) w.

(** *** main: applying the commits to one file *)

Section Replay.

Variables (workspace snippet_id : string) (book_id : Z) (filename : string).

(** The body of [for i, commit in enumerate(commits):] (lines 361-407).
    Line 386 reads [created_page['id']] when the reply is truthy and has
    ['id'] in it; what [update_bookstack_page] returns is only tested for
    truthiness, to print an error (lines 398-399). *)
Definition replay_step (c : commit) (s : cursor) (w : World)
  : (result flow * cursor * list call) * World :=
  let (content, w1) :=
    get_snippet_revision_content workspace snippet_id (c_hash c) filename w in
  match content with
  | None => ((Returns Next, s, []), w1)
  | Some content =>
      let page_content := compose_page_content content in
      if negb (truthy_id (page_id s)) && negb (page_created_in_this_run s)
      then
        let (created_page, w2) :=
          create_bookstack_page book_id filename page_content
                                (commit_info c) w1 in
        let calls := [CreatePage book_id filename page_content] in
        if text_with "id" created_page
        then ((Raises (TypeError 386), s, calls), w2)
        else
          match as_dict created_page with
          | Some {| cr_id := Some id |} =>
              ((Returns Next,
                {| page_id := Some id;
                   page_created_in_this_run := true;
                   processed_first_commit_for_page := true;
                   previous_page_content := Some page_content |},
                calls), w2)
          | _ => ((Returns Break, s, calls), w2)
          end
      else if truthy_id (page_id s)
              && negb (processed_first_commit_for_page s)
      then
        if negb (eqb_ostr (previous_page_content s) page_content)
        then
          let (updated_page, w2) :=
            update_bookstack_page (get_default (page_id s) 0%Z) page_content
                                  (commit_info c) w1 in
          ((Returns Next, recorded s page_content,
            [UpdatePage (get_default (page_id s) 0%Z) page_content
                        (update_summary (commit_info c))]), w2)
        else ((Returns Next, recorded s page_content, []), w1)
      else if truthy_id (page_id s) && processed_first_commit_for_page s
      then
        ((Returns Next,
          {| page_id := page_id s;
             page_created_in_this_run := page_created_in_this_run s;
             processed_first_commit_for_page := false;
             previous_page_content := Some page_content |},
          []), w1)
      else ((Returns Next, recorded s page_content, []), w1)
  end.

(** The [for] loop itself, from position [i] on: the variables when it
    ends, or the exception that ends it, and the calls made. *)
Fixpoint replay (i : nat) (commits : list commit) (s : cursor) (w : World)
  : (result cursor * list (nat * call)) * World :=
  match commits with
  | [] => ((Returns s, []), w)
  | c :: rest =>
      match replay_step c s w with
      | ((Raises e, _, calls), w1) => ((Raises e, tag_calls i calls), w1)
      | ((Returns Break, s1, calls), w1) =>
          ((Returns s1, tag_calls i calls), w1)
      | ((Returns Next, s1, calls), w1) =>
          let '((r, tr), w2) := replay (S i) rest s1 w1 in
          ((r, tag_calls i calls ++ tr), w2)
      end
  end.

End Replay.

(** *** main: the files of one snippet *)

Section Files.

Variables (fuel : nat) (args : arguments).
Variables (workspace snippet_id : string) (book_id : Z).
Variable commits : list commit.

(** The body of [for filename in current_files.keys():] (lines 340-413). *)
Definition process_file (filename : string) : M World did :=
  target_page <- find_bookstack_page fuel book_id filename ;;
  let run (pid : option Z) : M World did :=
    r <- lift (replay workspace snippet_id book_id filename 0 commits
                      (initial_cursor pid)) ;;
    ret (match fst r with
         | Returns s =>
             (page_events snippet_id filename (snd r)
                ++ (if not_created s
                    then [NotCreated snippet_id filename] else []), None)
         | Raises e => (page_events snippet_id filename (snd r), Some e)
         end) in
  match target_page with
  | Raises e => ret ([], Some e)
  | Returns (Some p) =>
      if skip_existing_pages args then ret ([], None)
      else run (Some (pg_id p))
  | Returns None => run None
  end.

(** An exception in one file ends the loop over the files. *)
Fixpoint process_files (current_files : list string) : M World did :=
  match current_files with
  | [] => ret ([], None)
  | filename :: rest =>
      r <- process_file filename ;;
      match snd r with
      | Some e => ret r
      | None =>
          r' <- process_files rest ;;
          ret (fst r ++ fst r', snd r')
      end
  end.

End Files.

(** *** main: one snippet *)

Section Snippets.

Variables (fuel : nat) (args : arguments) (workspace : string).

(** Lines 312-413, once [book_id] has been determined.  Line 322 reads
    [snippet_details['files']] when the test of line 318 has let the reply
    through. *)
Definition process_book (snippet_id : string) (book_id : Z) : M World did :=
  if negb (truthy_id (Some book_id)) then ret ([], None)
  else
    snippet_details <- lift (get_snippet_details workspace snippet_id) ;;
    if text_with "files" snippet_details
    then ret ([], Some (TypeError 322))
    else
      match as_dict snippet_details with
      | None => ret ([], None)
      | Some details =>
          match sn_files details with
          | None => ret ([], None)
          | Some current_files =>
              if is_empty current_files then ret ([], None)
              else
                fetched <- get_snippet_commits fuel workspace snippet_id ;;
                match fetched with
                | None => ret ([], None)
                | Some commits =>
                    process_files fuel args workspace snippet_id book_id
                      (if is_empty commits
                       then [synthesized_commit details]
                       else commits)
                      current_files
                end
          end
      end.

(** The body of [for snippet_summary in snippets:] (lines 285-413).  Line
    289 reads [snippet_summary['id']] and line 306 [created_book['id']] when
    the tests of lines 285 and 305 have let the value through. *)
Definition process_snippet (snippet_summary : reply snippet) : M World did :=
  if text_with "id" (Some snippet_summary)
  then ret ([], Some (TypeError 289))
  else
    match as_dict (Some snippet_summary) with
    | None => ret ([], None)
    | Some summary =>
        match sn_id summary with
        | None => ret ([], None)
        | Some snippet_id =>
            let snippet_title :=
              get_default (sn_title summary)
                          ("Untitled Snippet " ++ snippet_id)%string in
            target_book <- lift (find_bookstack_book snippet_title) ;;
            match target_book with
            | Raises e => ret ([], Some e)
            | Returns (Some b) =>
                if skip_existing_books args then ret ([], None)
                else process_book snippet_id (bk_id b)
            | Returns None =>
                created_book <-
                  lift (create_bookstack_book snippet_title) ;;
                let evs := [OnBook snippet_id (CreateBook snippet_title)] in
                if text_with "id" created_book
                then ret (evs, Some (TypeError 306))
                else
                  match as_dict created_book with
                  | Some {| cr_id := Some id |} =>
                      r <- process_book snippet_id id ;;
                      ret (evs ++ fst r, snd r)
                  | _ => ret (evs, None)
                  end
            end
        end
    end.

(** An exception in one snippet ends the loop over the snippets. *)
Fixpoint process_snippets (snippets : list (reply snippet)) : M World did :=
  match snippets with
  | [] => ret ([], None)
  | snippet_summary :: rest =>
      r <- process_snippet snippet_summary ;;
      match snd r with
      | Some e => ret r
      | None =>
          r' <- process_snippets rest ;;
          ret (fst r ++ fst r', snd r')
      end
  end.

End Snippets.

(** *** main *)

(** [main] returns how the process ends and what it did. *)
Definition main (fuel : nat) (args : arguments) : M World (halt * list event) :=
  snippets <-
    get_bitbucket_snippets fuel (bitbucket_workspace args)
                           (test_snippet_id args) ;;
  match snippets with
  | None => ret (Exit 1, [])
  | Some snippets =>
      if is_empty snippets then ret (Exit 0, [])
      else
        r <- process_snippets fuel args (bitbucket_workspace args)
                              snippets ;;
        ret (match snd r with
             | Some e => Uncaught e
             | None => Exit 0
             end, fst r)
  end.

(** *** The script of the first part

    The remote of the first part that this server is: a reply that is a
    text counts as no dictionary. *)
Definition typed : Remote World :=
  {| bb_snippets_page := request_page (get_snippets_page srv);
     bb_commits_page := request_page (get_commits_page srv);
     bb_snippet := fun url w =>
       let (response, w1) := request (get_snippet srv url) w in
       (as_dict response, w1);
     bb_raw_file := request_raw_file (get_raw_file srv);
     bs_list_books := fun name w =>
       let (response, w1) := request (get_books srv name) w in
       (as_dict response, w1);
     bs_post_book := fun name w =>
       let (response, w1) := request (post_book srv name) w in
       (as_dict response, w1);
     bs_list_pages := fun book_id count offset w =>
       let (response, w1) :=
         request (get_pages srv book_id count offset) w in
       (as_dict response, w1);
     bs_post_page := fun book_id page_name content w =>
       let (response, w1) :=
         request (post_page srv book_id page_name content) w in
       (as_dict response, w1);
     bs_put_page := fun page_id content summary w =>
       let (response, w1) :=
         request (put_page srv page_id content summary) w in
       (truthy_reply response, w1) |}.

(** No reply that the script indexes is a text with the key in it. *)
Definition no_text_with_key : Prop :=
  (forall url w,
      text_with "id" (fst (request (get_snippet srv url) w)) = false
      /\ text_with "files" (fst (request (get_snippet srv url) w)) = false)
  /\ (forall name w,
         text_with "data" (fst (request (get_books srv name) w)) = false)
  /\ (forall name w,
         text_with "id" (fst (request (post_book srv name) w)) = false)
  /\ (forall book_id count offset w,
         text_with "data"
                   (fst (request (get_pages srv book_id count offset) w))
         = false)
  /\ (forall book_id page_name content w,
         text_with "id"
                   (fst (request (post_page srv book_id page_name content)
                                 w))
         = false).

End Script.

End Http.

(** ** Vocabulary of the further properties *)

(** The server lists the pages [listing] of the book, a hundred at a time
    from the offset asked for, with their total, and the world [w] is the
    same after a listing request. *)
Definition serves {World : Type} (R : Remote World) (book_id : Z)
           (listing : list page) (w : World) : Prop :=
  forall n : nat,
    bs_list_pages R book_id 100 (Z.of_nat n) w
    = (Some {| pr_data := Some (firstn 100 (skipn n listing));
               pr_total := Some (Z.of_nat (length listing)) |}, w).

(** The text a page call writes. *)
Definition call_content (c : call) : option string :=
  match c with
  | CreateBook _ => None
  | CreatePage _ _ content => Some content
  | UpdatePage _ content _ => Some content
  end.

(** [is_update_of id c]: the call [c] updates the page [id]. *)
Definition is_update_of (id : Z) (c : call) : Prop :=
  exists content summary, c = UpdatePage id content summary.

(** [changes prev contents]: each text of [contents] differs from the one
    before it, and the first one from [prev]. *)
Fixpoint changes (prev : option string) (contents : list string) : Prop :=
  match contents with
  | [] => True
  | content :: rest => prev <> Some content /\ changes (Some content) rest
  end.

(** The texts written by the page calls of a trace. *)
Definition written (tr : list (nat * call)) : list string :=
  flat_map (fun ic => match call_content (snd ic) with
                      | Some content => [content]
                      | None => []
                      end) tr.

(** [in_book snippet_id book_id e]: the event [e] belongs to the snippet, and
    if it is a page call, it creates a page named after its file in the
    book, or updates a page. *)
Definition in_book (snippet_id : string) (book_id : Z) (e : event) : Prop :=
  match e with
  | OnBook _ _ => False
  | OnPage sid filename _ (CreatePage b name _) =>
      sid = snippet_id /\ b = book_id /\ name = filename
  | OnPage sid _ _ (UpdatePage _ _ _) => sid = snippet_id
  | OnPage _ _ _ (CreateBook _) => False
  | NotCreated sid _ => sid = snippet_id
  end.

(** [names_commit commits ic]: if the call at position [fst ic] is an update,
    its change summary is the one built from the commit at that position of
    [commits]. *)
Definition names_commit (commits : list commit) (ic : nat * call) : Prop :=
  match snd ic with
  | UpdatePage _ _ summary =>
      exists c, nth_error commits (fst ic) = Some c
                /\ summary = update_summary (commit_info c)
  | _ => True
  end.

(** What the first part returns, as a part of the script over HTTP that
    raised nothing. *)
Definition quietly {World : Type} (r : list event * World)
  : Http.did * World :=
  ((fst r, None), snd r).

(** The paginated fetch of the snippet listing (line 90), from the world
    [w] on. *)
Definition snippet_listing {World : Type} (srv : Http.Server World)
           (quote : string -> string) (urljoin : string -> string -> string)
           (fuel : nat) (args : arguments) (w : World)
  : option (option (list snippet) * World) :=
  get_paginated_results (request_page (Http.get_snippets_page srv)) fuel
                        (snippets_url quote urljoin
                                      (bitbucket_workspace args)) w.

(** What [make_request] returns for the single snippet of a restricted run
    (line 85), in the world [w]. *)
Definition single_snippet {World : Type} (srv : Http.Server World)
           (quote : string -> string) (urljoin : string -> string -> string)
           (args : arguments) (w : World)
  : option (reply snippet) * World :=
  Http.request
    (Http.get_snippet srv
       (snippet_url quote urljoin (bitbucket_workspace args)
                    (get_default (test_snippet_id args) EmptyString))) w.

(** How the process ends when the loop over the snippets ends as [r]
    says. *)
Definition ended {World : Type} (r : option (Http.did * World))
  : option ((Http.halt * list event) * World) :=
  option_map (fun r => ((match snd (fst r) with
                         | Some e => Http.Uncaught e
                         | None => Http.Exit 0
                         end, fst (fst r)), snd r)) r.

(** ** A small executable pair of remote systems

    A table-driven Bitbucket (a request for a URL that is not in a table
    fails) and a BookStack that stores books and pages, assigns fresh
    identifiers, and refuses to create the pages named in [rejected] and to
    update the pages listed in [frozen]. *)

Module Mock.

Record source : Type := {
  snippet_pages : list (string * paged snippet);
  commit_pages : list (string * paged commit);
  snippets : list (string * snippet);
  raw_files : list (string * string)
}.

Record stored_page : Type := {
  sp_book : Z;
  sp_id : Z;
  sp_name : string;
  sp_markdown : string
}.

Record world : Type := {
  books : list book;
  pages : list stored_page;
  next_id : Z;
  rejected : list string;
  frozen : list Z
}.

Fixpoint lookup {A : Type} (k : string) (t : list (string * A)) : option A :=
  match t with
  | [] => None
  | (k', a) :: t' => if String.eqb k k' then Some a else lookup k t'
  end.

Definition quote (s : string) : string := s.

Definition urljoin (base rel : string) : string := (base ++ rel)%string.

Definition list_books (name : string) (w : world)
  : option (option (list book)) * world :=
  (Some (Some (filter (fun b => eqb_ostr (bk_name b) name) (books w))), w).

Definition post_book (name : string) (w : world) : option created * world :=
  (Some {| cr_id := Some (next_id w) |},
   {| books := books w ++ [{| bk_id := next_id w; bk_name := Some name |}];
      pages := pages w;
      next_id := (next_id w + 1)%Z;
      rejected := rejected w;
      frozen := frozen w |}).

Definition pages_of (book_id : Z) (w : world) : list page :=
  map (fun p => {| pg_id := sp_id p; pg_name := Some (sp_name p) |})
      (filter (fun p => (sp_book p =? book_id)%Z) (pages w)).

Definition list_pages (book_id count offset : Z) (w : world)
  : option pages_response * world :=
  (Some {| pr_data := Some (firstn (Z.to_nat count)
                                   (skipn (Z.to_nat offset)
                                          (pages_of book_id w)));
           pr_total := Some (Z.of_nat (length (pages_of book_id w))) |}, w).

Definition post_page (book_id : Z) (name markdown : string) (w : world)
  : option created * world :=
  if existsb (String.eqb name) (rejected w) then (None, w)
  else
    (Some {| cr_id := Some (next_id w) |},
     {| books := books w;
        pages := pages w ++ [{| sp_book := book_id; sp_id := next_id w;
                                sp_name := name; sp_markdown := markdown |}];
        next_id := (next_id w + 1)%Z;
        rejected := rejected w;
        frozen := frozen w |}).

Definition put_page (page_id : Z) (markdown summary : string) (w : world)
  : bool * world :=
  if existsb (Z.eqb page_id) (frozen w) then (false, w)
  else
    (true,
     {| books := books w;
        pages := map (fun p =>
                        if (sp_id p =? page_id)%Z
                        then {| sp_book := sp_book p; sp_id := sp_id p;
                                sp_name := sp_name p;
                                sp_markdown := markdown |}
                        else p) (pages w);
        next_id := next_id w;
        rejected := rejected w;
        frozen := frozen w |}).

Definition remote (src : source) : Remote world :=
  {| bb_snippets_page := fun url w => (lookup url (snippet_pages src), w);
     bb_commits_page := fun url w => (lookup url (commit_pages src), w);
     bb_snippet := fun url w => (lookup url (snippets src), w);
     bb_raw_file := fun url w => (lookup url (raw_files src), w);
     bs_list_books := list_books;
     bs_post_book := post_book;
     bs_list_pages := list_pages;
     bs_post_page := post_page;
     bs_put_page := put_page |}.

(** An empty BookStack. *)
Definition empty : world :=
  {| books := []; pages := []; next_id := 1%Z; rejected := [];
     frozen := [] |}.

Definition mk_commit (hash message : string) : commit :=
  {| c_hash := hash; c_date := Some "2024-01-01"; c_message := Some message;
     c_author := Some (Some "ann") |}.

Definition args0 : arguments :=
  {| bb_user := "ws"; bb_workspace := None; skip_existing_books := false;
     skip_existing_pages := false; test_snippet_id := None |}.

(** A workspace [ws] with one snippet [s1] titled [demo] that has the files
    [files]; the commit listing is [commits] (newest first, one page), and
    [contents] gives the text of a file at a commit hash. *)
Definition demo (files : list string) (commits : list commit)
           (contents : list (string * string * string)) : source :=
  let sn := {| sn_id := Some "s1"; sn_title := Some "demo";
               sn_files := Some files;
               sn_updated_on := Some "2024-02-02" |} in
  {| snippet_pages :=
       [(snippets_url quote urljoin "ws", Page [sn] None)];
     commit_pages :=
       [(commits_url quote urljoin "ws" "s1", Page commits None)];
     snippets := [(snippet_url quote urljoin "ws" "s1", sn)];
     raw_files :=
       map (fun hfc =>
              (file_url quote urljoin "ws" "s1" (fst (fst hfc))
                        (snd (fst hfc)), snd hfc)) contents |}.

Definition run_main (src : source) (fuel : nat) (args : arguments)
  : M world (Z * list event) :=
  main (remote src) quote urljoin fuel args.

End Mock.

(** ** Example inputs *)

(** The end-to-end example of the specification: one file, three commits
    with the contents hello, hello, hello world. *)
Definition notes_demo : Mock.source :=
  Mock.demo ["notes.txt"]
    [Mock.mk_commit "h3" "third"; Mock.mk_commit "h2" "second";
     Mock.mk_commit "h1" "first"]
    [("h1", "notes.txt", "hello"); ("h2", "notes.txt", "hello");
     ("h3", "notes.txt", "hello world")].

(** One file whose two commits have different contents. *)
Definition ab_demo : Mock.source :=
  Mock.demo ["notes.txt"]
    [Mock.mk_commit "h2" "second"; Mock.mk_commit "h1" "first"]
    [("h1", "notes.txt", "A"); ("h2", "notes.txt", "B")].

(** One file whose three commits have different contents. *)
Definition abc_demo : Mock.source :=
  Mock.demo ["notes.txt"]
    [Mock.mk_commit "h3" "third"; Mock.mk_commit "h2" "second";
     Mock.mk_commit "h1" "first"]
    [("h1", "notes.txt", "A"); ("h2", "notes.txt", "B");
     ("h3", "notes.txt", "C")].

(** One file whose two commits have the same content and different
    messages. *)
Definition same_text_demo : Mock.source :=
  Mock.demo ["notes.txt"]
    [Mock.mk_commit "h2" "second"; Mock.mk_commit "h1" "first"]
    [("h1", "notes.txt", "same"); ("h2", "notes.txt", "same")].

(** One file that appears at the third commit only. *)
Definition late_demo : Mock.source :=
  Mock.demo ["notes.txt"]
    [Mock.mk_commit "h4" "fourth"; Mock.mk_commit "h3" "third";
     Mock.mk_commit "h2" "second"; Mock.mk_commit "h1" "first"]
    [("h3", "notes.txt", "A"); ("h4", "notes.txt", "B")].


(** A snippet without commit history. *)
Definition no_history_demo : Mock.source :=
  Mock.demo ["notes.txt"] [] [("HEAD", "notes.txt", "now")].

(** One file that is absent at the second of four commits. *)
Definition gap_demo : Mock.source :=
  Mock.demo ["notes.txt"]
    [Mock.mk_commit "h4" "fourth"; Mock.mk_commit "h3" "third";
     Mock.mk_commit "h2" "second"; Mock.mk_commit "h1" "first"]
    [("h1", "notes.txt", "A"); ("h3", "notes.txt", "B");
     ("h4", "notes.txt", "C")].

(** A snippet with a file whose commit listing cannot be fetched. *)
Definition no_commits_endpoint : Mock.source :=
  {| Mock.snippet_pages := Mock.snippet_pages no_history_demo;
     Mock.commit_pages := [];
     Mock.snippets := Mock.snippets no_history_demo;
     Mock.raw_files := Mock.raw_files no_history_demo |}.

(** A Bitbucket that answers no request. *)
Definition unreachable : Mock.source :=
  {| Mock.snippet_pages := []; Mock.commit_pages := [];
     Mock.snippets := []; Mock.raw_files := [] |}.

(** A commit listing of three pages; the table can be cut short so that the
    request for a later page fails, and the last page can be malformed. *)
Definition listing (pages : list (string * paged commit)) : Mock.source :=
  {| Mock.snippet_pages := []; Mock.commit_pages := pages;
     Mock.snippets := []; Mock.raw_files := [] |}.

Definition page1 : string * paged commit :=
  ("u1", Page [Mock.mk_commit "h5" "e"; Mock.mk_commit "h4" "d"] (Some "u2")).

Definition page2 : string * paged commit :=
  ("u2", Page [Mock.mk_commit "h3" "c"] (Some "u3")).

Definition page3 : string * paged commit :=
  ("u3", Page [Mock.mk_commit "h2" "b"; Mock.mk_commit "h1" "a"] None).

(** A BookStack that already has the book and the page of the examples. *)
Definition existing : Mock.world :=
  {| Mock.books := [{| bk_id := 1; bk_name := Some "demo" |}];
     Mock.pages := [{| Mock.sp_book := 1; Mock.sp_id := 2;
                       Mock.sp_name := "notes.txt";
                       Mock.sp_markdown := "old" |}];
     Mock.next_id := 3; Mock.rejected := []; Mock.frozen := [] |}.

(** The same BookStack, refusing every update of that page. *)
Definition read_only : Mock.world :=
  {| Mock.books := Mock.books existing; Mock.pages := Mock.pages existing;
     Mock.next_id := 3; Mock.rejected := []; Mock.frozen := [2%Z] |}.


(** A run that leaves existing pages alone. *)
Definition args_skip : arguments :=
  {| bb_user := "ws"; bb_workspace := None; skip_existing_books := false;
     skip_existing_pages := true; test_snippet_id := None |}.

(** The snippet of the examples, as the listing returns it. *)
Definition demo_snippet : snippet :=
  {| sn_id := Some "s1"; sn_title := Some "demo";
     sn_files := Some ["notes.txt"]; sn_updated_on := Some "2024-02-02" |}.

(** A run restricted to the snippet [s1]. *)
Definition args_one : arguments :=
  {| bb_user := "ws"; bb_workspace := None; skip_existing_books := false;
     skip_existing_pages := false; test_snippet_id := Some "s1" |}.

(** ** Example inputs of the further properties *)

(** A remote that answers like [R], except for the listing of pages. *)
Definition with_pages_listing {World : Type} (R : Remote World)
           (list_pages : Z -> Z -> Z -> World
                         -> option pages_response * World)
  : Remote World :=
  {| bb_snippets_page := bb_snippets_page R;
     bb_commits_page := bb_commits_page R;
     bb_snippet := bb_snippet R;
     bb_raw_file := bb_raw_file R;
     bs_list_books := bs_list_books R;
     bs_post_book := bs_post_book R;
     bs_list_pages := list_pages;
     bs_post_page := bs_post_page R;
     bs_put_page := bs_put_page R |}.


(** A BookStack whose page listings carry no total. *)
Definition without_total (src : Mock.source) : Remote Mock.world :=
  with_pages_listing
    (Mock.remote src)
    (fun book_id count offset w =>
       (Some {| pr_data := Some (firstn (Z.to_nat count)
                                        (skipn (Z.to_nat offset)
                                               (Mock.pages_of book_id w)));
                pr_total := None |}, w)).

(** A BookStack whose page listing fails. *)
Definition without_listing (src : Mock.source) : Remote Mock.world :=
  with_pages_listing (Mock.remote src) (fun _ _ _ w => (None, w)).


(** An HTTP server that answers the URLs of a table and is unreachable for
    the others. *)
Definition http_of {J : Type} (table : list (string * http_response J))
           (url : string) (w : Mock.world) : http_outcome J * Mock.world :=
  (match Mock.lookup url table with
   | Some r => Responded r
   | None => RequestError
   end, w).

(** A page of HTML with status 200, and a JSON body cut short. *)
Definition html_page : http_response (paged commit) :=
  {| status_code := 200; content_type := Some "text/html";
     json := None; text := "<html>" |}.

Definition broken_json : http_response (paged commit) :=
  {| status_code := 200;
     content_type := Some "application/json; charset=utf-8";
     json := None; text := "{" |}.

(** A JSON body that is [null]. *)
Definition null_json : http_response (paged commit) :=
  {| status_code := 200;
     content_type := Some "application/json";
     json := Some None; text := "null" |}.

(** The snippet of the examples with a commit listing that has no
    ['values']. *)
Definition malformed_history : Mock.source :=
  {| Mock.snippet_pages := Mock.snippet_pages no_history_demo;
     Mock.commit_pages :=
       [(commits_url Mock.quote Mock.urljoin "ws" "s1", Unexpected)];
     Mock.snippets := Mock.snippets no_history_demo;
     Mock.raw_files := Mock.raw_files no_history_demo |}.

(** A listing item without ['id']. *)
Definition nameless_snippet : snippet :=
  {| sn_id := None; sn_title := Some "lost"; sn_files := None;
     sn_updated_on := None |}.

(** A book with a hundred and one pages, the last of which is [last.txt]. *)
Definition crowded : Mock.world :=
  {| Mock.books := [{| bk_id := 1; bk_name := Some "demo" |}];
     Mock.pages :=
       repeat {| Mock.sp_book := 1; Mock.sp_id := 5; Mock.sp_name := "filler";
                 Mock.sp_markdown := EmptyString |} 100
         ++ [{| Mock.sp_book := 1; Mock.sp_id := 7;
                Mock.sp_name := "last.txt"; Mock.sp_markdown := EmptyString |}];
     Mock.next_id := 8; Mock.rejected := []; Mock.frozen := [] |}.

(** ** Example servers *)

(** A JSON body with status 200. *)
Definition ok_json {J : Type} (j : J) : http_response J :=
  {| status_code := 200; content_type := Some "application/json";
     json := Some (Some j); text := EmptyString |}.

(** What a remote of the first part returns, sent as a JSON body; its
    failure is a connection that cannot be made. *)
Definition answer {J : Type} (o : option J) : http_outcome J :=
  match o with
  | Some j => Responded (ok_json j)
  | None => RequestError
  end.

(** A raw file, sent as text; a missing one has status 404. *)
Definition answer_text (o : option string) : http_outcome unit :=
  match o with
  | Some s =>
      Responded {| status_code := 200; content_type := Some "text/plain";
                   json := None; text := s |}
  | None =>
      Responded {| status_code := 404; content_type := None;
                   json := None; text := EmptyString |}
  end.

(** The HTTP server in front of a remote of the first part. *)
Definition serve {World : Type} (R : Remote World) : Http.Server World :=
  {| Http.get_snippets_page := fun url w =>
       let (o, w1) := bb_snippets_page R url w in (answer o, w1);
     Http.get_commits_page := fun url w =>
       let (o, w1) := bb_commits_page R url w in (answer o, w1);
     Http.get_snippet := fun url w =>
       let (o, w1) := bb_snippet R url w in (answer o, w1);
     Http.get_raw_file := fun url w =>
       let (o, w1) := bb_raw_file R url w in (answer_text o, w1);
     Http.get_books := fun name w =>
       let (o, w1) := bs_list_books R name w in (answer o, w1);
     Http.post_book := fun name w =>
       let (o, w1) := bs_post_book R name w in (answer o, w1);
     Http.get_pages := fun book_id count offset w =>
       let (o, w1) := bs_list_pages R book_id count offset w in
       (answer o, w1);
     Http.post_page := fun book_id page_name content w =>
       let (o, w1) := bs_post_page R book_id page_name content w in
       (answer o, w1);
     Http.put_page := fun page_id content summary w =>
       let (b, w1) := bs_put_page R page_id content summary w in
       (answer (Some b), w1) |}.

(** A page of HTML with status 200, as a proxy or a login wall in front of
    Bitbucket sends it for any URL. *)
Definition login_page : http_response snippet :=
  {| status_code := 200; content_type := Some "text/html; charset=utf-8";
     json := None; text := "<body id=login>Sign in to see your files</body>" |}.

(** A server that answers like [srv], except that every request of a single
    snippet gets the response [r]. *)
Definition with_snippet_response {World : Type} (srv : Http.Server World)
           (r : http_response snippet) : Http.Server World :=
  {| Http.get_snippets_page := Http.get_snippets_page srv;
     Http.get_commits_page := Http.get_commits_page srv;
     Http.get_snippet := fun _ w => (Responded r, w);
     Http.get_raw_file := Http.get_raw_file srv;
     Http.get_books := Http.get_books srv;
     Http.post_book := Http.post_book srv;
     Http.get_pages := Http.get_pages srv;
     Http.post_page := Http.post_page srv;
     Http.put_page := Http.put_page srv |}.

(** A server that answers like [srv], except that every search for a book
    gets the response [r]. *)
Definition with_books_response {World : Type} (srv : Http.Server World)
           (r : http_response (option (list book))) : Http.Server World :=
  {| Http.get_snippets_page := Http.get_snippets_page srv;
     Http.get_commits_page := Http.get_commits_page srv;
     Http.get_snippet := Http.get_snippet srv;
     Http.get_raw_file := Http.get_raw_file srv;
     Http.get_books := fun _ w => (Responded r, w);
     Http.post_book := Http.post_book srv;
     Http.get_pages := Http.get_pages srv;
     Http.post_page := Http.post_page srv;
     Http.put_page := Http.put_page srv |}.

(** A page of text with status 200 and without the word that
    [find_bookstack_book] looks for. *)
Definition maintenance_page : http_response (option (list book)) :=
  {| status_code := 200; content_type := Some "text/plain";
     json := None; text := "back soon" |}.

Unset Implicit Arguments.

(** * Properties *)

(** Closes a conjunction of equations and small inequalities. *)
Ltac settle :=
  simpl; rewrite ?orb_true_r; repeat split; try reflexivity; try lia; auto.

Section PaginatedFetcher.

Context {World A : Type}.
Variable request : string -> World -> option (paged A) * World.

Lemma paginate_walk (next : option string) (w w' : World)
      (batches : list (list A)) (e : ending) :
  walk request next w batches e w' ->
  forall (fuel : nat) (results : list A),
    length batches < fuel ->
    paginate request fuel results next w
    = Some (match e with
            | RequestFailed => None
            | _ => Some (results ++ concat batches)
            end, w').
Proof.
  induction 1 as [next w Hn | next w w1 Hn Hr | next w w1 Hn Hr
                 | next w values next' w1 batches e w2 Hn Hr Hw IH];
    intros fuel results Hfuel.
  - destruct fuel; simpl; rewrite Hn, app_nil_r; reflexivity.
  - destruct fuel as [|fuel]; [inversion Hfuel|].
    simpl. rewrite Hn, Hr. reflexivity.
  - destruct fuel as [|fuel]; [inversion Hfuel|].
    simpl. rewrite Hn, Hr, app_nil_r. reflexivity.
  - destruct fuel as [|fuel]; [inversion Hfuel|].
    simpl in Hfuel. simpl paginate. rewrite Hn, Hr.
    rewrite IH by lia. simpl concat. rewrite app_assoc. reflexivity.
Qed.

(** Conversely, a fetch that returns has walked such a chain. *)
Lemma paginate_returns (fuel : nat) :
  forall (results : list A) (next : option string) (w w' : World)
         (r : option (list A)),
    paginate request fuel results next w = Some (r, w') ->
    exists batches e,
      walk request next w batches e w'
      /\ length batches <= fuel
      /\ r = match e with
             | RequestFailed => None
             | _ => Some (results ++ concat batches)
             end.
Proof.
  induction fuel as [|fuel IH]; intros results next w w' r.
  - simpl. destruct (truthy_ostr next) eqn:Hn; [discriminate|].
    intros [= <- <-]. exists [], LastPage.
    split; [apply walk_last, Hn|]. rewrite app_nil_r. auto.
  - simpl. destruct (truthy_ostr next) eqn:Hn.
    + destruct (request (get_default next EmptyString) w)
        as [[[|values next']|] w1] eqn:Hr.
      * intros [= <- <-]. exists [], BadShape.
        split; [apply walk_shape; assumption|].
        rewrite app_nil_r. split; [simpl; lia | reflexivity].
      * intros Hp. destruct (IH _ _ _ _ _ Hp) as (batches & e & Hw & Hl & ->).
        exists (values :: batches), e.
        split; [eapply walk_page; eassumption|].
        split; [simpl; lia|]. simpl. rewrite app_assoc. reflexivity.
      * intros [= <- <-]. exists [], RequestFailed.
        split; [apply walk_failed; assumption|].
        split; [simpl; lia | reflexivity].
    + intros [= <- <-]. exists [], LastPage.
      split; [apply walk_last, Hn|]. rewrite app_nil_r.
      split; [simpl; lia | reflexivity].
Qed.

(** C8.  Whatever the server does along the chain of cursors: when a page
    request fails, [get_paginated_results] returns [None] and the batches of
    the earlier pages are lost; when a response has no ['values'], it returns
    the batches accumulated so far; and when the last page has no cursor, it
    returns all the batches, concatenated in the order of the responses.
    Any fuel above the number of pages is enough, and every fetch that
    returns is one of these three cases. *)
Theorem paginated_fetch_outcomes (url : string) (w w' : World) (fuel : nat) :
  (forall (batches : list (list A)) (e : ending),
      walk request (Some url) w batches e w' ->
      length batches < fuel ->
      get_paginated_results request fuel url w
      = Some (match e with
              | RequestFailed => None
              | BadShape => Some (concat batches)
              | LastPage => Some (concat batches)
              end, w'))
  /\ (forall r : option (list A),
         get_paginated_results request fuel url w = Some (r, w') ->
         exists batches e,
           walk request (Some url) w batches e w'
           /\ r = match e with
                  | RequestFailed => None
                  | BadShape => Some (concat batches)
                  | LastPage => Some (concat batches)
                  end).
Proof.
  split.
  - intros batches e Hw Hfuel. unfold get_paginated_results.
    rewrite (paginate_walk _ _ _ _ _ Hw fuel [] Hfuel).
    destruct e; reflexivity.
  - intros r Hr. unfold get_paginated_results in Hr.
    destruct (paginate_returns _ _ _ _ _ _ Hr) as (batches & e & Hw & _ & ->).
    exists batches, e. split; [exact Hw|]. destruct e; reflexivity.
Qed.

End PaginatedFetcher.

Section ReplayProperties.

Context {World : Type}.
Variable R : Remote World.
Variable quote : string -> string.
Variable urljoin : string -> string -> string.
Variables (workspace snippet_id : string) (book_id : Z) (filename : string).

Local Abbreviation fetch c :=
  (get_snippet_revision_content R quote urljoin workspace snippet_id
                                (c_hash c) filename).
Local Abbreviation step :=
  (replay_step R quote urljoin workspace snippet_id book_id filename).
Local Abbreviation run :=
  (replay R quote urljoin workspace snippet_id book_id filename).
Local Abbreviation absent :=
  (all_absent R quote urljoin workspace snippet_id filename).
Local Abbreviation create content c :=
  (create_bookstack_page R book_id filename content (commit_info c)).

(** *** One iteration, branch by branch *)

Lemma step_absent (c : commit) (s : cursor) (w w1 : World) :
  fetch c w = (None, w1) ->
  step c s w = ((Next, s, []), w1).
Proof. intros Hf. unfold replay_step. rewrite Hf. reflexivity. Qed.

Lemma step_create_ok (c : commit) (s : cursor) (w w1 w2 : World)
      (content : string) (id : Z) :
  fetch c w = (Some content, w1) ->
  settled s = false ->
  create (compose_page_content content) c w1
  = (Some {| cr_id := Some id |}, w2) ->
  step c s w
  = ((Next, just_created id (compose_page_content content),
      [CreatePage book_id filename (compose_page_content content)]), w2).
Proof.
  intros Hf Hs Hc. unfold replay_step, settled in *. rewrite Hf.
  apply orb_false_elim in Hs as [-> ->]. simpl. rewrite Hc. reflexivity.
Qed.

Lemma step_create_failed (c : commit) (s : cursor) (w w1 w2 : World)
      (content : string) (r : option created) :
  fetch c w = (Some content, w1) ->
  settled s = false ->
  create (compose_page_content content) c w1 = (r, w2) ->
  match r with Some {| cr_id := Some _ |} => False | _ => True end ->
  step c s w
  = ((Break, s,
      [CreatePage book_id filename (compose_page_content content)]), w2).
Proof.
  intros Hf Hs Hc Hr. unfold replay_step, settled in *. rewrite Hf.
  apply orb_false_elim in Hs as [-> ->]. simpl. rewrite Hc.
  destruct r as [[[id|]]|]; [contradiction | reflexivity | reflexivity].
Qed.

Lemma step_unchanged (c : commit) (s : cursor) (w w1 : World)
      (content : string) :
  fetch c w = (Some content, w1) ->
  truthy_id (page_id s) = true ->
  processed_first_commit_for_page s = false ->
  previous_page_content s = Some (compose_page_content content) ->
  step c s w = ((Next, recorded s (compose_page_content content), []), w1).
Proof.
  intros Hf Hid Hflag Hprev. unfold replay_step. rewrite Hf, Hid, Hflag, Hprev.
  simpl. rewrite String.eqb_refl. unfold recorded. rewrite Hflag.
  reflexivity.
Qed.

Lemma step_changed (c : commit) (s : cursor) (w w1 : World)
      (content : string) :
  fetch c w = (Some content, w1) ->
  truthy_id (page_id s) = true ->
  processed_first_commit_for_page s = false ->
  previous_page_content s <> Some (compose_page_content content) ->
  step c s w
  = ((Next, recorded s (compose_page_content content),
      [UpdatePage (get_default (page_id s) 0%Z)
                  (compose_page_content content)
                  (update_summary (commit_info c))]),
     snd (update_bookstack_page R (get_default (page_id s) 0%Z)
                                (compose_page_content content)
                                (commit_info c) w1)).
Proof.
  intros Hf Hid Hflag Hprev. unfold replay_step. rewrite Hf, Hid, Hflag.
  simpl.
  assert (He : eqb_ostr (previous_page_content s)
                        (compose_page_content content) = false).
  { destruct (previous_page_content s) as [p|]; simpl; [|reflexivity].
    apply String.eqb_neq. intros ->. apply Hprev. reflexivity. }
  rewrite He. simpl. unfold recorded. rewrite Hflag.
  destruct (update_bookstack_page R _ _ _ w1) as [ok w2]. reflexivity.
Qed.

Lemma step_after_creation (c : commit) (s : cursor) (w w1 : World)
      (content : string) :
  fetch c w = (Some content, w1) ->
  settled s = true ->
  processed_first_commit_for_page s = true ->
  step c s w
  = ((Next,
      {| page_id := page_id s;
         page_created_in_this_run := page_created_in_this_run s;
         processed_first_commit_for_page :=
           negb (truthy_id (page_id s));
         previous_page_content := Some (compose_page_content content) |},
      []), w1).
Proof.
  intros Hf Hs Hflag. unfold replay_step, settled, recorded in *.
  rewrite Hf, Hflag.
  destruct (truthy_id (page_id s)); simpl in *.
  - reflexivity.
  - rewrite Hs. reflexivity.
Qed.

(** *** What every iteration preserves *)

(** Once the page identifier is set or the page was created, an iteration
    never creates a page, never leaves the loop, and keeps the identifier. *)
Lemma step_settled (c : commit) (s s' : cursor) (w w' : World)
      (fl : flow) (calls : list call) :
  settled s = true ->
  step c s w = ((fl, s', calls), w') ->
  fl = Next /\ settled s' = true /\ page_id s' = page_id s
  /\ forallb (fun k => negb (is_create_page k)) calls = true
  /\ length calls <= 1.
Proof.
  intros Hs. unfold replay_step, settled in *.
  destruct (fetch c w) as [[content|] w1].
  - destruct (truthy_id (page_id s)) eqn:Hid; simpl in *.
    + destruct (processed_first_commit_for_page s); simpl.
      * intros [= <- <- <- <-]. simpl. rewrite Hid. settle.
      * destruct (eqb_ostr (previous_page_content s) _); simpl.
        -- intros [= <- <- <- <-]. simpl. rewrite Hid. settle.
        -- destruct (update_bookstack_page R _ _ _ w1) as [ok w2].
           intros [= <- <- <- <-]. simpl. rewrite Hid. settle.
    + rewrite Hs. simpl. intros [= <- <- <- <-]. simpl.
      rewrite ?Hid, ?Hs. settle.
  - intros [= <- <- <- <-]. simpl. rewrite ?Hs. settle.
Qed.

(** Before that, an iteration skips an absent revision, or makes exactly one
    create call: it leaves the loop when the creation failed, and otherwise
    the page counts as created. *)
Lemma step_unsettled (c : commit) (s s' : cursor) (w w' : World)
      (fl : flow) (calls : list call) :
  settled s = false ->
  step c s w = ((fl, s', calls), w') ->
  (fl = Next /\ s' = s /\ calls = [] /\ fetch c w = (None, w'))
  \/ (exists content,
         fst (fetch c w) = Some content
         /\ calls = [CreatePage book_id filename
                                (compose_page_content content)]
         /\ ((fl = Break /\ s' = s)
             \/ (fl = Next
                 /\ exists id,
                    s' = just_created id (compose_page_content content)))).
Proof.
  intros Hs. unfold replay_step, settled in *.
  apply orb_false_elim in Hs as [Hid Hcr]. rewrite Hid, Hcr. simpl.
  destruct (fetch c w) as [[content|] w1].
  - destruct (create_bookstack_page R _ _ _ _ w1) as [r w2].
    intros Heq. right. exists content. split; [reflexivity|].
    destruct r as [[[id|]]|]; injection Heq as <- <- <- <-;
      (split; [reflexivity|]); [right | left | left]; settle.
    exists id. reflexivity.
  - intros [= <- <- <- <-]. left. auto.
Qed.

Lemma settled_just_created (id : Z) (payload : string) :
  settled (just_created id payload) = true.
Proof. unfold settled. simpl. apply orb_true_r. Qed.

Lemma step_calls_le_1 (c : commit) (s s' : cursor) (w w' : World)
      (fl : flow) (calls : list call) :
  step c s w = ((fl, s', calls), w') -> length calls <= 1.
Proof.
  intros E. destruct (settled s) eqn:Hs.
  - apply step_settled in E; [tauto | exact Hs].
  - apply step_unsettled in E; [|exact Hs].
    destruct E as [(_ & _ & -> & _) | (content & _ & -> & _)]; simpl; lia.
Qed.

(** *** The whole loop *)

Lemma creates_app (tr1 tr2 : list (nat * call)) :
  creates (tr1 ++ tr2) = creates tr1 ++ creates tr2.
Proof. apply filter_app. Qed.

Lemma creates_tag_none (i : nat) (calls : list call) :
  forallb (fun k => negb (is_create_page k)) calls = true ->
  creates (tag_calls i calls) = [].
Proof.
  induction calls as [|k calls IH]; simpl; [reflexivity|].
  intros H. apply andb_prop in H as [Hk H].
  destruct (is_create_page k); [discriminate|]. apply IH, H.
Qed.

Lemma replay_cons (i : nat) (c : commit) (rest : list commit) (s : cursor)
      (w : World) :
  run i (c :: rest) s w
  = match step c s w with
    | ((Break, s1, calls), w1) => ((s1, tag_calls i calls), w1)
    | ((Next, s1, calls), w1) =>
        ((fst (fst (run (S i) rest s1 w1)),
          tag_calls i calls ++ snd (fst (run (S i) rest s1 w1))),
         snd (run (S i) rest s1 w1))
    end.
Proof.
  simpl. destruct (step c s w) as [[[[] s1] calls] w1]; [|reflexivity].
  destruct (run (S i) rest s1 w1) as [[s2 tr] w2]. reflexivity.
Qed.

(** Revisions whose content is absent leave no trace. *)
Lemma replay_absent_prefix (pre rest : list commit) :
  forall (i : nat) (s : cursor) (w w1 : World),
    absent pre w = Some w1 ->
    run i (pre ++ rest) s w = run (i + length pre) rest s w1.
Proof.
  induction pre as [|c pre IH]; intros i s w w1 Ha.
  - simpl in Ha. injection Ha as <-. simpl. rewrite Nat.add_0_r. reflexivity.
  - simpl in Ha. destruct (fetch c w) as [[content|] w0] eqn:Hf;
      [discriminate|].
    rewrite <- app_comm_cons, replay_cons, (step_absent c s w w0 Hf).
    rewrite (IH (S i) s w0 w1 Ha). simpl length.
    replace (S i + length pre) with (i + S (length pre)) by lia.
    destruct (run (i + S (length pre)) rest s w1) as [[s2 tr] w2].
    reflexivity.
Qed.

(** Once the page identifier is set or the page was created, the loop makes
    no create call. *)
Lemma replay_settled (commits : list commit) :
  forall (i : nat) (s : cursor) (w : World),
    settled s = true ->
    settled (fst (fst (run i commits s w))) = true
    /\ page_id (fst (fst (run i commits s w))) = page_id s
    /\ creates (snd (fst (run i commits s w))) = [].
Proof.
  induction commits as [|c rest IH]; intros i s w Hs.
  - simpl. auto.
  - rewrite replay_cons.
    destruct (step c s w) as [[[fl s1] calls] w1] eqn:E.
    apply step_settled in E; [|exact Hs].
    destruct E as (-> & Hs1 & Hid & Hnc & _).
    destruct (IH (S i) s1 w1 Hs1) as (H1 & H2 & H3).
    simpl. rewrite creates_app, creates_tag_none, H3 by exact Hnc.
    repeat split; [exact H1 | congruence].
Qed.

Lemma replay_creates_le_1 (commits : list commit) :
  forall (i : nat) (s : cursor) (w : World),
    length (creates (snd (fst (run i commits s w)))) <= 1.
Proof.
  induction commits as [|c rest IH]; intros i s w.
  - simpl. lia.
  - destruct (settled s) eqn:Hs.
    { destruct (replay_settled (c :: rest) i s w Hs) as (_ & _ & ->).
      simpl. lia. }
    rewrite replay_cons.
    destruct (step c s w) as [[[fl s1] calls] w1] eqn:E.
    apply step_unsettled in E; [|exact Hs].
    destruct E as [(-> & -> & -> & _) | (content & _ & -> & Hfl)].
    + simpl. apply IH.
    + destruct Hfl as [(-> & ->) | (-> & id & ->)].
      * simpl. lia.
      * destruct (replay_settled rest (S i) _ w1
                    (settled_just_created id (compose_page_content content)))
          as (_ & _ & Hc).
        cbn [fst snd]. rewrite creates_app, Hc. simpl. lia.
Qed.

(** The calls come out in the order of the commits: the positions in the
    trace increase strictly and stay within the loop's range. *)
Lemma replay_positions (commits : list commit) :
  forall (i : nat) (s : cursor) (w : World),
    StronglySorted lt (map fst (snd (fst (run i commits s w))))
    /\ Forall (fun j => i <= j < i + length commits)
              (map fst (snd (fst (run i commits s w)))).
Proof.
  induction commits as [|c rest IH]; intros i s w.
  - simpl. split; constructor.
  - rewrite replay_cons.
    destruct (step c s w) as [[[fl s1] calls] w1] eqn:E.
    apply step_calls_le_1 in E.
    destruct (IH (S i) s1 w1) as [Hsorted Hrange].
    assert (Hwide : Forall (fun j => i <= j < i + length (c :: rest))
                           (map fst (snd (fst (run (S i) rest s1 w1))))).
    { eapply Forall_impl; [|exact Hrange]. simpl. intros j Hj. lia. }
    assert (Hlt : Forall (lt i)
                         (map fst (snd (fst (run (S i) rest s1 w1))))).
    { eapply Forall_impl; [|exact Hrange]. simpl. intros j Hj. lia. }
    destruct calls as [|k [|k' calls]]; [| |simpl in E; lia];
      destruct fl; simpl; split;
      try (constructor; simpl length; try lia);
      try assumption; constructor.
Qed.

Lemma settled_initial (pid : option Z) :
  settled (initial_cursor pid) = truthy_id pid.
Proof. unfold settled. simpl. apply orb_false_r. Qed.

Lemma page_events_no_create (tr : list (nat * call)) :
  creates tr = [] ->
  forallb (fun e => negb (event_is is_create_page e))
          (page_events snippet_id filename tr) = true.
Proof.
  induction tr as [|[i k] tr IH]; simpl; [reflexivity|].
  unfold event_is. simpl. destruct (is_create_page k); [discriminate|].
  exact IH.
Qed.

Lemma positions_after (i : nat) (commits : list commit) (s : cursor)
      (w : World) :
  Forall (fun ic => i <= fst ic) (snd (fst (run i commits s w))).
Proof.
  destruct (replay_positions commits i s w) as [_ H].
  rewrite Forall_map in H. eapply Forall_impl; [|exact H].
  simpl. intros ic Hic. lia.
Qed.

Lemma page_events_creates (tr : list (nat * call)) :
  length (filter (event_is is_create_page)
                 (page_events snippet_id filename tr))
  = length (creates tr).
Proof.
  induction tr as [|[i k] tr IH]; simpl; [reflexivity|].
  unfold event_is at 1. simpl. destruct (is_create_page k); simpl; lia.
Qed.

(** What [process_file] comes to, once the search for the page is done. *)
Lemma process_file_unfold (fuel : nat) (args : arguments)
      (commits : list commit) (w : World) :
  process_file R quote urljoin fuel args workspace snippet_id book_id commits
               filename w
  = match find_bookstack_page R fuel book_id filename w with
    | None => None
    | Some (target_page, w1) =>
        let pass (pid : option Z) :=
          Some (page_events snippet_id filename
                  (snd (fst (run 0 commits (initial_cursor pid) w1)))
                  ++ (if not_created
                           (fst (fst (run 0 commits (initial_cursor pid) w1)))
                      then [NotCreated snippet_id filename] else []),
                snd (run 0 commits (initial_cursor pid) w1)) in
        match target_page with
        | Some p =>
            if skip_existing_pages args then Some ([], w1)
            else pass (Some (pg_id p))
        | None => pass None
        end
    end.
Proof.
  unfold process_file, bind, lift, ret.
  destruct (find_bookstack_page R fuel book_id filename w)
    as [[[p|] w1]|]; [| |reflexivity].
  - destruct (skip_existing_pages args); [reflexivity|].
    destruct (run 0 commits (initial_cursor (Some (pg_id p))) w1)
      as [[s' tr] w2]; reflexivity.
  - destruct (run 0 commits (initial_cursor None) w1) as [[s' tr] w2];
      reflexivity.
Qed.

(** A successful creation is the only way for an iteration to make a create
    call and go on to the next commit. *)
Lemma step_created (c : commit) (s s1 : cursor) (w w1 : World)
      (calls : list call) :
  step c s w = ((Next, s1, calls), w1) ->
  existsb is_create_page calls = true ->
  exists id payload, s1 = just_created id payload.
Proof.
  intros E Hc. destruct (settled s) eqn:Hs.
  - apply step_settled in E; [|exact Hs].
    destruct E as (_ & _ & _ & Hnc & _).
    destruct calls as [|k calls]; [discriminate|]. simpl in *.
    destruct (is_create_page k); [discriminate|].
    exfalso. revert Hnc Hc. clear. induction calls as [|k' calls IH]; simpl.
    + discriminate.
    + destruct (is_create_page k'); simpl; [discriminate | exact IH].
  - apply step_unsettled in E; [|exact Hs].
    destruct E as [(_ & _ & -> & _) | (content & _ & _ & Hfl)];
      [discriminate|].
    destruct Hfl as [[Hb _] | (_ & id & ->)]; [discriminate|].
    exists id, (compose_page_content content). reflexivity.
Qed.

(** On a page whose identifier is set from the start, the first revision
    whose content is fetched is always written: nothing was recorded yet. *)
Lemma replay_existing_first_update (pre : list commit) (c : commit)
      (rest : list commit) (content : string) (pid : option Z)
      (w w1 w2 : World) :
  truthy_id pid = true ->
  absent pre w = Some w1 ->
  fetch c w1 = (Some content, w2) ->
  exists tr,
    snd (fst (run 0 (pre ++ c :: rest) (initial_cursor pid) w))
    = (length pre,
       UpdatePage (get_default pid 0%Z) (compose_page_content content)
                  (update_summary (commit_info c))) :: tr
    /\ creates tr = [].
Proof.
  intros Hpid Ha Hf.
  rewrite (replay_absent_prefix pre (c :: rest) 0 _ w w1 Ha).
  rewrite replay_cons. simpl Nat.add.
  rewrite (step_changed c (initial_cursor pid) w1 w2 content Hf Hpid
             eq_refl) by discriminate.
  cbn [fst snd tag_calls map app page_id initial_cursor].
  eexists. split; [reflexivity|].
  apply replay_settled. unfold settled. simpl. rewrite Hpid. reflexivity.
Qed.

(** Outside the iteration that follows a creation, a fetched revision is
    written exactly when its payload differs from the recorded one. *)
Lemma step_compare (c : commit) (s : cursor) (w w1 : World)
      (content : string) :
  fetch c w = (Some content, w1) ->
  truthy_id (page_id s) = true ->
  processed_first_commit_for_page s = false ->
  snd (fst (step c s w))
  = if eqb_ostr (previous_page_content s) (compose_page_content content)
    then []
    else [UpdatePage (get_default (page_id s) 0%Z)
                     (compose_page_content content)
                     (update_summary (commit_info c))].
Proof.
  intros Hf Hid Hflag.
  destruct (previous_page_content s) as [prev|] eqn:Hprev; simpl.
  - destruct (String.eqb prev (compose_page_content content)) eqn:He.
    + apply String.eqb_eq in He. subst prev.
      rewrite (step_unchanged c s w w1 content Hf Hid Hflag Hprev).
      reflexivity.
    + apply String.eqb_neq in He.
      rewrite (step_changed c s w w1 content Hf Hid Hflag).
      * reflexivity.
      * rewrite Hprev. congruence.
  - rewrite (step_changed c s w w1 content Hf Hid Hflag).
    + reflexivity.
    + rewrite Hprev. discriminate.
Qed.

(** The loop calls the page endpoints only. *)
Lemma step_no_book (c : commit) (s : cursor) (w : World) :
  forallb (fun k => negb (is_create_book k)) (snd (fst (step c s w))) = true.
Proof.
  unfold replay_step.
  destruct (fetch c w) as [[content|] w1]; [|reflexivity].
  destruct (negb (truthy_id (page_id s))
            && negb (page_created_in_this_run s)).
  - destruct (create_bookstack_page R _ _ _ _ w1) as [[[[id|]]|] w2];
      reflexivity.
  - destruct (truthy_id (page_id s)
              && negb (processed_first_commit_for_page s)).
    + destruct (negb (eqb_ostr _ _)); [|reflexivity].
      destruct (update_bookstack_page R _ _ _ w1) as [ok w2]. reflexivity.
    + destruct (truthy_id (page_id s) && processed_first_commit_for_page s);
        reflexivity.
Qed.

Lemma replay_no_book (commits : list commit) :
  forall (i : nat) (s : cursor) (w : World),
    forallb (fun e => negb (event_is is_create_book e))
            (page_events snippet_id filename
                         (snd (fst (run i commits s w)))) = true.
Proof.
  induction commits as [|c rest IH]; intros i s w; [reflexivity|].
  rewrite replay_cons. pose proof (step_no_book c s w) as Hk.
  destruct (step c s w) as [[[fl s1] calls] w1]. simpl in Hk.
  assert (Ht : forallb (fun e => negb (event_is is_create_book e))
                       (page_events snippet_id filename (tag_calls i calls))
               = true).
  { clear IH. induction calls as [|k calls IHc]; [reflexivity|].
    simpl in Hk. apply andb_prop in Hk as [Hk1 Hk2]. simpl.
    unfold event_is at 1. simpl. rewrite Hk1. apply IHc, Hk2. }
  destruct fl; cbn [fst snd].
  - unfold page_events in *. rewrite map_app, forallb_app, Ht. apply IH.
  - exact Ht.
Qed.

End ReplayProperties.

Section FileProperties.

Context {World : Type}.
Variable R : Remote World.
Variable quote : string -> string.
Variable urljoin : string -> string -> string.
Variables (workspace snippet_id : string) (book_id : Z).
Variables (fuel : nat) (args : arguments) (commits : list commit).

Local Abbreviation file_pass :=
  (process_file R quote urljoin fuel args workspace snippet_id book_id
                commits).
Local Abbreviation files_pass :=
  (process_files R quote urljoin fuel args workspace snippet_id book_id
                 commits).

Lemma process_files_cons (f : string) (files : list string) (w : World) :
  files_pass (f :: files) w
  = match file_pass f w with
    | Some (evs1, w1) =>
        match files_pass files w1 with
        | Some (evs2, w2) => Some (evs1 ++ evs2, w2)
        | None => None
        end
    | None => None
    end.
Proof.
  cbn [process_files]. unfold bind, ret.
  destruct (file_pass f w) as [[evs1 w1]|]; [|reflexivity].
  destruct (files_pass files w1) as [[evs2 w2]|]; reflexivity.
Qed.


(** The events of a file carry its name. *)
Lemma process_file_names (f : string) (w w' : World) (evs : list event) :
  file_pass f w = Some (evs, w') ->
  Forall (fun e => event_file e = Some f) evs.
Proof.
  rewrite process_file_unfold.
  destruct (find_bookstack_page R fuel book_id f w) as [[target_page w1]|];
    [|discriminate].
  assert (Hpass : forall s tr,
             Forall (fun e => event_file e = Some f)
                    (page_events snippet_id f tr
                       ++ (if not_created s
                           then [NotCreated snippet_id f] else []))).
  { intros s tr. apply Forall_app. split.
    - unfold page_events. apply Forall_map, Forall_forall. reflexivity.
    - destruct (not_created s); repeat constructor. }
  cbv zeta. destruct target_page as [p|].
  - destruct (skip_existing_pages args); intros [= <- <-];
      [constructor | apply Hpass].
  - intros [= <- <-]. apply Hpass.
Qed.

Lemma process_file_creates_le_1 (f : string) (w w' : World)
      (evs : list event) :
  file_pass f w = Some (evs, w') ->
  length (filter (event_is is_create_page) evs) <= 1.
Proof.
  rewrite process_file_unfold.
  destruct (find_bookstack_page R fuel book_id f w) as [[target_page w1]|];
    [|discriminate].
  assert (Hpass : forall pid,
             length (filter (event_is is_create_page)
                       (page_events snippet_id f
                          (snd (fst (replay R quote urljoin workspace
                                            snippet_id book_id f 0 commits
                                            (initial_cursor pid) w1)))
                          ++ (if not_created
                                   (fst (fst (replay R quote urljoin
                                                     workspace snippet_id
                                                     book_id f 0 commits
                                                     (initial_cursor pid)
                                                     w1)))
                              then [NotCreated snippet_id f] else [])))
             <= 1).
  { intros pid. rewrite filter_app, length_app, page_events_creates.
    pose proof (replay_creates_le_1 R quote urljoin workspace snippet_id
                  book_id f commits 0 (initial_cursor pid) w1).
    destruct (not_created _); simpl; lia. }
  cbv zeta. destruct target_page as [p|].
  - destruct (skip_existing_pages args); intros [= <- <-].
    + simpl. lia.
    + apply Hpass.
  - intros [= <- <-]. apply Hpass.
Qed.

Lemma creates_page_of_other (f f' : string) (evs : list event) :
  Forall (fun e => event_file e = Some f') evs ->
  f <> f' ->
  filter (creates_page_of f) evs = [].
Proof.
  intros Hall Hne. induction Hall as [|e evs He _ IH]; [reflexivity|].
  simpl. unfold creates_page_of at 1. rewrite He. simpl.
  destruct (String.eqb_spec f' f) as [Heq|_]; [congruence|]. exact IH.
Qed.

Lemma creates_page_of_same (f : string) (evs : list event) :
  Forall (fun e => event_file e = Some f) evs ->
  filter (creates_page_of f) evs = filter (event_is is_create_page) evs.
Proof.
  intros Hall. induction Hall as [|e evs He _ IH]; [reflexivity|].
  simpl. unfold creates_page_of at 1. rewrite He. simpl.
  rewrite String.eqb_refl, IH. reflexivity.
Qed.

Lemma process_files_creates_none (files : list string) (f : string) :
  ~ In f files ->
  forall (w w' : World) (evs : list event),
    files_pass files w = Some (evs, w') ->
    filter (creates_page_of f) evs = [].
Proof.
  induction files as [|f' files IH]; intros Hnot w w' evs.
  - intros [= <- <-]. reflexivity.
  - rewrite process_files_cons.
    destruct (file_pass f' w) as [[evs1 w1]|] eqn:E1; [|discriminate].
    destruct (files_pass files w1) as [[evs2 w2]|] eqn:E2; [|discriminate].
    intros [= <- <-]. rewrite filter_app.
    rewrite (creates_page_of_other f f' evs1 (process_file_names _ _ _ _ E1)).
    + apply (IH (fun H => Hnot (or_intror H)) _ _ _ E2).
    + intros ->. apply Hnot. left. reflexivity.
Qed.

(** The files of a snippet are the keys of a dictionary: for each of them
    at most one page is created. *)
Lemma process_files_creates_le_1 (files : list string) :
  NoDup files ->
  forall (f : string) (w w' : World) (evs : list event),
    files_pass files w = Some (evs, w') ->
    length (filter (creates_page_of f) evs) <= 1.
Proof.
  induction 1 as [|f' files Hnot Hnd IH]; intros f w w' evs.
  - intros [= <- <-]. simpl. lia.
  - rewrite process_files_cons.
    destruct (file_pass f' w) as [[evs1 w1]|] eqn:E1; [|discriminate].
    destruct (files_pass files w1) as [[evs2 w2]|] eqn:E2; [|discriminate].
    intros [= <- <-]. rewrite filter_app, length_app.
    destruct (String.eqb_spec f f') as [->|Hne].
    + rewrite (creates_page_of_same f' evs1 (process_file_names _ _ _ _ E1)).
      rewrite (process_files_creates_none files f' Hnot _ _ _ E2).
      pose proof (process_file_creates_le_1 _ _ _ _ E1). simpl. lia.
    + rewrite (creates_page_of_other f f' evs1
                 (process_file_names _ _ _ _ E1) Hne).
      simpl. apply (IH f _ _ _ E2).
Qed.

End FileProperties.

Section ReplayClaims.

Context {World : Type}.
Variable R : Remote World.
Variable quote : string -> string.
Variable urljoin : string -> string -> string.
Variables (workspace snippet_id : string) (book_id : Z) (filename : string).

Local Abbreviation fetch c :=
  (get_snippet_revision_content R quote urljoin workspace snippet_id
                                (c_hash c) filename).
Local Abbreviation step :=
  (replay_step R quote urljoin workspace snippet_id book_id filename).
Local Abbreviation run :=
  (replay R quote urljoin workspace snippet_id book_id filename).
Local Abbreviation absent :=
  (all_absent R quote urljoin workspace snippet_id filename).
Local Abbreviation create content c :=
  (create_bookstack_page R book_id filename content (commit_info c)).
Local Abbreviation here lemma :=
  (lemma R quote urljoin workspace snippet_id book_id filename).

(** C4.  However long the commit sequence and however many revisions are
    absent, one pass over a file makes at most one page-create call, from
    whatever state the loop starts, and so does the processing of the file
    as a whole, and the processing of all the files of a snippet for each
    of its file names.  When the page was not found and the content is absent at
    the first [k] commits and fetched at the next one, the first call of the
    pass is the create call of that commit, every other call belongs to a
    later commit, and there is no second create call.  When the search found
    a page (with a usable identifier) no create call is made at all. *)
Theorem at_most_one_page_create :
  (forall (i : nat) (commits : list commit) (s : cursor) (w : World),
      length (creates (snd (fst (run i commits s w)))) <= 1)
  /\ (forall (fuel : nat) (args : arguments) (commits : list commit)
             (w w' : World) (evs : list event),
         process_file R quote urljoin fuel args workspace snippet_id
                      book_id commits filename w = Some (evs, w') ->
         length (filter (event_is is_create_page) evs) <= 1)
  /\ (forall (fuel : nat) (args : arguments) (commits : list commit)
             (files : list string) (w w' : World) (evs : list event),
         NoDup files ->
         process_files R quote urljoin fuel args workspace snippet_id
                       book_id commits files w = Some (evs, w') ->
         length (filter (creates_page_of filename) evs) <= 1)
  /\ (forall (pre : list commit) (c : commit) (rest : list commit)
             (content : string) (pid : option Z) (w w1 : World),
         truthy_id pid = false ->
         absent pre w = Some w1 ->
         fst (fetch c w1) = Some content ->
         exists tr,
           snd (fst (run 0 (pre ++ c :: rest) (initial_cursor pid) w))
           = (length pre,
              CreatePage book_id filename (compose_page_content content))
               :: tr
           /\ creates tr = []
           /\ Forall (fun ic => length pre < fst ic) tr)
  /\ (forall (fuel : nat) (args : arguments) (commits : list commit)
             (p : page) (w w1 : World),
         find_bookstack_page R fuel book_id filename w = Some (Some p, w1) ->
         pg_id p <> 0%Z ->
         exists evs w2,
           process_file R quote urljoin fuel args workspace snippet_id
                        book_id commits filename w = Some (evs, w2)
           /\ forallb (fun e => negb (event_is is_create_page e)) evs
              = true).
Proof.
  split; [|split; [|split; [|split]]].
  - intros i commits s w. apply replay_creates_le_1.
  - intros fuel args commits w w' evs.
    apply process_file_creates_le_1.
  - intros fuel args commits files w w' evs Hnd Hrun.
    exact (process_files_creates_le_1 R quote urljoin workspace snippet_id
             book_id fuel args commits files Hnd filename w w' evs Hrun).
  - intros pre c rest content pid w w1 Hpid Ha Hf.
    rewrite (here replay_absent_prefix pre (c :: rest) 0 _ w w1 Ha).
    rewrite replay_cons. simpl Nat.add.
    destruct (fetch c w1) as [content' w2] eqn:Hfetch.
    simpl in Hf. subst content'.
    assert (Hs : settled (initial_cursor pid) = false)
      by (rewrite settled_initial; exact Hpid).
    destruct (create (compose_page_content content) c w2) as [r w3] eqn:Hc.
    destruct r as [[[id|]]|].
    + rewrite (here step_create_ok c _ w1 w2 w3 content id Hfetch Hs Hc).
      cbn [fst snd tag_calls map app]. eexists. split; [reflexivity|].
      split.
      * apply replay_settled, settled_just_created.
      * eapply Forall_impl; [|apply positions_after]. simpl. intros ic H. lia.
    + rewrite (here step_create_failed c _ w1 w2 w3 content _ Hfetch Hs Hc I).
      simpl. exists []. repeat split. constructor.
    + rewrite (here step_create_failed c _ w1 w2 w3 content _ Hfetch Hs Hc I).
      simpl. exists []. repeat split. constructor.
  - intros fuel args commits p w w1 Hfind Hid.
    rewrite process_file_unfold, Hfind. cbv zeta.
    destruct (skip_existing_pages args).
    + exists [], w1. split; reflexivity.
    + eexists. eexists. split; [reflexivity|].
      assert (Hs : settled (initial_cursor (Some (pg_id p))) = true).
      { rewrite settled_initial. simpl. apply negb_true_iff, Z.eqb_neq, Hid. }
      destruct (here replay_settled commits 0 _ w1 Hs) as (_ & _ & Hc).
      rewrite forallb_app, (page_events_no_create _ _ _ Hc).
      destruct (not_created _); reflexivity.
Qed.

(** C2.  Whenever an iteration has created the page successfully, the next
    revision whose content is fetched (absent revisions in between are just
    skipped) makes no destination call at all, whatever its payload; its
    payload is nevertheless recorded as the previous one, and the loop goes
    on with the commits after it. *)
Theorem revision_after_creation_makes_no_call
        (c1 : commit) (s s1 : cursor) (w w1 : World) (calls : list call) :
  step c1 s w = ((Next, s1, calls), w1) ->
  existsb is_create_page calls = true ->
  forall (mid : list commit) (c2 : commit) (rest : list commit)
         (content : string) (w2 w3 : World) (i : nat),
    absent mid w1 = Some w2 ->
    fetch c2 w2 = (Some content, w3) ->
    exists s2,
      step c2 s1 w2 = ((Next, s2, []), w3)
      /\ previous_page_content s2 = Some (compose_page_content content)
      /\ page_id s2 = page_id s1
      /\ snd (fst (run i (c1 :: mid ++ c2 :: rest) s w))
         = tag_calls i calls
             ++ snd (fst (run (S (S (i + length mid))) rest s2 w3)).
Proof.
  intros E Hc mid c2 rest content w2 w3 i Ha Hf.
  destruct (here step_created _ _ _ _ _ _ E Hc) as (id & payload & ->).
  pose proof (here step_after_creation c2 (just_created id payload)
      w2 w3 content
                Hf (settled_just_created id payload) eq_refl) as E2.
  eexists. split; [exact E2|]. split; [reflexivity|]. split; [reflexivity|].
  rewrite replay_cons, E. cbn [fst snd]. f_equal.
  rewrite (here replay_absent_prefix mid (c2 :: rest) (S i) _ w1 w2 Ha).
  rewrite replay_cons, E2. cbn [fst snd tag_calls map app].
  replace (S (S i + length mid)) with (S (S (i + length mid))) by lia.
  reflexivity.
Qed.


End ReplayClaims.

Section Orchestration.

Context {World : Type}.
Variable R : Remote World.
Variable quote : string -> string.
Variable urljoin : string -> string -> string.

(** What [main] does for a snippet once the book is known and the file
    listing is there: it depends on the commit history only. *)
Lemma process_book_commits (fuel : nat) (args : arguments)
      (workspace snippet_id : string) (book_id : Z) (details : snippet)
      (files : list string) (w w1 : World) :
  book_id <> 0%Z ->
  get_snippet_details R quote urljoin workspace snippet_id w
  = (Some details, w1) ->
  sn_files details = Some files ->
  files <> [] ->
  process_book R quote urljoin fuel args workspace snippet_id book_id w
  = match get_snippet_commits R quote urljoin fuel workspace snippet_id w1
    with
    | Some (Some commits, w2) =>
        process_files R quote urljoin fuel args workspace snippet_id book_id
                      (if is_empty commits
                       then [synthesized_commit details] else commits)
                      files w2
    | Some (None, w2) => Some ([], w2)
    | None => None
    end.
Proof.
  intros Hb Hd Hf Hne. unfold process_book.
  assert (Ht : truthy_id (Some book_id) = true)
    by (simpl; apply negb_true_iff, Z.eqb_neq, Hb).
  rewrite Ht. cbn [negb]. unfold bind at 1. unfold lift. cbv beta iota.
  rewrite Hd, Hf.
  destruct files as [|f files]; [contradiction|].
  cbn [is_empty]. unfold bind. cbv beta iota.
  destruct (get_snippet_commits R quote urljoin fuel workspace snippet_id w1)
    as [[[commits|] w2]|]; reflexivity.
Qed.

(** C7.  For a snippet whose book and file listing are there: when the
    commit history is fetched and is empty, the files are processed with a
    sequence of exactly one commit, the synthesised one, whose hash is
    ["HEAD"] and whose date is the snippet's [updated_on] (["N/A"] when the
    snippet has none); when the fetch of the history fails, nothing is done
    for the snippet's files. *)
Theorem empty_history_is_one_synthesized_commit
        (fuel : nat) (args : arguments) (workspace snippet_id : string)
        (book_id : Z) (details : snippet) (files : list string)
        (w w1 : World) :
  book_id <> 0%Z ->
  get_snippet_details R quote urljoin workspace snippet_id w
  = (Some details, w1) ->
  sn_files details = Some files ->
  files <> [] ->
  (forall w2,
      get_snippet_commits R quote urljoin fuel workspace snippet_id w1
      = Some (Some [], w2) ->
      process_book R quote urljoin fuel args workspace snippet_id book_id w
      = process_files R quote urljoin fuel args workspace snippet_id book_id
                      [synthesized_commit details] files w2)
  /\ (forall w2,
         get_snippet_commits R quote urljoin fuel workspace snippet_id w1
         = Some (None, w2) ->
         process_book R quote urljoin fuel args workspace snippet_id book_id w
         = Some ([], w2))
  /\ c_hash (synthesized_commit details) = "HEAD"
  /\ c_date (synthesized_commit details)
     = Some (get_default (sn_updated_on details) "N/A")
  /\ (forall t, sn_updated_on details = Some t ->
                c_date (synthesized_commit details) = Some t).
Proof.
  intros Hb Hd Hf Hne.
  pose proof (process_book_commits fuel args workspace snippet_id book_id
                details files w w1 Hb Hd Hf Hne) as E.
  repeat split.
  - intros w2 Hc. rewrite E, Hc. reflexivity.
  - intros w2 Hc. rewrite E, Hc. reflexivity.
  - intros t Ht. simpl. rewrite Ht. reflexivity.
Qed.

(** *** Which endpoints the processing of files can reach *)

Lemma process_file_no_book (fuel : nat) (args : arguments)
      (workspace snippet_id : string) (book_id : Z) (commits : list commit)
      (filename : string) (w w' : World) (evs : list event) :
  process_file R quote urljoin fuel args workspace snippet_id book_id commits
               filename w = Some (evs, w') ->
  forallb (fun e => negb (event_is is_create_book e)) evs = true.
Proof.
  rewrite process_file_unfold.
  destruct (find_bookstack_page R fuel book_id filename w)
    as [[target_page w1]|]; [|discriminate].
  assert (Hpass : forall s tr,
             forallb (fun e => negb (event_is is_create_book e)) tr = true ->
             forallb (fun e => negb (event_is is_create_book e))
                     (tr ++ (if not_created s
                             then [NotCreated snippet_id filename] else []))
             = true).
  { intros s tr Htr. rewrite forallb_app, Htr.
    destruct (not_created s); reflexivity. }
  cbv zeta. destruct target_page as [p|].
  - destruct (skip_existing_pages args); intros [= <- <-]; [reflexivity|].
    apply Hpass, replay_no_book.
  - intros [= <- <-]. apply Hpass, replay_no_book.
Qed.

Lemma process_files_no_book (fuel : nat) (args : arguments)
      (workspace snippet_id : string) (book_id : Z) (commits : list commit)
      (files : list string) :
  forall (w w' : World) (evs : list event),
    process_files R quote urljoin fuel args workspace snippet_id book_id
                  commits files w = Some (evs, w') ->
    forallb (fun e => negb (event_is is_create_book e)) evs = true.
Proof.
  induction files as [|f files IH]; intros w w' evs.
  - intros [= <- <-]. reflexivity.
  - cbn [process_files]. unfold bind at 1.
    destruct (process_file R quote urljoin fuel args workspace snippet_id
                           book_id commits f w) as [[evs1 w1]|] eqn:E1;
      [|discriminate].
    unfold bind at 1.
    destruct (process_files R quote urljoin fuel args workspace snippet_id
                            book_id commits files w1) as [[evs2 w2]|] eqn:E2;
      [|discriminate].
    intros [= <- <-]. rewrite forallb_app.
    rewrite (process_file_no_book _ _ _ _ _ _ _ _ _ _ E1).
    rewrite (IH _ _ _ E2). reflexivity.
Qed.

Lemma process_book_no_book (fuel : nat) (args : arguments)
      (workspace snippet_id : string) (book_id : Z) (w w' : World)
      (evs : list event) :
  process_book R quote urljoin fuel args workspace snippet_id book_id w
  = Some (evs, w') ->
  forallb (fun e => negb (event_is is_create_book e)) evs = true.
Proof.
  unfold process_book.
  destruct (negb (truthy_id (Some book_id))); [intros [= <- <-]; reflexivity|].
  unfold bind at 1. unfold lift.
  destruct (get_snippet_details R quote urljoin workspace snippet_id w)
    as [[details|] w1]; [|intros [= <- <-]; reflexivity].
  destruct (sn_files details) as [files|]; [|intros [= <- <-]; reflexivity].
  destruct (is_empty files); [intros [= <- <-]; reflexivity|].
  unfold bind.
  destruct (get_snippet_commits R quote urljoin fuel workspace snippet_id w1)
    as [[[commits|] w2]|]; [| intros [= <- <-]; reflexivity | discriminate].
  apply process_files_no_book.
Qed.

(** C5, as amended.  When the search finds the book, nothing that is done
    for the snippet creates a book.  When the search finds the page (with a
    usable identifier) and existing pages are not skipped, the file is
    processed without any create call, but not without update calls: the
    comparison is with the payload recorded earlier in the same pass, which
    starts as [None], so the first revision whose content is fetched is
    always written; and a later one, outside the iteration that follows a
    creation, is written exactly when its payload differs from the recorded
    one.  With [--skip-existing-pages] the file is skipped. *)
Theorem rerun_updates_existing_page (fuel : nat) (args : arguments)
        (workspace snippet_id : string) :
  (forall (sn : snippet) (b : book) (w w1 w' : World) (evs : list event),
      sn_id sn = Some snippet_id ->
      find_bookstack_book
        R (get_default (sn_title sn)
                       ("Untitled Snippet " ++ snippet_id)%string) w
      = (Some b, w1) ->
      process_snippet R quote urljoin fuel args workspace sn w
      = Some (evs, w') ->
      forallb (fun e => negb (event_is is_create_book e)) evs = true)
  /\ (forall (book_id : Z) (filename : string) (pre : list commit)
             (c : commit) (rest : list commit) (content : string) (p : page)
             (w w1 w2 w3 : World),
         find_bookstack_page R fuel book_id filename w = Some (Some p, w1) ->
         pg_id p <> 0%Z ->
         skip_existing_pages args = false ->
         all_absent R quote urljoin workspace snippet_id filename pre w1
         = Some w2 ->
         get_snippet_revision_content R quote urljoin workspace snippet_id
                                      (c_hash c) filename w2
         = (Some content, w3) ->
         exists evs w4,
           process_file R quote urljoin fuel args workspace snippet_id
                        book_id (pre ++ c :: rest) filename w
           = Some (OnPage snippet_id filename (length pre)
                          (UpdatePage (pg_id p)
                                      (compose_page_content content)
                                      (update_summary (commit_info c)))
                     :: evs, w4)
           /\ forallb (fun e => negb (event_is is_create_page e)) evs
              = true)
  /\ (forall (book_id : Z) (filename : string) (c : commit) (s : cursor)
             (w w1 : World) (content : string),
         get_snippet_revision_content R quote urljoin workspace snippet_id
                                      (c_hash c) filename w
         = (Some content, w1) ->
         truthy_id (page_id s) = true ->
         processed_first_commit_for_page s = false ->
         snd (fst (replay_step R quote urljoin workspace snippet_id book_id
                               filename c s w))
         = if eqb_ostr (previous_page_content s)
                       (compose_page_content content)
           then []
           else [UpdatePage (get_default (page_id s) 0%Z)
                            (compose_page_content content)
                            (update_summary (commit_info c))])
  /\ (forall (book_id : Z) (filename : string) (commits : list commit)
             (p : page) (w w1 : World),
         find_bookstack_page R fuel book_id filename w = Some (Some p, w1) ->
         skip_existing_pages args = true ->
         process_file R quote urljoin fuel args workspace snippet_id
                      book_id commits filename w = Some ([], w1)).
Proof.
  split; [|split; [|split]].
  - intros sn b w w1 w' evs Hid Hfind. unfold process_snippet.
    rewrite Hid. cbv zeta. unfold bind at 1. unfold lift. rewrite Hfind.
    destruct (skip_existing_books args); [intros [= <- <-]; reflexivity|].
    apply process_book_no_book.
  - intros book_id filename pre c rest content p w w1 w2 w3
           Hfind Hid Hskip Ha Hf.
    rewrite process_file_unfold, Hfind, Hskip. cbv zeta.
    assert (Hpid : truthy_id (Some (pg_id p)) = true)
      by (simpl; apply negb_true_iff, Z.eqb_neq, Hid).
    destruct (replay_existing_first_update R quote urljoin workspace
                snippet_id book_id filename pre c rest content
                (Some (pg_id p)) w1 w2 w3 Hpid Ha Hf) as (tr & Htr & Hc).
    rewrite Htr.
    exists (page_events snippet_id filename tr
              ++ (if not_created
                       (fst (fst (replay R quote urljoin workspace snippet_id
                                         book_id filename 0
                                         (pre ++ c :: rest)
                                         (initial_cursor (Some (pg_id p)))
                                         w1)))
                  then [NotCreated snippet_id filename] else [])).
    eexists. split; [reflexivity|].
    rewrite forallb_app.
    rewrite (page_events_no_create snippet_id filename tr Hc).
    destruct (not_created _); reflexivity.
  - intros book_id filename c s w w1 content. apply step_compare.
  - intros book_id filename commits p w w1 Hfind Hskip.
    rewrite process_file_unfold, Hfind, Hskip. reflexivity.
Qed.

(** C6.  The commit sequencer returns the fetched (newest-first) list
    reversed; this reversed list is the sequence [main] replays for every
    file of the snippet; and the loop consumes it front to back: in the
    calls of a pass the positions of the commits increase strictly, so no
    write for a commit is issued after a write for a later one, and every
    write belongs to a commit of the sequence. *)
Theorem writes_follow_commit_order :
  (forall (fuel : nat) (workspace snippet_id : string) (w : World),
      get_snippet_commits R quote urljoin fuel workspace snippet_id w
      = match get_paginated_results
                (bb_commits_page R) fuel
                (commits_url quote urljoin workspace snippet_id) w with
        | Some (Some newest_first, w') => Some (Some (rev newest_first), w')
        | Some (None, w') => Some (None, w')
        | None => None
        end)
  /\ (forall (fuel : nat) (args : arguments) (workspace snippet_id : string)
             (book_id : Z) (details : snippet) (files : list string)
             (newest_first : list commit) (w w1 w2 : World),
         book_id <> 0%Z ->
         get_snippet_details R quote urljoin workspace snippet_id w
         = (Some details, w1) ->
         sn_files details = Some files ->
         files <> [] ->
         get_paginated_results
           (bb_commits_page R) fuel
           (commits_url quote urljoin workspace snippet_id) w1
         = Some (Some newest_first, w2) ->
         newest_first <> [] ->
         process_book R quote urljoin fuel args workspace snippet_id
                      book_id w
         = process_files R quote urljoin fuel args workspace snippet_id
                         book_id (rev newest_first) files w2)
  /\ (forall (workspace snippet_id : string) (book_id : Z)
             (filename : string) (commits : list commit) (s : cursor)
             (w : World),
         StronglySorted
           lt (map fst (snd (fst (replay R quote urljoin workspace
                                         snippet_id book_id filename 0
                                         commits s w))))
         /\ Forall (fun j => j < length commits)
                   (map fst (snd (fst (replay R quote urljoin workspace
                                              snippet_id book_id filename 0
                                              commits s w))))).
Proof.
  assert (Hrev : forall fuel workspace snippet_id w,
             get_snippet_commits R quote urljoin fuel workspace snippet_id w
             = match get_paginated_results
                       (bb_commits_page R) fuel
                       (commits_url quote urljoin workspace snippet_id) w with
               | Some (Some newest_first, w') =>
                   Some (Some (rev newest_first), w')
               | Some (None, w') => Some (None, w')
               | None => None
               end).
  { intros fuel workspace snippet_id w.
    unfold get_snippet_commits, bind, ret.
    destruct (get_paginated_results _ fuel _ w) as [[[cs|] w']|];
      reflexivity. }
  split; [exact Hrev|]. split.
  - intros fuel args workspace snippet_id book_id details files newest_first
           w w1 w2 Hb Hd Hf Hne Hl Hcs.
    rewrite (process_book_commits fuel args workspace snippet_id book_id
               details files w w1 Hb Hd Hf Hne).
    rewrite Hrev, Hl.
    destruct (rev newest_first) as [|c cs] eqn:Hr; [|reflexivity].
    exfalso. apply Hcs. apply (f_equal (@rev commit)) in Hr.
    rewrite rev_involutive in Hr. exact Hr.
  - intros workspace snippet_id book_id filename commits s w.
    destruct (replay_positions R quote urljoin workspace snippet_id book_id
                filename commits 0 s w) as [Hs Hr].
    split; [exact Hs|]. eapply Forall_impl; [|exact Hr].
    simpl. intros j Hj. lia.
Qed.

End Orchestration.

(** ** The script over HTTP *)

Section OverHttp.

Context {World : Type}.
Variable srv : Http.Server World.
Variable quote : string -> string.
Variable urljoin : string -> string -> string.

Local Abbreviation R := (Http.typed srv).

Section Typed.

Hypothesis Hshape : Http.no_text_with_key srv.

Lemma find_bookstack_book_typed (name : string) (w : World) :
  Http.find_bookstack_book srv name w
  = (Http.Returns (fst (find_bookstack_book R name w)),
     snd (find_bookstack_book R name w)).
Proof.
  destruct Hshape as (_ & Hbooks & _).
  specialize (Hbooks name w).
  unfold Http.find_bookstack_book, find_bookstack_book. simpl.
  destruct (Http.request (Http.get_books srv name) w) as [response w1].
  simpl in Hbooks. rewrite Hbooks.
  destruct (Http.as_dict response) as [[data|]|]; reflexivity.
Qed.

Lemma find_page_from_typed (fuel : nat) (book_id : Z) (page_name : string)
      (offset : Z) (w : World) :
  Http.find_page_from srv fuel book_id page_name offset w
  = option_map (fun r => (Http.Returns (fst r), snd r))
               (find_page_from R fuel book_id page_name offset w).
Proof.
  destruct Hshape as (_ & _ & _ & Hpages & _).
  revert offset w. induction fuel as [|fuel IH]; intros offset w;
    [reflexivity|].
  specialize (Hpages book_id 100%Z offset w).
  cbn [Http.find_page_from find_page_from]. simpl bs_list_pages.
  destruct (Http.request (Http.get_pages srv book_id 100 offset) w)
    as [response w1].
  simpl in Hpages. rewrite Hpages.
  destruct (Http.as_dict response) as [resp|]; [|reflexivity].
  destruct (pr_data resp) as [[|p current_pages]|]; try reflexivity.
  destruct (find _ (p :: current_pages)); [reflexivity|].
  destruct (_ <=? _)%Z; [reflexivity|]. apply IH.
Qed.

Lemma replay_step_typed (workspace snippet_id : string) (book_id : Z)
      (filename : string) (c : commit) (s : cursor) (w : World) :
  Http.replay_step srv quote urljoin workspace snippet_id book_id filename
                   c s w
  = let '((f, s1, calls), w1) :=
      replay_step R quote urljoin workspace snippet_id book_id filename
                  c s w in
    ((Http.Returns f, s1, calls), w1).
Proof.
  destruct Hshape as (_ & _ & _ & _ & Hpost).
  unfold Http.replay_step, replay_step.
  change (get_snippet_revision_content R quote urljoin workspace snippet_id
            (c_hash c) filename w)
    with (Http.get_snippet_revision_content srv quote urljoin workspace
            snippet_id (c_hash c) filename w).
  destruct (Http.get_snippet_revision_content srv quote urljoin workspace
              snippet_id (c_hash c) filename w) as [[content|] w1];
    [|reflexivity].
  cbv zeta.
  destruct (negb (truthy_id (page_id s))
            && negb (page_created_in_this_run s)).
  - unfold Http.create_bookstack_page, create_bookstack_page. simpl.
    specialize (Hpost book_id filename (compose_page_content content) w1).
    destruct (Http.request _ w1) as [response w2].
    simpl in Hpost. rewrite Hpost.
    destruct (Http.as_dict response) as [[[id|]]|]; reflexivity.
  - destruct (truthy_id (page_id s)
              && negb (processed_first_commit_for_page s)).
    + destruct (negb (eqb_ostr (previous_page_content s)
                               (compose_page_content content)));
        [|reflexivity].
      unfold Http.update_bookstack_page, update_bookstack_page. simpl.
      destruct (Http.request _ w1) as [response w2]. reflexivity.
    + destruct (truthy_id (page_id s) && processed_first_commit_for_page s);
        reflexivity.
Qed.


Lemma replay_typed (workspace snippet_id : string) (book_id : Z)
      (filename : string) (commits : list commit) (i : nat) (s : cursor)
      (w : World) :
  Http.replay srv quote urljoin workspace snippet_id book_id filename i
              commits s w
  = let '((s1, tr), w1) :=
      replay R quote urljoin workspace snippet_id book_id filename i commits
             s w in
    ((Http.Returns s1, tr), w1).
Proof.
  revert i s w. induction commits as [|c rest IH]; intros i s w;
    [reflexivity|].
  cbn [Http.replay replay]. rewrite replay_step_typed.
  destruct (replay_step R quote urljoin workspace snippet_id book_id
                        filename c s w) as [[[[|] s1] calls] w1];
    [|reflexivity].
  rewrite IH.
  destruct (replay R quote urljoin workspace snippet_id book_id filename
                   (S i) rest s1 w1) as [[s2 tr] w2].
  reflexivity.
Qed.

Lemma process_file_typed (fuel : nat) (args : arguments)
      (workspace snippet_id : string) (book_id : Z) (commits : list commit)
      (filename : string) (w : World) :
  Http.process_file srv quote urljoin fuel args workspace snippet_id book_id
                    commits filename w
  = option_map quietly
      (process_file R quote urljoin fuel args workspace snippet_id book_id
                    commits filename w).
Proof.
  unfold Http.process_file, process_file, Http.find_bookstack_page,
    find_bookstack_page, bind.
  rewrite find_page_from_typed.
  destruct (find_page_from R fuel book_id filename 0 w) as [[target w1]|];
    [|reflexivity].
  cbn [option_map fst snd].
  assert (Hrun : forall pid,
    (r <- lift (Http.replay srv quote urljoin workspace snippet_id book_id
                            filename 0 commits (initial_cursor pid)) ;;
     ret (match fst r with
          | Http.Returns s =>
              (page_events snippet_id filename (snd r)
                 ++ (if not_created s
                     then [NotCreated snippet_id filename] else []), None)
          | Http.Raises e => (page_events snippet_id filename (snd r), Some e)
          end)) w1
    = option_map quietly
        ((r <- lift (replay R quote urljoin workspace snippet_id book_id
                            filename 0 commits (initial_cursor pid)) ;;
          ret (page_events snippet_id filename (snd r)
                 ++ (if not_created (fst r)
                     then [NotCreated snippet_id filename] else []))) w1)).
  { intros pid. unfold bind, lift, ret. rewrite replay_typed.
    destruct (replay R quote urljoin workspace snippet_id book_id filename
                     0 commits (initial_cursor pid) w1) as [[s tr] w2].
    reflexivity. }
  destruct target as [p|].
  - destruct (skip_existing_pages args); [reflexivity|]. apply Hrun.
  - apply Hrun.
Qed.

Lemma process_files_typed (fuel : nat) (args : arguments)
      (workspace snippet_id : string) (book_id : Z) (commits : list commit)
      (current_files : list string) (w : World) :
  Http.process_files srv quote urljoin fuel args workspace snippet_id
                     book_id commits current_files w
  = option_map quietly
      (process_files R quote urljoin fuel args workspace snippet_id book_id
                     commits current_files w).
Proof.
  revert w. induction current_files as [|filename rest IH]; intros w;
    [reflexivity|].
  cbn [Http.process_files process_files]. unfold bind at 1 3.
  rewrite process_file_typed.
  destruct (process_file R quote urljoin fuel args workspace snippet_id
                         book_id commits filename w) as [[evs w1]|];
    [|reflexivity].
  cbn [option_map quietly fst snd]. unfold bind. rewrite IH.
  destruct (process_files R quote urljoin fuel args workspace snippet_id
                          book_id commits rest w1) as [[evs' w2]|];
    reflexivity.
Qed.

Lemma process_book_typed (fuel : nat) (args : arguments)
      (workspace snippet_id : string) (book_id : Z) (w : World) :
  Http.process_book srv quote urljoin fuel args workspace snippet_id book_id
                    w
  = option_map quietly
      (process_book R quote urljoin fuel args workspace snippet_id book_id
                    w).
Proof.
  destruct Hshape as (Hsnippet & _).
  unfold Http.process_book, process_book.
  destruct (negb (truthy_id (Some book_id))); [reflexivity|].
  unfold bind at 1 3. unfold lift, Http.get_snippet_details,
    get_snippet_details. simpl bb_snippet.
  destruct (Hsnippet (snippet_url quote urljoin workspace snippet_id) w)
    as [_ Hfiles].
  destruct (Http.request _ w) as [response w1].
  simpl in Hfiles. rewrite Hfiles.
  destruct (Http.as_dict response) as [details|]; [|reflexivity].
  destruct (sn_files details) as [current_files|]; [|reflexivity].
  destruct (is_empty current_files); [reflexivity|].
  unfold bind.
  change (Http.get_snippet_commits srv quote urljoin fuel workspace
                                   snippet_id w1)
    with (get_snippet_commits R quote urljoin fuel workspace snippet_id w1).
  destruct (get_snippet_commits R quote urljoin fuel workspace snippet_id
                                w1) as [[[commits|] w2]|];
    try reflexivity.
  apply process_files_typed.
Qed.


Lemma process_snippet_typed (fuel : nat) (args : arguments)
      (workspace : string) (sn : snippet) (w : World) :
  Http.process_snippet srv quote urljoin fuel args workspace (Json sn) w
  = option_map quietly
      (process_snippet R quote urljoin fuel args workspace sn w).
Proof.
  destruct Hshape as (_ & _ & Hpost & _).
  unfold Http.process_snippet, process_snippet.
  cbn [Http.text_with Http.as_dict].
  destruct (sn_id sn) as [snippet_id|]; [|reflexivity].
  cbv zeta. unfold bind, lift.
  rewrite find_bookstack_book_typed.
  destruct (find_bookstack_book R _ w) as [[b|] w1]; cbn [fst snd].
  - destruct (skip_existing_books args); [reflexivity|].
    apply process_book_typed.
  - unfold Http.create_bookstack_book, create_bookstack_book.
    simpl bs_post_book.
    specialize (Hpost (get_default (sn_title sn)
                         ("Untitled Snippet " ++ snippet_id)%string) w1).
    destruct (Http.request _ w1) as [response w2].
    simpl in Hpost. rewrite Hpost.
    destruct (Http.as_dict response) as [[[id|]]|]; try reflexivity.
    rewrite process_book_typed.
    destruct (process_book R quote urljoin fuel args workspace snippet_id
                           id w2) as [[evs w3]|]; reflexivity.
Qed.

Lemma process_snippets_typed (fuel : nat) (args : arguments)
      (workspace : string) (snippets : list snippet) (w : World) :
  Http.process_snippets srv quote urljoin fuel args workspace
                        (map (@Json snippet) snippets) w
  = option_map quietly
      (process_snippets R quote urljoin fuel args workspace snippets w).
Proof.
  revert w. induction snippets as [|sn rest IH]; intros w; [reflexivity|].
  cbn [map Http.process_snippets process_snippets]. unfold bind at 1 3.
  rewrite process_snippet_typed.
  destruct (process_snippet R quote urljoin fuel args workspace sn w)
    as [[evs w1]|]; [|reflexivity].
  cbn [option_map quietly fst snd]. unfold bind. rewrite IH.
  destruct (process_snippets R quote urljoin fuel args workspace rest w1)
    as [[evs' w2]|]; reflexivity.
Qed.

(** When no reply is a text with the key in it, the script over HTTP does
    what the script of the first part does, and raises nothing. *)
Lemma main_typed (fuel : nat) (args : arguments) (w : World) :
  Http.main srv quote urljoin fuel args w
  = option_map (fun r => ((Http.Exit (fst (fst r)), snd (fst r)), snd r))
      (main R quote urljoin fuel args w).
Proof.
  unfold Http.main, main, Http.get_bitbucket_snippets,
    get_bitbucket_snippets.
  destruct (truthy_ostr (test_snippet_id args)).
  - unfold bind, lift, ret. simpl bb_snippet.
    destruct Hshape as (Hsnippet & _).
    destruct (Hsnippet
                (snippet_url quote urljoin (bitbucket_workspace args)
                   (get_default (test_snippet_id args) EmptyString)) w)
      as [Hid _].
    destruct (Http.request _ w) as [[[sn|s]|] w1]; simpl in Hid;
      cbn [Http.as_dict is_empty].
    + pose proof (process_snippets_typed fuel args
                    (bitbucket_workspace args) [sn] w1) as E.
      cbn [map] in E. rewrite E.
      destruct (process_snippets R quote urljoin fuel args
                                 (bitbucket_workspace args) [sn] w1)
        as [[evs w2]|]; reflexivity.
    + destruct (truthy_str s); [|reflexivity].
      cbn [is_empty Http.process_snippets]. unfold bind, ret.
      unfold Http.process_snippet. cbn [Http.text_with]. rewrite Hid.
      reflexivity.
    + reflexivity.
  - unfold bind, ret. simpl bb_snippets_page.
    destruct (get_paginated_results _ fuel _ w) as [[[snippets|] w1]|];
      try reflexivity.
    cbn [option_map].
    destruct snippets as [|sn rest]; [reflexivity|].
    pose proof (process_snippets_typed fuel args
                  (bitbucket_workspace args) (sn :: rest) w1) as E.
    cbn [map] in E. cbn [map is_empty]. rewrite E.
    destruct (process_snippets R quote urljoin fuel args
                               (bitbucket_workspace args) (sn :: rest) w1)
      as [[evs w2]|]; reflexivity.
Qed.

End Typed.

(** C10, as amended.  The process ends with exit status 1 in two ways: by
    the [sys.exit(1)] of line 277, which is reached exactly when the run is
    not restricted to one snippet and a request of the paginated snippet
    listing fails; and by an exception that nothing catches.  A run
    restricted to one snippet exits with code 0 when the fetch of the
    snippet fails, and ends with the [TypeError] of line 289 when the reply
    is a text with [id] in it.  Every other run that comes to an end exits
    with code 0.  When no reply that the script indexes is a text with the
    key in it, nothing is raised: the run is the run of the first part, and
    the exit status is 1 exactly when the run is not restricted and the
    listing fails. *)
Theorem exit_code_of_main (fuel : nat) (args : arguments) (w : World) :
  (truthy_ostr (test_snippet_id args) = false ->
   forall w',
     snippet_listing srv quote urljoin fuel args w = Some (None, w') ->
     Http.main srv quote urljoin fuel args w
     = Some ((Http.Exit 1, []), w'))
  /\ (truthy_ostr (test_snippet_id args) = true ->
      forall w',
        single_snippet srv quote urljoin args w = (None, w') ->
        Http.main srv quote urljoin fuel args w
        = Some ((Http.Exit 0, []), w'))
  /\ (truthy_ostr (test_snippet_id args) = true ->
      forall s w',
        single_snippet srv quote urljoin args w = (Some (Text s), w') ->
        contains "id" s = true ->
        Http.main srv quote urljoin fuel args w
        = Some ((Http.Uncaught (Http.TypeError 289), []), w'))
  /\ (forall h evs w',
         Http.main srv quote urljoin fuel args w = Some ((h, evs), w') ->
         (Http.exit_status h = 1%Z
          <-> (truthy_ostr (test_snippet_id args) = false
               /\ snippet_listing srv quote urljoin fuel args w
                  = Some (None, w'))
              \/ exists e, h = Http.Uncaught e)
         /\ (Http.exit_status h <> 1%Z -> h = Http.Exit 0))
  /\ (Http.no_text_with_key srv ->
      forall h evs w',
        Http.main srv quote urljoin fuel args w = Some ((h, evs), w') ->
        main (Http.typed srv) quote urljoin fuel args w
        = Some ((Http.exit_status h, evs), w')
        /\ h = Http.Exit (Http.exit_status h)
        /\ (Http.exit_status h = 1%Z
            <-> truthy_ostr (test_snippet_id args) = false
                /\ snippet_listing srv quote urljoin fuel args w
                   = Some (None, w'))).
Proof.
  assert (Hended : forall h evs w',
    Http.main srv quote urljoin fuel args w = Some ((h, evs), w') ->
    (Http.exit_status h = 1%Z
     <-> (truthy_ostr (test_snippet_id args) = false
          /\ snippet_listing srv quote urljoin fuel args w
             = Some (None, w'))
         \/ exists e, h = Http.Uncaught e)
    /\ (Http.exit_status h <> 1%Z -> h = Http.Exit 0)).
  { intros h evs w'.
    unfold Http.main, Http.get_bitbucket_snippets, snippet_listing.
    destruct (truthy_ostr (test_snippet_id args)).
    - unfold bind at 1. unfold bind at 1. unfold lift, ret.
      destruct (Http.request _ w) as [snippet_data w1].
      assert (Hrun : forall snippets,
        (r <- Http.process_snippets srv quote urljoin fuel args
                (bitbucket_workspace args) snippets ;;
         ret (match snd r with
              | Some e => Http.Uncaught e
              | None => Http.Exit 0
              end, fst r)) w1 = Some ((h, evs), w') ->
        (Http.exit_status h = 1%Z
         <-> (false = false /\ @None (option (list snippet) * World)
                               = Some (None, w'))
             \/ exists e, h = Http.Uncaught e)
        /\ (Http.exit_status h <> 1%Z -> h = Http.Exit 0)).
      { intros snippets. unfold bind, ret.
        destruct (Http.process_snippets srv quote urljoin fuel args
                    (bitbucket_workspace args) snippets w1)
          as [[[evs1 [e|]] w2]|]; [| |discriminate].
        - intros [= <- <- <-]. simpl. split; [|intros H; now elim H].
          split; [intros _; right; now exists e | reflexivity].
        - intros [= <- <- <-]. simpl. split; [|reflexivity].
          split; [discriminate|].
          intros [[_ H] | [e H]]; discriminate H. }
      assert (Hnone : Some ((Http.Exit 0, @nil event), w1)
                      = Some ((h, evs), w') ->
        (Http.exit_status h = 1%Z
         <-> (true = false /\ True) \/ exists e, h = Http.Uncaught e)
        /\ (Http.exit_status h <> 1%Z -> h = Http.Exit 0)).
      { intros [= <- <- <-]. simpl. split; [|reflexivity].
        split; [discriminate|].
        intros [[H _] | [e H]]; discriminate H. }
      assert (Hiff : forall (P : Prop),
        ((Http.exit_status h = 1%Z
          <-> (true = false /\ True) \/ exists e, h = Http.Uncaught e)
         /\ (Http.exit_status h <> 1%Z -> h = Http.Exit 0)) ->
        (Http.exit_status h = 1%Z
         <-> (true = false /\ P) \/ exists e, h = Http.Uncaught e)
        /\ (Http.exit_status h <> 1%Z -> h = Http.Exit 0)).
      { intros P [H1 H2]. split; [|exact H2]. rewrite H1.
        split; (intros [[H _] | H]; [discriminate H | right; exact H]). }
      assert (Hiff' : forall (P : Prop),
        ((Http.exit_status h = 1%Z
          <-> (false = false /\ @None (option (list snippet) * World)
                                = Some (None, w'))
              \/ exists e, h = Http.Uncaught e)
         /\ (Http.exit_status h <> 1%Z -> h = Http.Exit 0)) ->
        (Http.exit_status h = 1%Z
         <-> (true = false /\ P) \/ exists e, h = Http.Uncaught e)
        /\ (Http.exit_status h <> 1%Z -> h = Http.Exit 0)).
      { intros P [H1 H2]. split; [|exact H2]. rewrite H1.
        split; (intros [[H H'] | H];
                [discriminate || discriminate H' | right; exact H]). }
      destruct snippet_data as [[sn|s]|].
      + cbn [is_empty]. intros H. apply Hiff'. exact (Hrun _ H).
      + destruct (truthy_str s).
        * cbn [is_empty]. intros H. apply Hiff'. exact (Hrun _ H).
        * cbn [is_empty]. intros H. apply Hiff. exact (Hnone H).
      + cbn [is_empty]. intros H. apply Hiff. exact (Hnone H).
    - unfold bind at 1. unfold bind at 1.
      destruct (get_paginated_results _ fuel _ w)
        as [[[snippets|] w1]|]; [| |discriminate].
      + unfold ret at 1. cbn [option_map].
        destruct snippets as [|sn rest]; cbn [map is_empty].
        * intros [= <- <- <-]. simpl. split; [|reflexivity].
          split; [discriminate|].
          intros [[_ H] | [e H]]; discriminate H.
        * unfold bind, ret.
          destruct (Http.process_snippets srv quote urljoin fuel args
                      (bitbucket_workspace args) _ w1)
            as [[[evs1 [e|]] w2]|]; [| |discriminate].
          -- intros [= <- <- <-]. simpl. split; [|intros H; now elim H].
             split; [intros _; right; now exists e | reflexivity].
          -- intros [= <- <- <-]. simpl. split; [|reflexivity].
             split; [discriminate|].
             intros [[_ H] | [e H]]; discriminate H.
      + unfold ret. cbn [option_map]. intros [= <- <- <-]. simpl.
        split; [|intros H; now elim H].
        split; [intros _; left; split; reflexivity | reflexivity]. }
  split; [|split; [|split; [|split]]].
  - intros Hid w' Hl. unfold snippet_listing in Hl.
    unfold Http.main, Http.get_bitbucket_snippets. rewrite Hid.
    unfold bind. rewrite Hl. reflexivity.
  - intros Hid w' Hs. unfold single_snippet in Hs.
    unfold Http.main, Http.get_bitbucket_snippets. rewrite Hid.
    unfold bind, lift, ret. rewrite Hs. reflexivity.
  - intros Hid s w' Hs Hc. unfold single_snippet in Hs.
    unfold Http.main, Http.get_bitbucket_snippets. rewrite Hid.
    unfold bind, lift, ret. rewrite Hs.
    assert (Ht : truthy_str s = true).
    { destruct s; [discriminate Hc | reflexivity]. }
    rewrite Ht. cbn [is_empty Http.process_snippets]. unfold bind, ret.
    unfold Http.process_snippet. cbn [Http.text_with]. rewrite Hc.
    reflexivity.
  - exact Hended.
  - intros Hshape h evs w' Hmain.
    destruct (Hended h evs w' Hmain) as [Hiff Hzero].
    rewrite (main_typed Hshape) in Hmain.
    destruct (main (Http.typed srv) quote urljoin fuel args w)
      as [[[code evs1] w1]|]; [|discriminate Hmain].
    injection Hmain as <- <- <-. cbn [Http.exit_status fst snd].
    split; [reflexivity|]. split; [reflexivity|].
    cbn [Http.exit_status] in Hiff. rewrite Hiff.
    split; [|intros H; left; exact H].
    intros [H | [e H]]; [exact H | discriminate H].
Qed.

End OverHttp.

(** * The properties at work on the example inputs *)

Local Abbreviation mock_step src :=
  (replay_step (Mock.remote src) Mock.quote Mock.urljoin "ws" "s1" 1
               "notes.txt").
Local Abbreviation mock_run src :=
  (replay (Mock.remote src) Mock.quote Mock.urljoin "ws" "s1" 1 "notes.txt").
Local Abbreviation h1 := (Mock.mk_commit "h1" "first").
Local Abbreviation h2 := (Mock.mk_commit "h2" "second").
Local Abbreviation h3 := (Mock.mk_commit "h3" "third").
Local Abbreviation h4 := (Mock.mk_commit "h4" "fourth").

(** The end-to-end example of the specification behaves as it says: one
    create for the first commit, nothing for the second, one update for the
    third. *)
Example notes_demo_run :
  option_map fst (Mock.run_main notes_demo 5 Mock.args0 Mock.empty)
  = Some (0%Z,
          [OnBook "s1" (CreateBook "demo");
           OnPage "s1" "notes.txt" 0
                  (CreatePage 1 "notes.txt" (compose_page_content "hello"));
           OnPage "s1" "notes.txt" 2
                  (UpdatePage 2 (compose_page_content "hello world")
                              (update_summary (commit_info h3)))]).
Proof. reflexivity. Qed.

(** C1 (defect).  In [ab_demo] the first commit creates the page with the
    payload of A.  When the second commit is processed the page identifier
    is set and this commit did not create the page; its payload, that of B,
    differs from the recorded one; and yet it makes no call: the run ends
    with the create call alone and the page keeps the payload of A. *)
Theorem update_after_creation_is_lost :
  option_map fst (Mock.run_main ab_demo 5 Mock.args0 Mock.empty)
  = Some (0%Z,
          [OnBook "s1" (CreateBook "demo");
           OnPage "s1" "notes.txt" 0
                  (CreatePage 1 "notes.txt" (compose_page_content "A"))])
  /\ option_map (fun r => map Mock.sp_markdown (Mock.pages (snd r)))
                (Mock.run_main ab_demo 5 Mock.args0 Mock.empty)
     = Some [compose_page_content "A"]
  /\ (let s := just_created 2 (compose_page_content "A") in
      truthy_id (page_id s) = true
      /\ previous_page_content s <> Some (compose_page_content "B")
      /\ fst (mock_step ab_demo h2 s Mock.empty)
         = (Next,
            {| page_id := Some 2%Z;
               page_created_in_this_run := true;
               processed_first_commit_for_page := false;
               previous_page_content := Some (compose_page_content "B") |},
            [])).
Proof.
  split; [reflexivity|]. split; [reflexivity|].
  split; [reflexivity|]. split; [discriminate | reflexivity].
Qed.

(** C3 (defect).  The text prepended to the content is two newlines and
    nothing of the commit.  In [same_text_demo] the two commits differ in
    hash and message and have the same content; on a page that exists, the
    first one is written and the second one is suppressed as unchanged. *)
Theorem same_content_new_metadata_is_suppressed :
  (forall content : string,
      compose_page_content content = (nl ++ nl ++ content)%string)
  /\ commit_info h1 <> commit_info h2
  /\ option_map fst (Mock.run_main same_text_demo 5 Mock.args0 existing)
     = Some (0%Z,
             [OnPage "s1" "notes.txt" 0
                     (UpdatePage 2 (compose_page_content "same")
                                 (update_summary (commit_info h1)))]).
Proof.
  split; [reflexivity|]. split; [|reflexivity].
  apply String.eqb_neq. reflexivity.
Qed.

(** C5 (counterexample).  [abc_demo] is migrated into an empty BookStack and
    then, with the source unchanged, migrated again into the BookStack the
    first run left behind (the book and the page exist, the page holds the
    payload of C).  The second run creates nothing, but it makes three
    update calls, the first of them with the payload of A. *)
Lemma second_run_updates_again :
  exists (evs1 : list event) (w1 : Mock.world),
    Mock.run_main abc_demo 5 Mock.args0 Mock.empty = Some ((0%Z, evs1), w1)
    /\ map Mock.sp_markdown (Mock.pages w1) = [compose_page_content "C"]
    /\ option_map fst (Mock.run_main abc_demo 5 Mock.args0 w1)
       = Some (0%Z,
               [OnPage "s1" "notes.txt" 0
                       (UpdatePage 2 (compose_page_content "A")
                                   (update_summary (commit_info h1)));
                OnPage "s1" "notes.txt" 1
                       (UpdatePage 2 (compose_page_content "B")
                                   (update_summary (commit_info h2)));
                OnPage "s1" "notes.txt" 2
                       (UpdatePage 2 (compose_page_content "C")
                                   (update_summary (commit_info h3)))]).
Proof.
  eexists. eexists. split; [vm_compute; reflexivity|].
  split; reflexivity.
Qed.

(** ** The fetcher on a listing of three pages *)

Example listing_complete :
  get_paginated_results
    (bb_commits_page (Mock.remote (listing [page1; page2; page3])))
    5 "u1" Mock.empty
  = Some (Some [Mock.mk_commit "h5" "e"; Mock.mk_commit "h4" "d";
                Mock.mk_commit "h3" "c"; Mock.mk_commit "h2" "b";
                Mock.mk_commit "h1" "a"], Mock.empty).
Proof. reflexivity. Qed.

Example listing_malformed_third_page :
  get_paginated_results
    (bb_commits_page
       (Mock.remote (listing [page1; page2; ("u3", Unexpected)])))
    5 "u1" Mock.empty
  = Some (Some [Mock.mk_commit "h5" "e"; Mock.mk_commit "h4" "d";
                Mock.mk_commit "h3" "c"], Mock.empty).
Proof. reflexivity. Qed.

(** The request for the third page fails and the three commits of the first
    two pages are lost; with the third page in place the fetch walks the
    whole chain. *)
Lemma paginated_fetch_outcomes_witness :
  walk (bb_commits_page (Mock.remote (listing [page1; page2])))
       (Some "u1") Mock.empty
       [[Mock.mk_commit "h5" "e"; Mock.mk_commit "h4" "d"];
        [Mock.mk_commit "h3" "c"]]
       RequestFailed Mock.empty
  /\ 2 < 5
  /\ get_paginated_results
       (bb_commits_page (Mock.remote (listing [page1; page2])))
       5 "u1" Mock.empty
     = Some (None, Mock.empty)
  /\ exists batches e,
      walk (bb_commits_page (Mock.remote (listing [page1; page2; page3])))
           (Some "u1") Mock.empty batches e Mock.empty
      /\ Some [Mock.mk_commit "h5" "e"; Mock.mk_commit "h4" "d";
               Mock.mk_commit "h3" "c"; Mock.mk_commit "h2" "b";
               Mock.mk_commit "h1" "a"]
         = match e with
           | RequestFailed => None
           | BadShape => Some (concat batches)
           | LastPage => Some (concat batches)
           end.
Proof.
  assert (Hw : walk (bb_commits_page (Mock.remote (listing [page1; page2])))
                    (Some "u1") Mock.empty
                    [[Mock.mk_commit "h5" "e"; Mock.mk_commit "h4" "d"];
                     [Mock.mk_commit "h3" "c"]]
                    RequestFailed Mock.empty).
  { eapply walk_page; [reflexivity | reflexivity |].
    eapply walk_page; [reflexivity | reflexivity |].
    apply walk_failed; reflexivity. }
  assert (Hf : 2 < 5) by (repeat constructor).
  split; [exact Hw|]. split; [exact Hf|]. split.
  - exact (proj1 (paginated_fetch_outcomes _ "u1" _ _ 5)
                 _ RequestFailed Hw Hf).
  - exact (proj2 (paginated_fetch_outcomes
                    (bb_commits_page
                       (Mock.remote (listing [page1; page2; page3])))
                    "u1" Mock.empty Mock.empty 5)
                 _ eq_refl).
Defined.

(** ** The replay loop on the examples *)

Lemma at_most_one_page_create_witness :
  (exists evs w',
      process_file (Mock.remote late_demo) Mock.quote Mock.urljoin 5
                   Mock.args0 "ws" "s1" 1 [h1; h2; h3; h4] "notes.txt"
                   Mock.empty = Some (evs, w')
      /\ length (filter (event_is is_create_page) evs) <= 1)
  /\ (exists evs w',
         process_files (Mock.remote late_demo) Mock.quote Mock.urljoin 5
                       Mock.args0 "ws" "s1" 1 [h1; h2; h3; h4]
                       ["notes.txt"; "todo.txt"] Mock.empty = Some (evs, w')
         /\ length (filter (creates_page_of "notes.txt") evs) <= 1)
  /\ (all_absent (Mock.remote late_demo) Mock.quote Mock.urljoin "ws" "s1"
                 "notes.txt" [h1; h2] Mock.empty = Some Mock.empty
      /\ exists tr,
          snd (fst (mock_run late_demo 0 ([h1; h2] ++ h3 :: [h4])
                             (initial_cursor None) Mock.empty))
          = (2, CreatePage 1 "notes.txt" (compose_page_content "A")) :: tr
          /\ creates tr = []
          /\ Forall (fun ic => 2 < fst ic) tr)
  /\ (find_bookstack_page (Mock.remote late_demo) 5 1 "notes.txt" existing
      = Some (Some {| pg_id := 2; pg_name := Some "notes.txt" |}, existing)
      /\ exists evs w2,
          process_file (Mock.remote late_demo) Mock.quote Mock.urljoin 5
                       Mock.args0 "ws" "s1" 1 [h1; h2; h3; h4] "notes.txt"
                       existing = Some (evs, w2)
          /\ forallb (fun e => negb (event_is is_create_page e)) evs = true).
Proof.
  destruct (at_most_one_page_create (Mock.remote late_demo) Mock.quote
              Mock.urljoin "ws" "s1" 1 "notes.txt")
    as (_ & Hfile & Hfiles & Hlate & Hfound).
  split; [|split; [|split]].
  - destruct (process_file (Mock.remote late_demo) Mock.quote Mock.urljoin 5
                           Mock.args0 "ws" "s1" 1 [h1; h2; h3; h4]
                           "notes.txt" Mock.empty) as [[evs w']|] eqn:E.
    + exists evs, w'. split; [reflexivity|].
      exact (Hfile 5 Mock.args0 [h1; h2; h3; h4] Mock.empty w' evs E).
    + vm_compute in E. discriminate E.
  - destruct (process_files (Mock.remote late_demo) Mock.quote Mock.urljoin 5
                            Mock.args0 "ws" "s1" 1 [h1; h2; h3; h4]
                            ["notes.txt"; "todo.txt"] Mock.empty)
      as [[evs w']|] eqn:E.
    + exists evs, w'. split; [reflexivity|].
      refine (Hfiles 5 Mock.args0 [h1; h2; h3; h4] ["notes.txt"; "todo.txt"]
                     Mock.empty w' evs _ E).
      constructor; [|constructor; [intros []|constructor]].
      intros [H|[]]. discriminate H.
    + vm_compute in E. discriminate E.
  - split; [reflexivity|].
    exact (Hlate [h1; h2] h3 [h4] "A" None Mock.empty Mock.empty
                 eq_refl eq_refl eq_refl).
  - split; [reflexivity|].
    apply (Hfound 5 Mock.args0 [h1; h2; h3; h4]
                  {| pg_id := 2; pg_name := Some "notes.txt" |}
                  existing existing eq_refl).
    discriminate.
Defined.

Lemma revision_after_creation_makes_no_call_witness :
  fst (mock_step gap_demo h1 (initial_cursor None) Mock.empty)
  = (Next, just_created 1 (compose_page_content "A"),
     [CreatePage 1 "notes.txt" (compose_page_content "A")])
  /\ exists s2,
      fst (mock_step gap_demo h3 (just_created 1 (compose_page_content "A"))
                     (snd (mock_step gap_demo h1 (initial_cursor None)
                                     Mock.empty)))
      = (Next, s2, [])
      /\ previous_page_content s2 = Some (compose_page_content "B")
      /\ snd (fst (mock_run gap_demo 0 (h1 :: [h2] ++ h3 :: [h4])
                            (initial_cursor None) Mock.empty))
         = [(0, CreatePage 1 "notes.txt" (compose_page_content "A"));
            (3, UpdatePage 1 (compose_page_content "C")
                           (update_summary (commit_info h4)))].
Proof.
  split; [reflexivity|].
  destruct (revision_after_creation_makes_no_call
              (Mock.remote gap_demo) Mock.quote Mock.urljoin "ws" "s1" 1
              "notes.txt" h1 (initial_cursor None)
              (just_created 1 (compose_page_content "A")) Mock.empty
              (snd (mock_step gap_demo h1 (initial_cursor None) Mock.empty))
              [CreatePage 1 "notes.txt" (compose_page_content "A")]
              eq_refl eq_refl [h2] h3 [h4] "B"
              (snd (mock_step gap_demo h1 (initial_cursor None) Mock.empty))
              (snd (mock_step gap_demo h1 (initial_cursor None) Mock.empty))
              0 eq_refl eq_refl)
    as (s2 & Hstep & Hprev & _ & Hrun).
  exists s2. split; [rewrite Hstep; reflexivity|]. split; [exact Hprev|].
  rewrite Hrun. injection Hstep as <-. reflexivity.
Defined.

Lemma rerun_updates_existing_page_witness :
  (exists evs w',
      process_snippet (Mock.remote gap_demo) Mock.quote Mock.urljoin 5
                      Mock.args0 "ws" demo_snippet existing = Some (evs, w')
      /\ forallb (fun e => negb (event_is is_create_book e)) evs = true)
  /\ (exists evs w4,
         process_file (Mock.remote gap_demo) Mock.quote Mock.urljoin 5
                      Mock.args0 "ws" "s1" 1 ([] ++ h1 :: [h2; h3; h4])
                      "notes.txt" existing
         = Some (OnPage "s1" "notes.txt" 0
                        (UpdatePage 2 (compose_page_content "A")
                                    (update_summary (commit_info h1)))
                   :: evs, w4)
         /\ forallb (fun e => negb (event_is is_create_page e)) evs = true)
  /\ snd (fst (mock_step gap_demo h3
                         (recorded (initial_cursor (Some 2%Z))
                                   (compose_page_content "B")) existing))
     = []
  /\ snd (fst (mock_step gap_demo h4
                         (recorded (initial_cursor (Some 2%Z))
                                   (compose_page_content "B")) existing))
     = [UpdatePage 2 (compose_page_content "C")
                   (update_summary (commit_info h4))]
  /\ process_file (Mock.remote gap_demo) Mock.quote Mock.urljoin 5 args_skip
                  "ws" "s1" 1 [h1; h2; h3; h4] "notes.txt" existing
     = Some ([], existing).
Proof.
  destruct (rerun_updates_existing_page (Mock.remote gap_demo) Mock.quote
              Mock.urljoin 5 Mock.args0 "ws" "s1")
    as (Hbook & Hfirst & Hlater & _).
  destruct (rerun_updates_existing_page (Mock.remote gap_demo) Mock.quote
              Mock.urljoin 5 args_skip "ws" "s1") as (_ & _ & _ & Hskip).
  split; [|split; [|split; [|split]]].
  - destruct (process_snippet (Mock.remote gap_demo) Mock.quote Mock.urljoin
                              5 Mock.args0 "ws" demo_snippet existing)
      as [[evs w']|] eqn:E.
    + exists evs, w'. split; [reflexivity|].
      exact (Hbook demo_snippet {| bk_id := 1; bk_name := Some "demo" |}
                   existing existing w' evs eq_refl eq_refl E).
    + vm_compute in E. discriminate E.
  - refine (Hfirst 1%Z "notes.txt" [] h1 [h2; h3; h4] "A"
                   {| pg_id := 2; pg_name := Some "notes.txt" |}
                   existing existing existing existing
                   eq_refl _ eq_refl eq_refl eq_refl).
    discriminate.
  - exact (Hlater 1%Z "notes.txt" h3
                  (recorded (initial_cursor (Some 2%Z))
                            (compose_page_content "B"))
                  existing existing "B" eq_refl eq_refl eq_refl).
  - exact (Hlater 1%Z "notes.txt" h4
                  (recorded (initial_cursor (Some 2%Z))
                            (compose_page_content "B"))
                  existing existing "C" eq_refl eq_refl eq_refl).
  - exact (Hskip 1%Z "notes.txt" [h1; h2; h3; h4]
                 {| pg_id := 2; pg_name := Some "notes.txt" |}
                 existing existing eq_refl eq_refl).
Defined.

Lemma writes_follow_commit_order_witness :
  get_paginated_results
    (bb_commits_page (Mock.remote notes_demo)) 5
    (commits_url Mock.quote Mock.urljoin "ws" "s1") Mock.empty
  = Some (Some [h3; h2; h1], Mock.empty)
  /\ process_book (Mock.remote notes_demo) Mock.quote Mock.urljoin 5
                  Mock.args0 "ws" "s1" 1 Mock.empty
     = process_files (Mock.remote notes_demo) Mock.quote Mock.urljoin 5
                     Mock.args0 "ws" "s1" 1 (rev [h3; h2; h1]) ["notes.txt"]
                     Mock.empty.
Proof.
  split; [reflexivity|].
  refine (proj1 (proj2 (writes_follow_commit_order
                          (Mock.remote notes_demo) Mock.quote Mock.urljoin))
                5 Mock.args0 "ws" "s1" 1%Z demo_snippet ["notes.txt"]
                [h3; h2; h1] Mock.empty Mock.empty Mock.empty
                _ eq_refl eq_refl _ eq_refl _);
    discriminate.
Defined.

(** The sequencer reverses the listing of three pages. *)
Example commits_oldest_first :
  get_snippet_commits
    (Mock.remote
       (listing [(commits_url Mock.quote Mock.urljoin "ws" "s1",
                  snd page1); page2; page3]))
    Mock.quote Mock.urljoin 5 "ws" "s1" Mock.empty
  = Some (Some [Mock.mk_commit "h1" "a"; Mock.mk_commit "h2" "b";
                Mock.mk_commit "h3" "c"; Mock.mk_commit "h4" "d";
                Mock.mk_commit "h5" "e"], Mock.empty).
Proof. reflexivity. Qed.


(** ** The orchestration on the examples *)

Lemma empty_history_is_one_synthesized_commit_witness :
  (get_snippet_commits (Mock.remote no_history_demo) Mock.quote Mock.urljoin
                       5 "ws" "s1" Mock.empty = Some (Some [], Mock.empty)
   /\ process_book (Mock.remote no_history_demo) Mock.quote Mock.urljoin 5
                   Mock.args0 "ws" "s1" 1 Mock.empty
      = process_files (Mock.remote no_history_demo) Mock.quote Mock.urljoin 5
                      Mock.args0 "ws" "s1" 1
                      [{| c_hash := "HEAD"; c_date := Some "2024-02-02";
                          c_message := Some "Current state";
                          c_author := Some (Some "N/A") |}]
                      ["notes.txt"] Mock.empty)
  /\ (get_snippet_commits (Mock.remote no_commits_endpoint) Mock.quote
                          Mock.urljoin 5 "ws" "s1" Mock.empty
      = Some (None, Mock.empty)
      /\ process_book (Mock.remote no_commits_endpoint) Mock.quote
                      Mock.urljoin 5 Mock.args0 "ws" "s1" 1 Mock.empty
         = Some ([], Mock.empty)).
Proof.
  split; (split; [reflexivity|]).
  - refine (proj1 (empty_history_is_one_synthesized_commit
                     (Mock.remote no_history_demo) Mock.quote Mock.urljoin 5
                     Mock.args0 "ws" "s1" 1 _ ["notes.txt"] Mock.empty
                     Mock.empty _ eq_refl eq_refl _) Mock.empty eq_refl);
      discriminate.
  - refine (proj1 (proj2 (empty_history_is_one_synthesized_commit
                     (Mock.remote no_commits_endpoint) Mock.quote
                     Mock.urljoin 5 Mock.args0 "ws" "s1" 1 _ ["notes.txt"]
                     Mock.empty Mock.empty _ eq_refl eq_refl _))
                  Mock.empty eq_refl);
      discriminate.
Defined.

Lemma request_answer {World J : Type} (f : World -> option J * World)
      (w : World) :
  Http.request (fun w => let (o, w1) := f w in (answer o, w1)) w
  = (option_map (@Json J) (fst (f w)), snd (f w)).
Proof.
  unfold Http.request. destruct (f w) as [[j|] w1]; reflexivity.
Qed.

Lemma text_with_answer {World J : Type} (key : string)
      (f : World -> option J * World) (w : World) :
  Http.text_with key
    (fst (Http.request (fun w => let (o, w1) := f w in (answer o, w1)) w))
  = false.
Proof.
  rewrite request_answer. simpl. destruct (fst (f w)); reflexivity.
Qed.

(** Behind [serve] no reply is a text. *)
Lemma serve_no_text {World : Type} (R : Remote World) :
  Http.no_text_with_key (serve R).
Proof.
  unfold Http.no_text_with_key, serve. simpl.
  repeat split; intros; apply text_with_answer.
Qed.

(** The text of [maintenance_page] does not have [data] in it. *)
Lemma maintenance_no_text {World : Type} (R : Remote World) :
  Http.no_text_with_key (with_books_response (serve R) maintenance_page).
Proof.
  destruct (serve_no_text R) as (H1 & _ & H3 & H4 & H5).
  split; [exact H1|].
  split; [|split; [exact H3 | split; [exact H4 | exact H5]]].
  intros name w. reflexivity.
Qed.

(** C10 (counterexample).  The run is restricted to the snippet [s1] and
    Bitbucket answers no request: the snippet cannot be retrieved, and the
    exit code is 0. *)
Lemma single_snippet_failure_exits_zero :
  single_snippet (serve (Mock.remote unreachable)) Mock.quote Mock.urljoin
                 args_one Mock.empty
  = (None, Mock.empty)
  /\ Http.main (serve (Mock.remote unreachable)) Mock.quote Mock.urljoin 5
               args_one Mock.empty
     = Some ((Http.Exit 0, []), Mock.empty)
  /\ Http.exit_status (Http.Exit 0) = 0%Z.
Proof. repeat split. Qed.


(** A full run in front of whose Bitbucket a login wall answers the request
    of a single snippet: the listing is retrieved and the book is created,
    and the details of the snippet are a text with [files] in it, so that
    line 322 ends the run with exit status 1. *)
Example text_reply_ends_the_run :
  option_map fst
    (Http.main (with_snippet_response (serve (Mock.remote notes_demo))
                                      login_page)
               Mock.quote Mock.urljoin 5 Mock.args0 Mock.empty)
  = Some (Http.Uncaught (Http.TypeError 322),
          [OnBook "s1" (CreateBook "demo")])
  /\ snippet_listing (with_snippet_response (serve (Mock.remote notes_demo))
                                            login_page)
                     Mock.quote Mock.urljoin 5 Mock.args0 Mock.empty
     = Some (Some [demo_snippet], Mock.empty)
  /\ Http.exit_status (Http.Uncaught (Http.TypeError 322)) = 1%Z.
Proof. repeat split. Qed.

Lemma exit_code_of_main_witness :
  Http.main (serve (Mock.remote unreachable)) Mock.quote Mock.urljoin 5
            Mock.args0 Mock.empty
  = Some ((Http.Exit 1, []), Mock.empty)
  /\ Http.main (serve (Mock.remote unreachable)) Mock.quote Mock.urljoin 5
               args_one Mock.empty
     = Some ((Http.Exit 0, []), Mock.empty)
  /\ Http.main (with_snippet_response (serve (Mock.remote notes_demo))
                                      login_page)
               Mock.quote Mock.urljoin 5 args_one Mock.empty
     = Some ((Http.Uncaught (Http.TypeError 289), []), Mock.empty)
  /\ option_map fst
       (main (Http.typed (with_books_response
                            (serve (Mock.remote notes_demo))
                            maintenance_page))
             Mock.quote Mock.urljoin 5 Mock.args0 existing)
     = Some (0%Z,
             [OnBook "s1" (CreateBook "demo");
              OnPage "s1" "notes.txt" 0
                     (CreatePage 3 "notes.txt"
                                 (compose_page_content "hello"));
              OnPage "s1" "notes.txt" 2
                     (UpdatePage 4 (compose_page_content "hello world")
                                 (update_summary (commit_info h3)))]).
Proof.
  split; [|split; [|split]].
  - exact (proj1 (exit_code_of_main (serve (Mock.remote unreachable))
                    Mock.quote Mock.urljoin 5 Mock.args0 Mock.empty)
                 eq_refl Mock.empty eq_refl).
  - exact (proj1 (proj2 (exit_code_of_main
                           (serve (Mock.remote unreachable)) Mock.quote
                           Mock.urljoin 5 args_one Mock.empty))
                 eq_refl Mock.empty eq_refl).
  - exact (proj1 (proj2 (proj2 (exit_code_of_main
                                  (with_snippet_response
                                     (serve (Mock.remote notes_demo))
                                     login_page)
                                  Mock.quote Mock.urljoin 5 args_one
                                  Mock.empty)))
                 eq_refl _ Mock.empty eq_refl eq_refl).
  - destruct (Http.main (with_books_response
                           (serve (Mock.remote notes_demo))
                           maintenance_page)
                        Mock.quote Mock.urljoin 5 Mock.args0 existing)
      as [[[h evs] w']|] eqn:Hmain; [|discriminate Hmain].
    destruct (proj2 (proj2 (proj2 (proj2 (exit_code_of_main
                (with_books_response (serve (Mock.remote notes_demo))
                                     maintenance_page)
                Mock.quote Mock.urljoin 5 Mock.args0 existing))))
                (maintenance_no_text (Mock.remote notes_demo))
                h evs w' Hmain) as (Htyped & _ & _).
    rewrite Htyped. vm_compute in Hmain. injection Hmain as <- <- <-.
    reflexivity.
Defined.

(** * Further properties of the code *)

(** ** make_request *)

(** The test of line 25 does not change what is returned: a 404 raises in
    [raise_for_status] as well. *)
Lemma make_request_responded (J : Type) (expect_json : bool)
      (caller_info : string) (r : http_response J) :
  make_request expect_json caller_info (Responded r)
  = if raises_for_status (status_code r) || (status_code r =? 204)%Z
    then None
    else if expect_json
            && contains "application/json"
                        (get_default (content_type r) EmptyString)
         then match json r with
              | Some (Some j) => Some (Json j)
              | _ => None
              end
         else Some (Text (text r)).
Proof.
  unfold make_request.
  destruct (Z.eqb_spec (status_code r) 404) as [H404|_].
  - rewrite H404. simpl.
    destruct (contains "get_snippet_revision_content" caller_info);
      reflexivity.
  - simpl. destruct (raises_for_status (status_code r)); simpl;
      [reflexivity|].
    destruct (status_code r =? 204)%Z; reflexivity.
Qed.

Lemma raises_for_status_iff (status : Z) :
  raises_for_status status = true <-> (400 <= status < 600)%Z.
Proof. unfold raises_for_status. rewrite andb_true_iff. lia. Qed.

(** X1.  [make_request] returns [None] exactly when the request raised, or
    the status is a 4xx or 5xx code, or the status is 204, or JSON was
    expected and announced by the Content-Type and the body could not be
    decoded or was [null], which decodes to the [None] that line 37 returns.
    In every other case it returns the decoded JSON, when JSON was expected
    and announced, and the text of the response otherwise. *)
Theorem make_request_none_iff (J : Type) (expect_json : bool)
        (caller_info : string) (o : http_outcome J) :
  (make_request expect_json caller_info o = None
   <-> o = RequestError
       \/ exists r,
           o = Responded r
           /\ ((400 <= status_code r < 600)%Z
               \/ status_code r = 204%Z
               \/ (expect_json = true
                   /\ contains "application/json"
                               (get_default (content_type r) EmptyString)
                      = true
                   /\ (json r = None \/ json r = Some None))))
  /\ (forall j,
        make_request expect_json caller_info o = Some (Json j)
        <-> exists r,
            o = Responded r
            /\ ~ (400 <= status_code r < 600)%Z
            /\ status_code r <> 204%Z
            /\ expect_json = true
            /\ contains "application/json"
                        (get_default (content_type r) EmptyString)
               = true
            /\ json r = Some (Some j))
  /\ (forall s,
        make_request expect_json caller_info o = Some (Text s)
        <-> exists r,
            o = Responded r
            /\ ~ (400 <= status_code r < 600)%Z
            /\ status_code r <> 204%Z
            /\ (expect_json = false
                \/ contains "application/json"
                            (get_default (content_type r) EmptyString)
                   = false)
            /\ s = text r).
Proof.
  destruct o as [|r].
  { split; [|split].
    - split; [left; reflexivity | reflexivity].
    - intros j. split; [discriminate|].
      intros (r & Hr & _). discriminate Hr.
    - intros s. split; [discriminate|].
      intros (r & Hr & _). discriminate Hr. }
  rewrite make_request_responded.
  pose proof (raises_for_status_iff (status_code r)) as Hraise.
  destruct (raises_for_status (status_code r)); simpl.
  { assert (Hs : (400 <= status_code r < 600)%Z)
      by (apply Hraise; reflexivity).
    split; [|split].
    - split; [|reflexivity]. intros _. right. exists r.
      split; [reflexivity|]. left. exact Hs.
    - intros j. split; [discriminate|].
      intros (r' & [= <-] & Hno & _). contradiction.
    - intros s. split; [discriminate|].
      intros (r' & [= <-] & Hno & _). contradiction. }
  assert (Hno : ~ (400 <= status_code r < 600)%Z).
  { intros H. apply Hraise in H. discriminate H. }
  destruct (Z.eqb_spec (status_code r) 204) as [H204|H204].
  { split; [|split].
    - split; [|reflexivity]. intros _. right. exists r.
      split; [reflexivity|]. right. left. exact H204.
    - intros j. split; [discriminate|].
      intros (r' & [= <-] & _ & Hn & _). contradiction.
    - intros s. split; [discriminate|].
      intros (r' & [= <-] & _ & Hn & _). contradiction. }
  destruct expect_json; simpl.
  - destruct (contains "application/json"
                       (get_default (content_type r) EmptyString)) eqn:Hc.
    + destruct (json r) as [[j0|]|] eqn:Hj.
      * split; [|split].
        -- split; [discriminate|].
           intros [Hr | (r' & [= <-] & [Hs | [Hs | (_ & _ & [Hn | Hn])]])];
             try discriminate; try contradiction; congruence.
        -- intros j. split.
           ++ intros [= <-]. exists r. repeat split; auto.
           ++ intros (r' & [= <-] & _ & _ & _ & _ & Hj').
              congruence.
        -- intros s. split; [discriminate|].
           intros (r' & [= <-] & _ & _ & [He | He] & _);
             congruence.
      * split; [|split].
        -- split; [|reflexivity]. intros _. right. exists r.
           split; [reflexivity|]. right. right. auto.
        -- intros j. split; [discriminate|].
           intros (r' & [= <-] & _ & _ & _ & _ & Hj'). congruence.
        -- intros s. split; [discriminate|].
           intros (r' & [= <-] & _ & _ & [He | He] & _); congruence.
      * split; [|split].
        -- split; [|reflexivity]. intros _. right. exists r.
           split; [reflexivity|]. right. right. auto.
        -- intros j. split; [discriminate|].
           intros (r' & [= <-] & _ & _ & _ & _ & Hj'). congruence.
        -- intros s. split; [discriminate|].
           intros (r' & [= <-] & _ & _ & [He | He] & _); congruence.
    + split; [|split].
      * split; [discriminate|].
        intros [Hr | (r' & [= <-] & [Hs | [Hs | (_ & Hc' & _)]])];
          try discriminate; try contradiction; congruence.
      * intros j. split; [discriminate|].
        intros (r' & [= <-] & _ & _ & _ & Hc' & _). congruence.
      * intros s. split.
        -- intros [= <-]. exists r. repeat split; auto.
        -- intros (r' & [= <-] & _ & _ & _ & ->). reflexivity.
  - split; [|split].
    + split; [discriminate|].
      intros [Hr | (r' & [= <-] & [Hs | [Hs | (He & _)]])];
        try discriminate; try contradiction.
    + intros j. split; [discriminate|].
      intros (r' & [= <-] & _ & _ & He & _). discriminate He.
    + intros s. split.
      * intros [= <-]. exists r. repeat split; auto.
      * intros (r' & [= <-] & _ & _ & _ & ->). reflexivity.
Qed.

(** X2.  What [make_request] returns does not depend on [caller_info]: the
    special case for a 404 of [get_snippet_revision_content] only changes
    what is printed, and a missing file cannot be told from any other HTTP
    error by the caller. *)
Theorem make_request_ignores_caller_info (J : Type) (expect_json : bool)
        (caller_info caller_info' : string) (o : http_outcome J) :
  make_request expect_json caller_info o
  = make_request expect_json caller_info' o.
Proof.
  destruct o as [|r]; [reflexivity|].
  rewrite !make_request_responded. reflexivity.
Qed.

(** X3.  Over HTTP, [get_snippet_revision_content] returns the text of the
    response, whatever its Content-Type, when the status is neither a 4xx or
    5xx code nor 204, and [None] otherwise: the fallback to the empty string
    for a content that is not a string is never taken. *)
Theorem revision_content_over_http
        (World J : Type) (R : Remote World)
        (http_snippets : string -> World
                         -> http_outcome (paged snippet) * World)
        (http_commits : string -> World
                        -> http_outcome (paged commit) * World)
        (http_raw : string -> World -> http_outcome J * World)
        (quote : string -> string) (urljoin : string -> string -> string)
        (workspace snippet_id commit_hash file_path : string) (w : World) :
  get_snippet_revision_content
    (over_http R http_snippets http_commits http_raw) quote urljoin
    workspace snippet_id commit_hash file_path w
  = (match fst (http_raw (file_url quote urljoin workspace snippet_id
                                   commit_hash file_path) w) with
     | RequestError => None
     | Responded r =>
         if raises_for_status (status_code r) || (status_code r =? 204)%Z
         then None
         else Some (text r)
     end,
     snd (http_raw (file_url quote urljoin workspace snippet_id commit_hash
                             file_path) w)).
Proof.
  unfold get_snippet_revision_content, over_http, request_raw_file. simpl.
  destruct (http_raw _ w) as [[|r] w1]; [reflexivity|].
  rewrite make_request_responded. simpl.
  destruct (raises_for_status (status_code r) || (status_code r =? 204)%Z);
    reflexivity.
Qed.

(** X4.  In a paginated fetch over HTTP, a page that arrives with a good
    status but without a JSON Content-Type ends the fetch with the items
    accumulated so far, whereas a page that announces JSON and cannot be
    decoded makes the fetch return [None]. *)
Theorem paginate_over_http
        (World A : Type)
        (http : string -> World -> http_outcome (paged A) * World)
        (fuel : nat) (results : list A) (url : string) (w w1 : World)
        (r : http_response (paged A)) :
  truthy_str url = true ->
  http url w = (Responded r, w1) ->
  raises_for_status (status_code r) = false ->
  status_code r <> 204%Z ->
  (contains "application/json" (get_default (content_type r) EmptyString)
   = false ->
   paginate (request_page http) (S fuel) results (Some url) w
   = Some (Some results, w1))
  /\ (contains "application/json" (get_default (content_type r) EmptyString)
      = true ->
      json r = None ->
      paginate (request_page http) (S fuel) results (Some url) w
      = Some (None, w1)).
Proof.
  intros Hurl Hhttp Hraise H204.
  assert (Hreq : request_page http url w
                 = (option_map paged_of_reply
                      (if contains "application/json"
                                   (get_default (content_type r) EmptyString)
                       then match json r with
                            | Some (Some j) => Some (Json j)
                            | _ => None
                            end
                       else Some (Text (text r))), w1)).
  { unfold request_page. rewrite Hhttp, make_request_responded, Hraise.
    apply Z.eqb_neq in H204. rewrite H204. reflexivity. }
  split.
  - intros Hct. simpl. rewrite Hurl, Hreq, Hct. reflexivity.
  - intros Hct Hjson. simpl. rewrite Hurl, Hreq, Hct, Hjson. reflexivity.
Qed.

(** ** Searching BookStack *)

Lemma eqb_ostr_true (o : option string) (s : string) :
  eqb_ostr o s = true <-> o = Some s.
Proof.
  destruct o as [t|]; simpl.
  - rewrite String.eqb_eq. split; congruence.
  - split; discriminate.
Qed.

Lemma eqb_ostr_false (o : option string) (s : string) :
  eqb_ostr o s = false <-> o <> Some s.
Proof.
  rewrite <- eqb_ostr_true. destruct (eqb_ostr o s); split; congruence.
Qed.

(** [find] returns the first element that passes the test. *)
Lemma find_first {A : Type} (f : A -> bool) (l : list A) (x : A) :
  find f l = Some x ->
  f x = true
  /\ exists before after,
      l = before ++ x :: after /\ Forall (fun y => f y = false) before.
Proof.
  induction l as [|a l IH]; simpl; [discriminate|].
  destruct (f a) eqn:Ha.
  - intros [= <-]. split; [exact Ha|]. exists [], l. split; [reflexivity|].
    constructor.
  - intros H. destruct (IH H) as (Hx & before & after & -> & Hb).
    split; [exact Hx|]. exists (a :: before), after.
    split; [reflexivity|]. constructor; assumption.
Qed.

Lemma find_none_iff {A : Type} (f : A -> bool) (l : list A) :
  find f l = None <-> Forall (fun y => f y = false) l.
Proof.
  induction l as [|a l IH]; simpl.
  - split; [constructor | reflexivity].
  - destruct (f a) eqn:Ha.
    + split; [discriminate|]. intros H. inversion H; subst. congruence.
    + rewrite IH. split; [constructor; assumption|].
      intros H. inversion H; assumption.
Qed.

Lemma find_app_none {A : Type} (f : A -> bool) (l1 l2 : list A) :
  find f l1 = None -> find f (l1 ++ l2) = find f l2.
Proof.
  induction l1 as [|a l1 IH]; simpl; [reflexivity|].
  destruct (f a); [discriminate | exact IH].
Qed.

Lemma find_app_some {A : Type} (f : A -> bool) (l1 l2 : list A) (x : A) :
  find f l1 = Some x -> find f (l1 ++ l2) = Some x.
Proof.
  induction l1 as [|a l1 IH]; simpl; [discriminate|].
  destruct (f a); [intros H; exact H | exact IH].
Qed.

Section Searching.

Context {World : Type}.
Variable R : Remote World.

(** X5.  [find_bookstack_book] returns the first book of the response whose
    name is exactly the name asked for, and [None] exactly when the request
    failed, the response has no ['data'], or no book of the data has that
    name. *)
Theorem find_bookstack_book_first_match (name : string) (w : World) :
  (forall b : book,
      fst (find_bookstack_book R name w) = Some b ->
      bk_name b = Some name
      /\ exists before after,
          fst (bs_list_books R name w) = Some (Some (before ++ b :: after))
          /\ Forall (fun b' => bk_name b' <> Some name) before)
  /\ (fst (find_bookstack_book R name w) = None
      <-> forall data,
          fst (bs_list_books R name w) = Some (Some data) ->
          Forall (fun b' => bk_name b' <> Some name) data)
  /\ snd (find_bookstack_book R name w) = snd (bs_list_books R name w).
Proof.
  unfold find_bookstack_book.
  destruct (bs_list_books R name w) as [[[data|]|] w1]; simpl.
  - split; [|split; [|reflexivity]].
    + intros b Hb. apply find_first in Hb.
      destruct Hb as (Hn & before & after & -> & Hbefore).
      split; [apply eqb_ostr_true, Hn|].
      exists before, after. split; [reflexivity|].
      eapply Forall_impl; [|exact Hbefore].
      intros b' Hb'. apply eqb_ostr_false, Hb'.
    + rewrite find_none_iff. split.
      * intros H data' [= <-]. eapply Forall_impl; [|exact H].
        intros b' Hb'. apply eqb_ostr_false, Hb'.
      * intros H. eapply Forall_impl; [|exact (H data eq_refl)].
        intros b' Hb'. apply eqb_ostr_false, Hb'.
  - split; [discriminate|]. split; [|reflexivity].
    split; [discriminate | reflexivity].
  - split; [discriminate|]. split; [|reflexivity].
    split; [discriminate | reflexivity].
Qed.

Variables (book_id : Z) (page_name : string).

Local Abbreviation named :=
  (fun p : page => eqb_ostr (pg_name p) page_name).

(** X6.  A page that [find_bookstack_page] returns has exactly the name
    asked for, at whatever offset and after however many batches it was
    found. *)
Theorem find_bookstack_page_name (fuel : nat) (w w' : World) (p : page) :
  find_bookstack_page R fuel book_id page_name w = Some (Some p, w') ->
  pg_name p = Some page_name.
Proof.
  unfold find_bookstack_page. generalize 0%Z as offset. revert w.
  induction fuel as [|fuel IH]; intros w offset; simpl; [discriminate|].
  destruct (bs_list_pages R book_id 100 offset w) as [[resp|] w1];
    [|discriminate].
  destruct (pr_data resp) as [[|q current]|]; [discriminate| |discriminate].
  destruct (find named (q :: current)) as [p'|] eqn:Hfind.
  - intros [= -> <-]. apply find_first in Hfind.
    apply eqb_ostr_true, Hfind.
  - destruct (_ <=? _)%Z; [discriminate|]. apply IH.
Qed.

Lemma find_page_from_serves (listing : list page) (w : World) :
  serves R book_id listing w ->
  forall (fuel n : nat),
    length listing - n < fuel ->
    find_page_from R fuel book_id page_name (Z.of_nat n) w
    = Some (find named (skipn n listing), w).
Proof.
  intros Hserves. induction fuel as [|fuel IH]; intros n Hfuel; [lia|].
  simpl. rewrite Hserves. cbn [pr_data pr_total get_default].
  pose proof (length_skipn n listing) as Hrem.
  pose proof (skipn_skipn 100 n listing) as Hnext.
  destruct (skipn n listing) as [|q rest]; [reflexivity|].
  assert (Hbatch : firstn 100 (q :: rest) = q :: firstn 99 rest)
    by reflexivity.
  rewrite Hbatch. cbv iota. rewrite <- Hbatch.
  replace (find named (q :: rest))
    with (find named (firstn 100 (q :: rest) ++ skipn 100 (q :: rest)))
    by (rewrite firstn_skipn; reflexivity).
  destruct (find named (firstn 100 (q :: rest))) as [p|] eqn:Hfind.
  - rewrite (find_app_some _ _ _ _ Hfind). reflexivity.
  - rewrite (find_app_none _ _ _ Hfind).
    assert (Hlen : length (firstn 100 (q :: rest))
                   = Nat.min 100 (length (q :: rest)))
      by apply length_firstn.
    rewrite <- Nat2Z.inj_add, Hlen, Hrem.
    destruct (Z.leb_spec (Z.of_nat (length listing))
                         (Z.of_nat (n + Nat.min 100 (length listing - n))))
      as [Hend|Hmore].
    + assert (Hshort : length (q :: rest) <= 100) by lia.
      rewrite (skipn_all2 _ Hshort). reflexivity.
    + assert (Hmin : Nat.min 100 (length listing - n) = 100) by lia.
      rewrite Hmin, (IH (n + 100)) by lia.
      rewrite (Nat.add_comm n 100), <- Hnext. reflexivity.
Qed.

(** X7.  Against a server that lists the pages of the book consistently,
    the offset pagination of [find_bookstack_page] finds the first page of
    the whole listing that has the name, however many batches it takes, and
    returns [None] when the listing has none; any fuel above the number of
    pages is enough. *)
Theorem find_bookstack_page_complete (listing : list page) (w : World)
        (fuel : nat) :
  serves R book_id listing w ->
  length listing < fuel ->
  find_bookstack_page R fuel book_id page_name w
  = Some (find named listing, w).
Proof.
  intros Hserves Hfuel. unfold find_bookstack_page.
  apply (find_page_from_serves listing w Hserves fuel 0). lia.
Qed.

(** X8.  When the responses carry no ['total'], the search stops after the
    first batch: a page of that name beyond the first hundred is not found,
    although the server would list it. *)
Theorem find_bookstack_page_without_total (listing : list page) (w : World)
        (fuel : nat) :
  (forall n : nat,
      bs_list_pages R book_id 100 (Z.of_nat n) w
      = (Some {| pr_data := Some (firstn 100 (skipn n listing));
                 pr_total := None |}, w)) ->
  find_bookstack_page R (S fuel) book_id page_name w
  = Some (find named (firstn 100 listing), w).
Proof.
  intros Hserves. unfold find_bookstack_page.
  pose proof (Hserves 0) as Hfirst. cbn [Z.of_nat skipn] in Hfirst.
  cbn [find_page_from]. rewrite Hfirst. cbn [pr_data pr_total get_default].
  destruct (firstn 100 listing) as [|q current]; [reflexivity|].
  destruct (find named (q :: current)) as [p|]; [reflexivity|].
  destruct (Z.leb_spec 0 (0 + Z.of_nat (length (q :: current)))) as [_|H];
    [reflexivity | lia].
Qed.

End Searching.

(** ** The shape of a pass over one file *)

Section PassShape.

Context {World : Type}.
Variable R : Remote World.
Variable quote : string -> string.
Variable urljoin : string -> string -> string.
Variables (workspace snippet_id : string) (book_id : Z) (filename : string).

Local Abbreviation fetch c :=
  (get_snippet_revision_content R quote urljoin workspace snippet_id
                                (c_hash c) filename).
Local Abbreviation step :=
  (replay_step R quote urljoin workspace snippet_id book_id filename).
Local Abbreviation run :=
  (replay R quote urljoin workspace snippet_id book_id filename).
Local Abbreviation absent :=
  (all_absent R quote urljoin workspace snippet_id filename).
Local Abbreviation here lemma :=
  (lemma R quote urljoin workspace snippet_id book_id filename).

(** With a usable identifier an iteration only ever updates that page, and
    keeps the identifier. *)
Lemma step_updates_own_page (c : commit) (s : cursor) (w : World) :
  truthy_id (page_id s) = true ->
  Forall (is_update_of (get_default (page_id s) 0%Z)) (snd (fst (step c s w)))
  /\ page_id (snd (fst (fst (step c s w)))) = page_id s
  /\ fst (fst (fst (step c s w))) = Next.
Proof.
  intros Hid. unfold replay_step. rewrite Hid. simpl.
  destruct (fetch c w) as [[content|] w1]; simpl; [|auto].
  destruct (processed_first_commit_for_page s); simpl; [auto|].
  destruct (negb (eqb_ostr (previous_page_content s) _)); simpl; [|auto].
  destruct (update_bookstack_page R _ _ _ w1) as [ok w2]. simpl.
  split; [|auto]. constructor; [|constructor]. eexists. eexists. reflexivity.
Qed.

Lemma replay_updates_own_page (commits : list commit) :
  forall (i : nat) (s : cursor) (w : World),
    truthy_id (page_id s) = true ->
    Forall (fun ic => is_update_of (get_default (page_id s) 0%Z) (snd ic))
           (snd (fst (run i commits s w))).
Proof.
  induction commits as [|c rest IH]; intros i s w Hid; [constructor|].
  rewrite replay_cons.
  destruct (step_updates_own_page c s w Hid) as (Hcalls & Hkeep & Hnext).
  destruct (step c s w) as [[[fl s1] calls] w1]. simpl in *. subst fl.
  cbn [fst snd]. apply Forall_app. split.
  - unfold tag_calls. apply Forall_map. exact Hcalls.
  - rewrite <- Hkeep. apply IH. rewrite Hkeep. exact Hid.
Qed.

(** After a creation that returned an unusable identifier, nothing more is
    written. *)
Lemma replay_unusable_id (commits : list commit) :
  forall (i : nat) (s : cursor) (w : World),
    truthy_id (page_id s) = false ->
    page_created_in_this_run s = true ->
    snd (fst (run i commits s w)) = []
    /\ not_created (fst (fst (run i commits s w))) = false.
Proof.
  induction commits as [|c rest IH]; intros i s w Hid Hcr.
  - simpl. unfold not_created. rewrite Hcr, andb_false_r. auto.
  - rewrite replay_cons. unfold replay_step. rewrite Hid, Hcr. simpl.
    destruct (fetch c w) as [[content|] w1]; cbn [fst snd tag_calls map app].
    + apply IH; assumption.
    + apply IH; assumption.
Qed.

(** X9.  The calls of a pass have one shape.  When the page identifier is
    usable from the start, every call updates that page.  Otherwise the pass
    makes no call, or its first call creates the page of this file in this
    book, and the calls after it, if any, all update one and the same page;
    after a creation that returned the identifier 0 no call follows and the
    file is not reported as not created. *)
Theorem pass_shape (commits : list commit) (pid : option Z) (w : World) :
  (truthy_id pid = true ->
   Forall (fun ic => is_update_of (get_default pid 0%Z) (snd ic))
          (snd (fst (run 0 commits (initial_cursor pid) w))))
  /\ (truthy_id pid = false ->
      snd (fst (run 0 commits (initial_cursor pid) w)) = []
      \/ exists k content tr,
          snd (fst (run 0 commits (initial_cursor pid) w))
          = (k, CreatePage book_id filename (compose_page_content content))
              :: tr
          /\ (tr = []
              \/ exists id, id <> 0%Z
                            /\ Forall (fun ic => is_update_of id (snd ic))
                                      tr)).
Proof.
  split.
  - intros Hpid. apply (replay_updates_own_page commits 0 (initial_cursor pid)).
    exact Hpid.
  - intros Hpid.
    assert (Hs : settled (initial_cursor pid) = false)
      by (rewrite settled_initial; exact Hpid).
    revert Hs. generalize (initial_cursor pid) as s. generalize 0 as i.
    revert w. induction commits as [|c rest IH]; intros w i s Hs.
    + left. reflexivity.
    + rewrite replay_cons.
      destruct (step c s w) as [[[fl s1] calls] w1] eqn:E.
      apply step_unsettled in E; [|exact Hs].
      destruct E as [(-> & -> & -> & _) | (content & _ & -> & Hfl)].
      * cbn [fst snd tag_calls map app]. apply IH. exact Hs.
      * right. exists i, content.
        destruct Hfl as [(-> & ->) | (-> & id & ->)].
        -- exists []. split; [reflexivity|]. left. reflexivity.
        -- eexists. cbn [fst snd tag_calls map app]. split; [reflexivity|].
           destruct (Z.eq_dec id 0) as [->|Hid].
           ++ left. apply (replay_unusable_id rest); reflexivity.
           ++ right. exists id. split; [exact Hid|].
              apply (replay_updates_own_page rest (S i)
                       (just_created id (compose_page_content content))).
              simpl. apply negb_true_iff, Z.eqb_neq, Hid.
Qed.

(** X10.  Outside the iteration that follows a creation, two update calls in
    a row never write the same text, and the first one never writes the text
    recorded before: a revision is written only when it changes the payload,
    and an update that failed is not tried again by the next revision of the
    same text. *)
Theorem updates_change_the_text (commits : list commit) :
  forall (i : nat) (s : cursor) (w : World),
    truthy_id (page_id s) = true ->
    processed_first_commit_for_page s = false ->
    changes (previous_page_content s) (written (snd (fst (run i commits s w)))).
Proof.
  induction commits as [|c rest IH]; intros i s w Hid Hflag; [exact I|].
  rewrite replay_cons.
  destruct (fetch c w) as [[content|] w1] eqn:Hf.
  - destruct (eqb_ostr (previous_page_content s)
                       (compose_page_content content)) eqn:He;
      [apply eqb_ostr_true in He as Hsame
      | apply eqb_ostr_false in He as Hdiff].
    + rewrite (here step_unchanged c s w w1 content Hf Hid Hflag Hsame).
      cbn [fst snd tag_calls map app]. rewrite Hsame.
      apply (IH (S i) (recorded s (compose_page_content content)) w1);
        assumption.
    + rewrite (here step_changed c s w w1 content Hf Hid Hflag Hdiff).
      cbn [fst snd tag_calls map app written flat_map call_content].
      split; [exact Hdiff|].
      apply (IH (S i) (recorded s (compose_page_content content)));
        assumption.
  - rewrite (here step_absent c s w w1 Hf).
    cbn [fst snd tag_calls map app]. apply IH; assumption.
Qed.

End PassShape.

(** ** Edge cases of the processing of one file *)

Section FileEdgeCases.

Context {World : Type}.
Variable R : Remote World.
Variable quote : string -> string.
Variable urljoin : string -> string -> string.
Variables (workspace snippet_id : string) (book_id : Z) (filename : string).

Local Abbreviation fetch c :=
  (get_snippet_revision_content R quote urljoin workspace snippet_id
                                (c_hash c) filename).
Local Abbreviation run :=
  (replay R quote urljoin workspace snippet_id book_id filename).
Local Abbreviation absent :=
  (all_absent R quote urljoin workspace snippet_id filename).
Local Abbreviation file_pass fuel args commits :=
  (process_file R quote urljoin fuel args workspace snippet_id book_id
                commits filename).
Local Abbreviation here lemma :=
  (lemma R quote urljoin workspace snippet_id book_id filename).

Lemma replay_all_absent (commits : list commit) (i : nat) (s : cursor)
      (w w1 : World) :
  absent commits w = Some w1 ->
  run i commits s w = ((s, []), w1).
Proof.
  intros Ha. rewrite <- (app_nil_r commits).
  rewrite (here replay_absent_prefix commits [] i s w w1 Ha). reflexivity.
Qed.

(** X11.  When the content of the file cannot be fetched at any commit, no
    destination call is made for the file.  If the search had not found the
    page, the file is reported as not created; if it had found the page,
    nothing is reported at all. *)
Theorem nothing_fetched_nothing_written
        (fuel : nat) (args : arguments) (commits : list commit)
        (target_page : option page) (w w0 w1 : World) :
  find_bookstack_page R fuel book_id filename w = Some (target_page, w0) ->
  absent commits w0 = Some w1 ->
  (target_page = None ->
   file_pass fuel args commits w
   = Some ([NotCreated snippet_id filename], w1))
  /\ (forall p, target_page = Some p ->
                pg_id p <> 0%Z ->
                skip_existing_pages args = false ->
                file_pass fuel args commits w = Some ([], w1)).
Proof.
  intros Hfind Ha. split.
  - intros ->. rewrite process_file_unfold, Hfind. cbv beta zeta.
    rewrite (replay_all_absent commits 0 _ w0 w1 Ha). reflexivity.
  - intros p -> Hid Hskip.
    rewrite process_file_unfold, Hfind, Hskip. cbv beta zeta.
    rewrite (replay_all_absent commits 0 _ w0 w1 Ha).
    cbn [fst snd page_events map app]. unfold not_created. simpl.
    apply Z.eqb_neq in Hid. rewrite Hid. reflexivity.
Qed.

(** X12.  When the request that lists the pages of the book fails, the file
    is processed as if it had no page: the first revision whose content is
    fetched makes a create call, whether or not the book already has a page
    of that name. *)
Theorem failed_search_leads_to_create
        (fuel : nat) (args : arguments) (pre : list commit) (c : commit)
        (rest : list commit) (content : string) (w w0 w1 w2 : World) :
  bs_list_pages R book_id 100 0 w = (None, w0) ->
  absent pre w0 = Some w1 ->
  fetch c w1 = (Some content, w2) ->
  find_bookstack_page R (S fuel) book_id filename w = Some (None, w0)
  /\ exists evs w',
      file_pass (S fuel) args (pre ++ c :: rest) w
      = Some (OnPage snippet_id filename (length pre)
                     (CreatePage book_id filename
                                 (compose_page_content content))
                :: evs, w').
Proof.
  intros Hlist Ha Hf.
  assert (Hfind : find_bookstack_page R (S fuel) book_id filename w
                  = Some (None, w0)).
  { unfold find_bookstack_page. cbn [find_page_from]. rewrite Hlist.
    reflexivity. }
  split; [exact Hfind|].
  rewrite process_file_unfold, Hfind. cbv beta zeta.
  rewrite (here replay_absent_prefix pre (c :: rest) 0 _ w0 w1 Ha).
  rewrite replay_cons.
  destruct (create_bookstack_page R book_id filename
              (compose_page_content content) (commit_info c) w2)
    as [r w3] eqn:Hc.
  destruct r as [[[id|]]|].
  - rewrite (here step_create_ok c _ w1 w2 w3 content id Hf
                  (settled_initial None) Hc).
    cbn [fst snd tag_calls map app page_events]. eexists. eexists.
    reflexivity.
  - rewrite (here step_create_failed c _ w1 w2 w3 content _ Hf
                  (settled_initial None) Hc I).
    cbn [fst snd tag_calls map app page_events]. eexists. eexists.
    reflexivity.
  - rewrite (here step_create_failed c _ w1 w2 w3 content _ Hf
                  (settled_initial None) Hc I).
    cbn [fst snd tag_calls map app page_events]. eexists. eexists.
    reflexivity.
Qed.

End FileEdgeCases.

(** ** Snippets, one after the other *)

Section SnippetProperties.

Context {World : Type}.
Variable R : Remote World.
Variable quote : string -> string.
Variable urljoin : string -> string -> string.
Variables (fuel : nat) (args : arguments) (workspace : string).

Local Abbreviation snippet_pass :=
  (process_snippet R quote urljoin fuel args workspace).
Local Abbreviation snippets_pass :=
  (process_snippets R quote urljoin fuel args workspace).

Lemma process_snippets_cons (sn : snippet) (sns : list snippet) (w : World) :
  snippets_pass (sn :: sns) w
  = match snippet_pass sn w with
    | Some (evs1, w1) =>
        match snippets_pass sns w1 with
        | Some (evs2, w2) => Some (evs1 ++ evs2, w2)
        | None => None
        end
    | None => None
    end.
Proof.
  cbn [process_snippets]. unfold bind, ret.
  destruct (snippet_pass sn w) as [[evs1 w1]|]; [|reflexivity].
  destruct (snippets_pass sns w1) as [[evs2 w2]|]; reflexivity.
Qed.

Lemma process_snippets_app (sns1 sns2 : list snippet) :
  forall w : World,
    snippets_pass (sns1 ++ sns2) w
    = match snippets_pass sns1 w with
      | Some (evs1, w1) =>
          match snippets_pass sns2 w1 with
          | Some (evs2, w2) => Some (evs1 ++ evs2, w2)
          | None => None
          end
      | None => None
      end.
Proof.
  induction sns1 as [|sn sns1 IH]; intros w.
  - simpl. unfold ret.
    destruct (snippets_pass sns2 w) as [[evs2 w2]|]; reflexivity.
  - rewrite <- app_comm_cons, !process_snippets_cons.
    destruct (snippet_pass sn w) as [[evs w0]|]; [|reflexivity].
    rewrite IH.
    destruct (snippets_pass sns1 w0) as [[evs1 w1]|]; [|reflexivity].
    destruct (snippets_pass sns2 w1) as [[evs2 w2]|]; [|reflexivity].
    rewrite app_assoc. reflexivity.
Qed.


End SnippetProperties.

(** ** Where the pages go *)

Section Destinations.

Context {World : Type}.
Variable R : Remote World.
Variable quote : string -> string.
Variable urljoin : string -> string -> string.
Variables (fuel : nat) (args : arguments) (workspace snippet_id : string).
Variable book_id : Z.

Lemma step_in_book (filename : string) (c : commit) (s : cursor) (w : World)
      (i : nat) :
  Forall (in_book snippet_id book_id)
         (page_events snippet_id filename
            (tag_calls i
               (snd (fst (replay_step R quote urljoin workspace snippet_id
                                      book_id filename c s w))))).
Proof.
  unfold replay_step.
  destruct (get_snippet_revision_content R quote urljoin workspace snippet_id
              (c_hash c) filename w) as [[content|] w1]; [|constructor].
  destruct (negb (truthy_id (page_id s))
            && negb (page_created_in_this_run s)).
  - destruct (create_bookstack_page R _ _ _ _ w1) as [[[[id|]]|] w2];
      repeat constructor.
  - destruct (truthy_id (page_id s)
              && negb (processed_first_commit_for_page s)).
    + destruct (negb (eqb_ostr _ _)); [|constructor].
      destruct (update_bookstack_page R _ _ _ w1) as [ok w2].
      repeat constructor.
    + destruct (truthy_id (page_id s) && processed_first_commit_for_page s);
        constructor.
Qed.

Lemma replay_in_book (filename : string) (commits : list commit) :
  forall (i : nat) (s : cursor) (w : World),
    Forall (in_book snippet_id book_id)
           (page_events snippet_id filename
              (snd (fst (replay R quote urljoin workspace snippet_id book_id
                                filename i commits s w)))).
Proof.
  induction commits as [|c rest IH]; intros i s w; [constructor|].
  rewrite replay_cons. pose proof (step_in_book filename c s w i) as Hstep.
  destruct (replay_step R quote urljoin workspace snippet_id book_id filename
                        c s w) as [[[fl s1] calls] w1].
  cbn [fst snd] in Hstep. destruct fl; cbn [fst snd]; [|exact Hstep].
  unfold page_events in *. rewrite map_app. apply Forall_app.
  split; [exact Hstep | apply IH].
Qed.

Lemma process_file_in_book (commits : list commit) (filename : string)
      (w w' : World) (evs : list event) :
  process_file R quote urljoin fuel args workspace snippet_id book_id commits
               filename w = Some (evs, w') ->
  Forall (in_book snippet_id book_id) evs.
Proof.
  rewrite process_file_unfold.
  destruct (find_bookstack_page R fuel book_id filename w)
    as [[target_page w1]|]; [|discriminate].
  assert (Hpass : forall s tr,
             Forall (in_book snippet_id book_id) tr ->
             Forall (in_book snippet_id book_id)
                    (tr ++ (if not_created s
                            then [NotCreated snippet_id filename] else []))).
  { intros s tr Htr. apply Forall_app. split; [exact Htr|].
    destruct (not_created s); repeat constructor. }
  cbv zeta. destruct target_page as [p|].
  - destruct (skip_existing_pages args); intros [= <- <-]; [constructor|].
    apply Hpass, replay_in_book.
  - intros [= <- <-]. apply Hpass, replay_in_book.
Qed.

Lemma process_files_in_book (commits : list commit) (files : list string) :
  forall (w w' : World) (evs : list event),
    process_files R quote urljoin fuel args workspace snippet_id book_id
                  commits files w = Some (evs, w') ->
    Forall (in_book snippet_id book_id) evs.
Proof.
  induction files as [|f files IH]; intros w w' evs.
  - intros [= <- <-]. constructor.
  - rewrite process_files_cons.
    destruct (process_file R quote urljoin fuel args workspace snippet_id
                           book_id commits f w) as [[evs1 w1]|] eqn:E1;
      [|discriminate].
    destruct (process_files R quote urljoin fuel args workspace snippet_id
                            book_id commits files w1) as [[evs2 w2]|] eqn:E2;
      [|discriminate].
    intros [= <- <-]. apply Forall_app. split.
    + exact (process_file_in_book _ _ _ _ _ E1).
    + exact (IH _ _ _ E2).
Qed.

Lemma process_book_in_book (w w' : World) (evs : list event) :
  process_book R quote urljoin fuel args workspace snippet_id book_id w
  = Some (evs, w') ->
  Forall (in_book snippet_id book_id) evs.
Proof.
  unfold process_book.
  destruct (negb (truthy_id (Some book_id)));
    [intros [= <- <-]; constructor|].
  unfold bind at 1. unfold lift.
  destruct (get_snippet_details R quote urljoin workspace snippet_id w)
    as [[details|] w1]; [|intros [= <- <-]; constructor].
  destruct (sn_files details) as [files|]; [|intros [= <- <-]; constructor].
  destruct (is_empty files); [intros [= <- <-]; constructor|].
  unfold bind.
  destruct (get_snippet_commits R quote urljoin fuel workspace snippet_id w1)
    as [[[commits|] w2]|]; [| intros [= <- <-]; constructor | discriminate].
  apply process_files_in_book.
Qed.

End Destinations.

Section DestinationsOfSnippet.

Context {World : Type}.
Variable R : Remote World.
Variable quote : string -> string.
Variable urljoin : string -> string -> string.
Variables (fuel : nat) (args : arguments) (workspace : string).

(** X14.  Whatever is done for a snippet is attributed to it, and every page
    created for it is created in its own book under the name of its file:
    in the book that the search found, or else in the book that was created
    for it, the one create-book call being the first event. *)
Theorem pages_go_to_the_snippets_book
        (sn : snippet) (snippet_id : string) (w w1 w' : World)
        (evs : list event) :
  sn_id sn = Some snippet_id ->
  process_snippet R quote urljoin fuel args workspace sn w = Some (evs, w') ->
  (forall b : book,
      find_bookstack_book
        R (get_default (sn_title sn)
                       ("Untitled Snippet " ++ snippet_id)%string) w
      = (Some b, w1) ->
      Forall (in_book snippet_id (bk_id b)) evs)
  /\ (find_bookstack_book
        R (get_default (sn_title sn)
                       ("Untitled Snippet " ++ snippet_id)%string) w
      = (None, w1) ->
      exists evs',
        evs = OnBook snippet_id
                     (CreateBook
                        (get_default
                           (sn_title sn)
                           ("Untitled Snippet " ++ snippet_id)%string))
                :: evs'
        /\ (evs' = []
            \/ exists id,
                fst (create_bookstack_book
                       R (get_default
                            (sn_title sn)
                            ("Untitled Snippet " ++ snippet_id)%string) w1)
                = Some {| cr_id := Some id |}
                /\ Forall (in_book snippet_id id) evs')).
Proof.
  intros Hid. unfold process_snippet. rewrite Hid. cbv zeta.
  unfold bind at 1. unfold lift.
  destruct (find_bookstack_book R _ w) as [[b|] w0].
  - intros Hrun. split; [|discriminate]. intros b' [= <- <-].
    destruct (skip_existing_books args).
    + injection Hrun as <- <-. constructor.
    + exact (process_book_in_book _ _ _ _ _ _ _ _ _ _ _ Hrun).
  - unfold bind at 1.
    destruct (create_bookstack_book R _ w0) as [[[[id|]]|] w2] eqn:Hc.
    + unfold bind, ret.
      destruct (process_book R quote urljoin fuel args workspace snippet_id
                             id w2) as [[evs' w3]|] eqn:Hbook;
        [|discriminate].
      intros [= <- <-]. split; [discriminate|]. intros [= <-].
      exists evs'. split; [reflexivity|]. right. exists id.
      rewrite Hc. split; [reflexivity|].
      exact (process_book_in_book _ _ _ _ _ _ _ _ _ _ _ Hbook).
    + intros [= <- <-]. split; [discriminate|]. intros _.
      exists []. split; [reflexivity | left; reflexivity].
    + intros [= <- <-]. split; [discriminate|]. intros _.
      exists []. split; [reflexivity | left; reflexivity].
Qed.

End DestinationsOfSnippet.

(** ** Fuel *)

Lemma bind_mono {World A B : Type} (m m' : M World A)
      (k k' : A -> M World B) (w : World) (r : B * World) :
  (forall a w1, m w = Some (a, w1) -> m' w = Some (a, w1)) ->
  (forall a w1 r, k a w1 = Some r -> k' a w1 = Some r) ->
  bind m k w = Some r -> bind m' k' w = Some r.
Proof.
  intros Hm Hk. unfold bind.
  destruct (m w) as [[a w1]|]; [|discriminate].
  rewrite (Hm a w1 eq_refl). apply Hk.
Qed.

Section Fuel.

Context {World : Type}.
Variable R : Remote World.
Variable quote : string -> string.
Variable urljoin : string -> string -> string.

Lemma paginate_mono {A : Type}
      (request : string -> World -> option (paged A) * World) (fuel : nat) :
  forall (fuel' : nat) (results : list A) (next : option string) (w : World)
         (r : option (list A) * World),
    fuel <= fuel' ->
    paginate request fuel results next w = Some r ->
    paginate request fuel' results next w = Some r.
Proof.
  induction fuel as [|fuel IH]; intros fuel' results next w r Hle.
  - simpl. destruct (truthy_ostr next) eqn:Hn; [discriminate|].
    intros H. destruct fuel'; simpl; rewrite Hn; exact H.
  - destruct fuel' as [|fuel']; [lia|]. simpl.
    destruct (truthy_ostr next); [|auto].
    destruct (request (get_default next EmptyString) w)
      as [[[|values next']|] w1]; auto.
    apply IH. lia.
Qed.

Lemma find_page_from_mono (book_id : Z) (page_name : string) (fuel : nat) :
  forall (fuel' : nat) (offset : Z) (w : World) (r : option page * World),
    fuel <= fuel' ->
    find_page_from R fuel book_id page_name offset w = Some r ->
    find_page_from R fuel' book_id page_name offset w = Some r.
Proof.
  induction fuel as [|fuel IH]; intros fuel' offset w r Hle; [discriminate|].
  destruct fuel' as [|fuel']; [lia|]. simpl.
  destruct (bs_list_pages R book_id 100 offset w) as [[resp|] w1]; [|auto].
  destruct (pr_data resp) as [[|q current]|]; auto.
  destruct (find _ (q :: current)); [auto|].
  destruct (_ <=? _)%Z; [auto|]. apply IH. lia.
Qed.

Variables (fuel fuel' : nat) (args : arguments).
Hypothesis Hle : fuel <= fuel'.

Lemma process_file_mono (workspace snippet_id : string) (book_id : Z)
      (commits : list commit) (filename : string) (w : World)
      (r : list event * World) :
  process_file R quote urljoin fuel args workspace snippet_id book_id commits
               filename w = Some r ->
  process_file R quote urljoin fuel' args workspace snippet_id book_id
               commits filename w = Some r.
Proof.
  unfold process_file. apply bind_mono; [|auto].
  intros a w1. unfold find_bookstack_page. apply find_page_from_mono, Hle.
Qed.

Lemma process_files_mono (workspace snippet_id : string) (book_id : Z)
      (commits : list commit) (files : list string) :
  forall (w : World) (r : list event * World),
    process_files R quote urljoin fuel args workspace snippet_id book_id
                  commits files w = Some r ->
    process_files R quote urljoin fuel' args workspace snippet_id book_id
                  commits files w = Some r.
Proof.
  induction files as [|f files IH]; intros w r; [auto|].
  cbn [process_files]. apply bind_mono.
  - intros a w1. apply process_file_mono.
  - intros a w1 r1. apply bind_mono; [|auto]. intros a' w2. apply IH.
Qed.

Lemma get_snippet_commits_mono (workspace snippet_id : string) (w : World)
      (r : option (list commit) * World) :
  get_snippet_commits R quote urljoin fuel workspace snippet_id w = Some r ->
  get_snippet_commits R quote urljoin fuel' workspace snippet_id w = Some r.
Proof.
  unfold get_snippet_commits. apply bind_mono; [|auto].
  intros a w1. unfold get_paginated_results. apply paginate_mono, Hle.
Qed.

Lemma process_book_mono (workspace snippet_id : string) (book_id : Z)
      (w : World) (r : list event * World) :
  process_book R quote urljoin fuel args workspace snippet_id book_id w
  = Some r ->
  process_book R quote urljoin fuel' args workspace snippet_id book_id w
  = Some r.
Proof.
  unfold process_book.
  destruct (negb (truthy_id (Some book_id))); [auto|].
  apply bind_mono; [auto|]. intros [details|] w1 r1; [|auto].
  destruct (sn_files details) as [files|]; [|auto].
  destruct (is_empty files); [auto|].
  apply bind_mono.
  - intros a w2. apply get_snippet_commits_mono.
  - intros [commits|] w2 r2; [|auto]. apply process_files_mono.
Qed.

Lemma process_snippet_mono (workspace : string) (sn : snippet) (w : World)
      (r : list event * World) :
  process_snippet R quote urljoin fuel args workspace sn w = Some r ->
  process_snippet R quote urljoin fuel' args workspace sn w = Some r.
Proof.
  unfold process_snippet. destruct (sn_id sn) as [snippet_id|]; [|auto].
  cbv zeta. apply bind_mono; [auto|]. intros [b|] w1 r1.
  - destruct (skip_existing_books args); [auto|]. apply process_book_mono.
  - apply bind_mono; [auto|]. intros [[[id|]]|] w2 r2; auto.
    apply bind_mono; [|auto]. intros a w3. apply process_book_mono.
Qed.

Lemma process_snippets_mono (workspace : string) (sns : list snippet) :
  forall (w : World) (r : list event * World),
    process_snippets R quote urljoin fuel args workspace sns w = Some r ->
    process_snippets R quote urljoin fuel' args workspace sns w = Some r.
Proof.
  induction sns as [|sn sns IH]; intros w r; [auto|].
  cbn [process_snippets]. apply bind_mono.
  - intros a w1. apply process_snippet_mono.
  - intros a w1 r1. apply bind_mono; [|auto]. intros a' w2. apply IH.
Qed.

(** More fuel never changes a run: when [main] comes to an end with
    some bound on the iterations of the two [while] loops, it ends with the
    same exit code, the same calls and the same world under any larger
    bound. *)
Theorem main_fuel_monotone (w : World) (r : (Z * list event) * World) :
  main R quote urljoin fuel args w = Some r ->
  main R quote urljoin fuel' args w = Some r.
Proof.
  unfold main. apply bind_mono.
  - intros a w1. unfold get_bitbucket_snippets.
    destruct (truthy_ostr (test_snippet_id args)); [auto|].
    unfold get_paginated_results. apply paginate_mono, Hle.
  - intros [sns|] w1 r1; [|auto].
    destruct (is_empty sns); [auto|].
    apply bind_mono; [|auto]. intros a w2. apply process_snippets_mono.
Qed.

End Fuel.

(** ** The history that is replayed *)

Lemma is_empty_rev {A : Type} (l : list A) : is_empty (rev l) = is_empty l.
Proof.
  destruct l as [|a l]; [reflexivity|]. simpl.
  destruct (rev l); reflexivity.
Qed.

Section History.

Context {World : Type}.
Variable R : Remote World.
Variable quote : string -> string.
Variable urljoin : string -> string -> string.

(** X15.  The replay takes the commit listing as far as it could be walked.
    When a request of the listing fails nothing is done for the files; when
    the listing ends, or stops at a response without ['values'], the
    commits fetched until then are replayed oldest first, the commits of the
    pages not reached being left out without notice; and when no commit was
    fetched at all, as after a malformed first page, the single synthesised
    commit is replayed. *)
Theorem history_as_far_as_walked
        (fuel : nat) (args : arguments) (workspace snippet_id : string)
        (book_id : Z) (details : snippet) (files : list string)
        (batches : list (list commit)) (e : ending) (w w1 w2 : World) :
  book_id <> 0%Z ->
  get_snippet_details R quote urljoin workspace snippet_id w
  = (Some details, w1) ->
  sn_files details = Some files ->
  files <> [] ->
  walk (bb_commits_page R)
       (Some (commits_url quote urljoin workspace snippet_id)) w1 batches e
       w2 ->
  length batches < fuel ->
  process_book R quote urljoin fuel args workspace snippet_id book_id w
  = match e with
    | RequestFailed => Some ([], w2)
    | BadShape | LastPage =>
        process_files R quote urljoin fuel args workspace snippet_id book_id
                      (if is_empty (concat batches)
                       then [synthesized_commit details]
                       else rev (concat batches))
                      files w2
    end.
Proof.
  intros Hb Hd Hf Hne Hwalk Hfuel.
  rewrite (process_book_commits R quote urljoin fuel args workspace
             snippet_id book_id details files w w1 Hb Hd Hf Hne).
  unfold get_snippet_commits, bind, ret, get_paginated_results.
  rewrite (paginate_walk _ _ _ _ _ _ Hwalk fuel [] Hfuel).
  destruct e; cbn [app]; rewrite ?is_empty_rev; reflexivity.
Qed.

End History.

Section RestrictedRun.

Context {World : Type}.
Variable srv : Http.Server World.
Variable quote : string -> string.
Variable urljoin : string -> string -> string.

(** X16.  A run restricted to one snippet does not ask for the listing: it
    makes the request of line 85 and treats what [make_request] returns, a
    dictionary or a text, as the one item of a listing.  With a dictionary
    it does exactly what a full run does whose listing has this one item.
    When the request fails nothing is done and the exit code is 0.  An
    exception that the item raises ends the run. *)
Theorem restricted_run (fuel : nat) (args : arguments) (w w1 : World) :
  (truthy_ostr (test_snippet_id args) = true ->
   forall item,
     single_snippet srv quote urljoin args w = (Some item, w1) ->
     Http.main srv quote urljoin fuel args w
     = ended (Http.process_snippet srv quote urljoin fuel args
                                   (bitbucket_workspace args) item w1))
  /\ (truthy_ostr (test_snippet_id args) = false ->
      forall sn,
        snippet_listing srv quote urljoin fuel args w
        = Some (Some [sn], w1) ->
        Http.main srv quote urljoin fuel args w
        = ended (Http.process_snippet srv quote urljoin fuel args
                                      (bitbucket_workspace args) (Json sn)
                                      w1))
  /\ (truthy_ostr (test_snippet_id args) = true ->
      single_snippet srv quote urljoin args w = (None, w1) ->
      Http.main srv quote urljoin fuel args w
      = Some ((Http.Exit 0, []), w1)).
Proof.
  assert (Hone : forall item,
    (r <- Http.process_snippets srv quote urljoin fuel args
            (bitbucket_workspace args) [item] ;;
     ret (match snd r with
          | Some e => Http.Uncaught e
          | None => Http.Exit 0
          end, fst r)) w1
    = ended (Http.process_snippet srv quote urljoin fuel args
                                  (bitbucket_workspace args) item w1)).
  { intros item. cbn [Http.process_snippets]. unfold bind, ret, ended.
    destruct (Http.process_snippet srv quote urljoin fuel args
                (bitbucket_workspace args) item w1)
      as [[[evs [e|]] w2]|]; [reflexivity | | reflexivity].
    cbn [snd fst option_map]. rewrite app_nil_r. reflexivity. }
  unfold Http.main, Http.get_bitbucket_snippets, single_snippet,
    snippet_listing.
  split; [|split].
  - intros Hid item Hs. rewrite Hid. unfold bind at 1. unfold bind at 1.
    unfold lift, ret. rewrite Hs.
    destruct item as [sn|s]; [exact (Hone (Json sn))|].
    destruct s as [|a s]; [reflexivity|]. exact (Hone (Text (String a s))).
  - intros Hid sn Hl. rewrite Hid. unfold bind at 1. unfold bind at 1.
    rewrite Hl. unfold ret at 1. exact (Hone (Json sn)).
  - intros Hid Hs. rewrite Hid. unfold bind, lift, ret. rewrite Hs.
    reflexivity.
Qed.

End RestrictedRun.

(** ** The short hash *)

Lemma substring_0_length (n : nat) :
  forall s : string,
    String.length (substring 0 n s) = Nat.min n (String.length s).
Proof.
  induction n as [|n IH]; intros [|a s]; simpl; try reflexivity.
  rewrite IH. reflexivity.
Qed.

Lemma substring_0_prefix (n : nat) :
  forall s : string, prefix (substring 0 n s) s = true.
Proof.
  induction n as [|n IH]; intros [|a s]; simpl; try reflexivity.
  destruct (ascii_dec a a) as [_|Hne]; [apply IH | contradiction].
Qed.

Lemma substring_0_all (n : nat) :
  forall s : string, String.length s <= n -> substring 0 n s = s.
Proof.
  induction n as [|n IH]; intros [|a s]; simpl; try reflexivity.
  - intros H. lia.
  - intros H. rewrite IH by lia. reflexivity.
Qed.

(** X17.  The short hash used in the change summaries is a prefix of the
    hash of at most seven characters: exactly seven of a longer hash, and
    the hash itself when it has seven characters or fewer, as the sentinel
    ["HEAD"] has. *)
Theorem short_hash_is_prefix (c : commit) :
  prefix (short_hash c) (c_hash c) = true
  /\ String.length (short_hash c) = Nat.min 7 (String.length (c_hash c))
  /\ (String.length (c_hash c) <= 7 -> short_hash c = c_hash c).
Proof.
  unfold short_hash. split; [apply substring_0_prefix|].
  split; [apply substring_0_length | apply substring_0_all].
Qed.

(** ** Attribution *)

Section Attribution.

Context {World : Type}.
Variable R : Remote World.
Variable quote : string -> string.
Variable urljoin : string -> string -> string.
Variables (workspace snippet_id : string) (book_id : Z) (filename : string).

Local Abbreviation step :=
  (replay_step R quote urljoin workspace snippet_id book_id filename).
Local Abbreviation run :=
  (replay R quote urljoin workspace snippet_id book_id filename).

Lemma step_summary (c : commit) (s : cursor) (w : World) :
  Forall (fun k => match k with
                   | UpdatePage _ _ summary =>
                       summary = update_summary (commit_info c)
                   | _ => True
                   end) (snd (fst (step c s w))).
Proof.
  unfold replay_step.
  destruct (get_snippet_revision_content R quote urljoin workspace snippet_id
              (c_hash c) filename w) as [[content|] w1]; [|constructor].
  destruct (negb (truthy_id (page_id s))
            && negb (page_created_in_this_run s)).
  - destruct (create_bookstack_page R _ _ _ _ w1) as [[[[id|]]|] w2];
      repeat constructor.
  - destruct (truthy_id (page_id s)
              && negb (processed_first_commit_for_page s)).
    + destruct (negb (eqb_ostr _ _)); [|constructor].
      destruct (update_bookstack_page R _ _ _ w1) as [ok w2].
      repeat constructor.
    + destruct (truthy_id (page_id s) && processed_first_commit_for_page s);
        constructor.
Qed.

Lemma replay_summaries (commits : list commit) :
  forall (i : nat) (s : cursor) (w : World),
    Forall (fun ic =>
              i <= fst ic
              /\ match snd ic with
                 | UpdatePage _ _ summary =>
                     exists c, nth_error commits (fst ic - i) = Some c
                               /\ summary = update_summary (commit_info c)
                 | _ => True
                 end)
           (snd (fst (run i commits s w))).
Proof.
  induction commits as [|c rest IH]; intros i s w; [constructor|].
  rewrite replay_cons. pose proof (step_summary c s w) as Hstep.
  destruct (step c s w) as [[[fl s1] calls] w1]. cbn [fst snd] in Hstep.
  assert (Hhere : Forall (fun ic =>
                            i <= fst ic
                            /\ match snd ic with
                               | UpdatePage _ _ summary =>
                                   exists c0,
                                     nth_error (c :: rest) (fst ic - i)
                                     = Some c0
                                     /\ summary
                                        = update_summary (commit_info c0)
                               | _ => True
                               end) (tag_calls i calls)).
  { unfold tag_calls. apply Forall_map. eapply Forall_impl; [|exact Hstep].
    intros k Hk. cbn [fst snd]. split; [lia|].
    destruct k as [| |id content summary]; [exact I | exact I|].
    exists c. rewrite Nat.sub_diag. split; [reflexivity | exact Hk]. }
  destruct fl; cbn [fst snd]; [|exact Hhere].
  apply Forall_app. split; [exact Hhere|].
  eapply Forall_impl; [|apply (IH (S i) s1 w1)].
  intros [j k] [Hj Hk]. cbn [fst snd] in *. split; [lia|].
  destruct k as [| |id content summary]; [exact I | exact I|].
  destruct Hk as (c0 & Hnth & Hsum). exists c0. split; [|exact Hsum].
  replace (j - i) with (S (j - S i)) by lia. exact Hnth.
Qed.

(** X18.  Every update call of a pass carries the change summary of the
    commit at whose position it is made: the summary built from the short
    hash, author, date and message of that very commit of the sequence. *)
Theorem summaries_name_their_commit (commits : list commit) (s : cursor)
        (w : World) :
  Forall (names_commit commits) (snd (fst (run 0 commits s w))).
Proof.
  eapply Forall_impl; [|apply (replay_summaries commits 0 s w)].
  intros [j k] [_ Hk]. unfold names_commit. cbn [fst snd] in *.
  destruct k as [| |id content summary]; [exact I | exact I|].
  rewrite Nat.sub_0_r in Hk. exact Hk.
Qed.

End Attribution.

(** ** Items of the listing without an identifier *)

Section InvalidSnippets.

Context {World : Type}.
Variable R : Remote World.
Variable quote : string -> string.
Variable urljoin : string -> string -> string.
Variables (fuel : nat) (args : arguments) (workspace : string).

(** X19.  An item of the snippet listing that has no ['id'] is passed over
    without any request: the run is the same as if the listing did not
    contain it. *)
Theorem snippet_without_id_is_passed_over
        (sn : snippet) (before after : list snippet) (w : World) :
  sn_id sn = None ->
  process_snippets R quote urljoin fuel args workspace
                   (before ++ sn :: after) w
  = process_snippets R quote urljoin fuel args workspace (before ++ after) w.
Proof.
  intros Hid. rewrite !process_snippets_app.
  destruct (process_snippets R quote urljoin fuel args workspace before w)
    as [[evs1 w1]|]; [|reflexivity].
  rewrite process_snippets_cons. unfold process_snippet. rewrite Hid.
  unfold ret.
  destruct (process_snippets R quote urljoin fuel args workspace after w1)
    as [[evs2 w2]|]; reflexivity.
Qed.

End InvalidSnippets.

(** * The further properties at work on the example inputs *)

Local Abbreviation k1 := (Mock.mk_commit "h1" "first").
Local Abbreviation k2 := (Mock.mk_commit "h2" "second").
Local Abbreviation k3 := (Mock.mk_commit "h3" "third").
Local Abbreviation k4 := (Mock.mk_commit "h4" "fourth").
Local Abbreviation notes_page :=
  {| pg_id := 2; pg_name := Some "notes.txt" |}.
Local Abbreviation demo_book := {| bk_id := 1; bk_name := Some "demo" |}.

Lemma make_request_none_iff_witness :
  make_request true EmptyString (Responded broken_json) = None
  /\ make_request true EmptyString (Responded null_json) = None
  /\ make_request true EmptyString (Responded html_page)
     = Some (Text "<html>").
Proof.
  split; [|split].
  - apply (proj2 (proj1 (make_request_none_iff _ true EmptyString
                           (Responded broken_json)))).
    right. exists broken_json. split; [reflexivity|]. right. right.
    split; [reflexivity|]. split; [reflexivity|]. left. reflexivity.
  - apply (proj2 (proj1 (make_request_none_iff _ true EmptyString
                           (Responded null_json)))).
    right. exists null_json. split; [reflexivity|]. right. right.
    split; [reflexivity|]. split; [reflexivity|]. right. reflexivity.
  - apply (proj2 (proj2 (proj2 (make_request_none_iff _ true EmptyString
                                  (Responded html_page))) "<html>")).
    exists html_page. split; [reflexivity|].
    split; [simpl; lia|]. split; [discriminate|].
    split; [right; reflexivity | reflexivity].
Defined.

Lemma paginate_over_http_witness :
  paginate (request_page (http_of [("u1", html_page)])) 1 [k1] (Some "u1")
           Mock.empty
  = Some (Some [k1], Mock.empty)
  /\ paginate (request_page (http_of [("u1", broken_json)])) 1 [k1]
              (Some "u1") Mock.empty
     = Some (None, Mock.empty).
Proof.
  split.
  - refine (proj1 (paginate_over_http
                     _ _ (http_of [("u1", html_page)]) 0 [k1] "u1"
                     Mock.empty Mock.empty html_page
                     eq_refl eq_refl eq_refl _) eq_refl).
    discriminate.
  - refine (proj2 (paginate_over_http
                     _ _ (http_of [("u1", broken_json)]) 0 [k1] "u1"
                     Mock.empty Mock.empty broken_json
                     eq_refl eq_refl eq_refl _) eq_refl eq_refl).
    discriminate.
Defined.

Lemma find_bookstack_book_first_match_witness :
  fst (find_bookstack_book (Mock.remote notes_demo) "demo" existing)
  = Some demo_book
  /\ bk_name demo_book = Some "demo"
  /\ exists before after,
      fst (bs_list_books (Mock.remote notes_demo) "demo" existing)
      = Some (Some (before ++ demo_book :: after))
      /\ Forall (fun b' => bk_name b' <> Some "demo") before.
Proof.
  split; [reflexivity|].
  exact (proj1 (find_bookstack_book_first_match
                  (Mock.remote notes_demo) "demo" existing)
               demo_book eq_refl).
Defined.

Lemma find_bookstack_page_name_witness :
  find_bookstack_page (Mock.remote notes_demo) 5 1 "notes.txt" existing
  = Some (Some notes_page, existing)
  /\ pg_name notes_page = Some "notes.txt".
Proof.
  split; [reflexivity|].
  exact (find_bookstack_page_name (Mock.remote notes_demo) 1 "notes.txt" 5
           existing existing notes_page eq_refl).
Defined.

Lemma crowded_is_served :
  serves (Mock.remote notes_demo) 1 (Mock.pages_of 1 crowded) crowded.
Proof.
  intros n. cbn [bs_list_pages Mock.remote]. unfold Mock.list_pages.
  rewrite Nat2Z.id. reflexivity.
Defined.

Lemma find_bookstack_page_complete_witness :
  serves (Mock.remote notes_demo) 1 (Mock.pages_of 1 crowded) crowded
  /\ find_bookstack_page (Mock.remote notes_demo) 102 1 "last.txt" crowded
     = Some (Some {| pg_id := 7; pg_name := Some "last.txt" |}, crowded).
Proof.
  split; [exact crowded_is_served|].
  exact (find_bookstack_page_complete
           (Mock.remote notes_demo) 1 "last.txt" (Mock.pages_of 1 crowded)
           crowded 102 crowded_is_served (le_n 102)).
Defined.

Lemma find_bookstack_page_without_total_witness :
  find_bookstack_page (without_total notes_demo) 102 1 "last.txt" crowded
  = Some (None, crowded).
Proof.
  refine (find_bookstack_page_without_total
            (without_total notes_demo) 1 "last.txt" (Mock.pages_of 1 crowded)
            crowded 101 _).
  intros n. cbn [bs_list_pages without_total with_pages_listing].
  rewrite Nat2Z.id. reflexivity.
Defined.

Lemma pass_shape_witness :
  Forall (fun ic => is_update_of 2 (snd ic))
         (snd (fst (replay (Mock.remote gap_demo) Mock.quote Mock.urljoin
                           "ws" "s1" 1 "notes.txt" 0 [k1; k2; k3; k4]
                           (initial_cursor (Some 2%Z)) existing)))
  /\ (snd (fst (replay (Mock.remote gap_demo) Mock.quote Mock.urljoin
                       "ws" "s1" 1 "notes.txt" 0 [k1; k2; k3; k4]
                       (initial_cursor None) Mock.empty)) = []
      \/ exists k content tr,
          snd (fst (replay (Mock.remote gap_demo) Mock.quote Mock.urljoin
                           "ws" "s1" 1 "notes.txt" 0 [k1; k2; k3; k4]
                           (initial_cursor None) Mock.empty))
          = (k, CreatePage 1 "notes.txt" (compose_page_content content))
              :: tr
          /\ (tr = []
              \/ exists id, id <> 0%Z
                            /\ Forall (fun ic => is_update_of id (snd ic))
                                      tr)).
Proof.
  split.
  - exact (proj1 (pass_shape (Mock.remote gap_demo) Mock.quote Mock.urljoin
                    "ws" "s1" 1 "notes.txt" [k1; k2; k3; k4] (Some 2%Z)
                    existing) eq_refl).
  - exact (proj2 (pass_shape (Mock.remote gap_demo) Mock.quote Mock.urljoin
                    "ws" "s1" 1 "notes.txt" [k1; k2; k3; k4] None
                    Mock.empty) eq_refl).
Defined.

Lemma updates_change_the_text_witness :
  written (snd (fst (replay (Mock.remote same_text_demo) Mock.quote
                            Mock.urljoin "ws" "s1" 1 "notes.txt" 0 [k1; k2]
                            (initial_cursor (Some 2%Z)) read_only)))
  = [compose_page_content "same"]
  /\ changes None
             (written
                (snd (fst (replay (Mock.remote same_text_demo) Mock.quote
                                  Mock.urljoin "ws" "s1" 1 "notes.txt" 0
                                  [k1; k2] (initial_cursor (Some 2%Z))
                                  read_only)))).
Proof.
  split; [reflexivity|].
  exact (updates_change_the_text
           (Mock.remote same_text_demo) Mock.quote Mock.urljoin "ws" "s1" 1
           "notes.txt" [k1; k2] 0 (initial_cursor (Some 2%Z)) read_only
           eq_refl eq_refl).
Defined.

Lemma nothing_fetched_nothing_written_witness :
  process_file (Mock.remote late_demo) Mock.quote Mock.urljoin 5 Mock.args0
               "ws" "s1" 1 [k1; k2] "notes.txt" Mock.empty
  = Some ([NotCreated "s1" "notes.txt"], Mock.empty)
  /\ process_file (Mock.remote late_demo) Mock.quote Mock.urljoin 5
                  Mock.args0 "ws" "s1" 1 [k1; k2] "notes.txt" existing
     = Some ([], existing).
Proof.
  split.
  - exact (proj1 (nothing_fetched_nothing_written
                    (Mock.remote late_demo) Mock.quote Mock.urljoin "ws" "s1"
                    1 "notes.txt" 5 Mock.args0 [k1; k2] None Mock.empty
                    Mock.empty Mock.empty eq_refl eq_refl) eq_refl).
  - refine (proj2 (nothing_fetched_nothing_written
                     (Mock.remote late_demo) Mock.quote Mock.urljoin "ws"
                     "s1" 1 "notes.txt" 5 Mock.args0 [k1; k2]
                     (Some notes_page) existing existing existing
                     eq_refl eq_refl) notes_page eq_refl _ eq_refl).
    discriminate.
Defined.

Lemma failed_search_leads_to_create_witness :
  find_bookstack_page (Mock.remote late_demo) 5 1 "notes.txt" existing
  = Some (Some notes_page, existing)
  /\ find_bookstack_page (without_listing late_demo) 5 1 "notes.txt" existing
     = Some (None, existing)
  /\ exists evs w',
      process_file (without_listing late_demo) Mock.quote Mock.urljoin 5
                   Mock.args0 "ws" "s1" 1 ([k1; k2] ++ k3 :: [k4])
                   "notes.txt" existing
      = Some (OnPage "s1" "notes.txt" 2
                     (CreatePage 1 "notes.txt" (compose_page_content "A"))
                :: evs, w').
Proof.
  split; [reflexivity|].
  exact (failed_search_leads_to_create
           (without_listing late_demo) Mock.quote Mock.urljoin "ws" "s1" 1
           "notes.txt" 4 Mock.args0 [k1; k2] k3 [k4] "A" existing existing
           existing existing eq_refl eq_refl eq_refl).
Defined.


Lemma pages_go_to_the_snippets_book_witness :
  exists evs w',
    process_snippet (Mock.remote abc_demo) Mock.quote Mock.urljoin 5
                    Mock.args0 "ws" demo_snippet existing = Some (evs, w')
    /\ Forall (in_book "s1" 1) evs.
Proof.
  destruct (process_snippet (Mock.remote abc_demo) Mock.quote Mock.urljoin 5
                            Mock.args0 "ws" demo_snippet existing)
    as [[evs w']|] eqn:E.
  - exists evs, w'. split; [reflexivity|].
    exact (proj1 (pages_go_to_the_snippets_book
                    (Mock.remote abc_demo) Mock.quote Mock.urljoin 5
                    Mock.args0 "ws" demo_snippet "s1" existing existing w'
                    evs eq_refl E) demo_book eq_refl).
  - vm_compute in E. discriminate E.
Defined.

Lemma main_fuel_monotone_witness :
  option_map fst (Mock.run_main notes_demo 9 Mock.args0 Mock.empty)
  = option_map fst (Mock.run_main notes_demo 5 Mock.args0 Mock.empty).
Proof.
  destruct (Mock.run_main notes_demo 5 Mock.args0 Mock.empty)
    as [r|] eqn:E; [|vm_compute in E; discriminate E].
  assert (Hle : 5 <= 9) by (repeat constructor).
  unfold Mock.run_main in *.
  rewrite (main_fuel_monotone (Mock.remote notes_demo) Mock.quote
             Mock.urljoin 5 9 Mock.args0 Hle Mock.empty r E).
  reflexivity.
Defined.

Lemma history_as_far_as_walked_witness :
  walk (bb_commits_page (Mock.remote malformed_history))
       (Some (commits_url Mock.quote Mock.urljoin "ws" "s1")) Mock.empty
       [] BadShape Mock.empty
  /\ process_book (Mock.remote malformed_history) Mock.quote Mock.urljoin 5
                  Mock.args0 "ws" "s1" 1 Mock.empty
     = process_files (Mock.remote malformed_history) Mock.quote Mock.urljoin
                     5 Mock.args0 "ws" "s1" 1
                     [synthesized_commit demo_snippet] ["notes.txt"]
                     Mock.empty.
Proof.
  assert (Hw : walk (bb_commits_page (Mock.remote malformed_history))
                    (Some (commits_url Mock.quote Mock.urljoin "ws" "s1"))
                    Mock.empty [] BadShape Mock.empty)
    by (apply walk_shape; reflexivity).
  split; [exact Hw|].
  refine (history_as_far_as_walked
            (Mock.remote malformed_history) Mock.quote Mock.urljoin 5
            Mock.args0 "ws" "s1" 1 demo_snippet ["notes.txt"] [] BadShape
            Mock.empty Mock.empty Mock.empty _ eq_refl eq_refl _ Hw _).
  - discriminate.
  - discriminate.
  - repeat constructor.
Defined.

Lemma short_hash_is_prefix_witness :
  String.length (c_hash (synthesized_commit demo_snippet)) <= 7
  /\ short_hash (synthesized_commit demo_snippet) = "HEAD".
Proof.
  assert (H : String.length (c_hash (synthesized_commit demo_snippet)) <= 7)
    by (simpl; lia).
  split; [exact H|].
  exact (proj2 (proj2 (short_hash_is_prefix (synthesized_commit demo_snippet)))
               H).
Defined.

Lemma snippet_without_id_is_passed_over_witness :
  process_snippets (Mock.remote notes_demo) Mock.quote Mock.urljoin 5
                   Mock.args0 "ws" ([] ++ nameless_snippet :: [demo_snippet])
                   Mock.empty
  = process_snippets (Mock.remote notes_demo) Mock.quote Mock.urljoin 5
                     Mock.args0 "ws" ([] ++ [demo_snippet]) Mock.empty.
Proof.
  exact (snippet_without_id_is_passed_over
           (Mock.remote notes_demo) Mock.quote Mock.urljoin 5 Mock.args0 "ws"
           nameless_snippet [] [demo_snippet] Mock.empty eq_refl).
Defined.

Lemma restricted_run_witness :
  Http.main (serve (Mock.remote notes_demo)) Mock.quote Mock.urljoin 5
            args_one Mock.empty
  = Http.main (serve (Mock.remote notes_demo)) Mock.quote Mock.urljoin 5
              Mock.args0 Mock.empty
  /\ Http.main (with_snippet_response (serve (Mock.remote notes_demo))
                                      login_page)
               Mock.quote Mock.urljoin 5 args_one Mock.empty
     = Some ((Http.Uncaught (Http.TypeError 289), []), Mock.empty).
Proof.
  split.
  - rewrite (proj1 (restricted_run (serve (Mock.remote notes_demo))
                      Mock.quote Mock.urljoin 5 args_one Mock.empty
                      Mock.empty) eq_refl (Json demo_snippet) eq_refl).
    rewrite (proj1 (proj2 (restricted_run (serve (Mock.remote notes_demo))
                             Mock.quote Mock.urljoin 5 Mock.args0
                             Mock.empty Mock.empty))
                   eq_refl demo_snippet eq_refl).
    reflexivity.
  - rewrite (proj1 (restricted_run
                      (with_snippet_response
                         (serve (Mock.remote notes_demo)) login_page)
                      Mock.quote Mock.urljoin 5 args_one Mock.empty
                      Mock.empty) eq_refl (Text (text login_page))
                   eq_refl).
    reflexivity.
Defined.
